(** * py-winget-source: release resolution, asset selection and the provider registry

    A shallow embedding of [src/package_managers/{base,github,registry}.py],
    of [src/manifest_parser.py] and of [process_package] of [src/main.py].

    Conventions of the embedding.
    - A Python [str] is a Rocq [string]; one [ascii] stands for one code point,
      so the model covers text in the Latin-1 range (code points below 256),
      and every statement about a URL, a pattern or a name is a statement
      about text of that range.
    - A value decoded by [response.json()] is a [json] tree.  JSON numbers
      with a fraction (Python floats) are outside the model.
    - Code that prints, performs requests or raises lives in the monad [M]:
      a trace of events together with either an exception or a value.
      Only subclasses of [Exception] are modelled, which is what the
      [except Exception] clauses of the source can see.
    - The library functions the source calls ([re], [urllib.parse.urlparse],
      [aiohttp]) are not part of the repository.  [urlparse] and the fragment
      of [re] that the fixed patterns of [extract_repo_info] need are
      modelled after CPython (3.11); the regular-expression engine applied
      to user-supplied patterns, urllib's validation of a bracketed host,
      the environment and the network are parameters ([Runtime]).
    - The code around release resolution (the two other queries of the
      GitHub provider, the manifest parser, [process_package]) lives in the
      monad [IO], which adds its printed lines and the exceptions of the
      manifest's file to the events of [M].  The file system and PyYAML
      are a parameter ([ManifestParser.Files]).  [main] itself runs the
      packages concurrently with [asyncio.gather] and is not modelled. *)

From Stdlib Require Import String Ascii List ZArith NArith Bool Arith Lia DecimalString.
Import ListNotations.

Set Warnings "-register-all".

Local Open Scope string_scope.
Local Open Scope list_scope.

(* ===================================================================== *)
(** ** Python strings *)
(* ===================================================================== *)

Module PyStr.

(** [c.lower()] for one character of the Latin-1 range: [A-Z] and the
    accented capitals U+00C0..U+00DE (U+00D7, the multiplication sign,
    apart) move up by 32. *)
Definition lower_ascii (c : ascii) : ascii :=
  let n := N_of_ascii c in
  if ((65 <=? n) && (n <=? 90) || (192 <=? n) && (n <=? 222) && negb (n =? 215))%N
  then ascii_of_N (n + 32) else c.

(** [c.upper()] restricted to the characters whose capital is again in
    Latin-1 (U+00B5, U+00DF and U+00FF keep their value). *)
Definition upper_ascii (c : ascii) : ascii :=
  let n := N_of_ascii c in
  if ((97 <=? n) && (n <=? 122) || (224 <=? n) && (n <=? 254) && negb (n =? 247))%N
  then ascii_of_N (n - 32) else c.

Definition lower_chars (l : list ascii) : list ascii := map lower_ascii l.

(** [s.lower()] *)
Definition lower (s : string) : string :=
  string_of_list_ascii (lower_chars (list_ascii_of_string s)).

Fixpoint chars_eqb (a b : list ascii) : bool :=
  match a, b with
  | [], [] => true
  | x :: a', y :: b' => Ascii.eqb x y && chars_eqb a' b'
  | _, _ => false
  end.

(** [s.startswith(p)] on character lists. *)
Fixpoint starts_with (p s : list ascii) : bool :=
  match p, s with
  | [], _ => true
  | x :: p', y :: s' => Ascii.eqb x y && starts_with p' s'
  | _ :: _, [] => false
  end.

(** [s.endswith(suffix)] *)
Definition endswith (s suffix : string) : bool :=
  starts_with (rev (list_ascii_of_string suffix)) (rev (list_ascii_of_string s)).

(** [s[:-n]] for [n > 0]. *)
Definition drop_last (n : nat) (s : string) : string :=
  let l := list_ascii_of_string s in
  string_of_list_ascii (firstn (List.length l - n) l).

(** [c in s] for a single character [c]. *)
Definition mem_char (c : ascii) (s : list ascii) : bool :=
  existsb (Ascii.eqb c) s.

(** [x in [a, b, ...]] for strings. *)
Definition mem_string (x : string) (l : list string) : bool :=
  existsb (String.eqb x) l.

(** Lexicographic [a < b] by code point. *)
Fixpoint chars_ltb (a b : list ascii) : bool :=
  match a, b with
  | _, [] => false
  | [], _ :: _ => true
  | x :: a', y :: b' =>
      if (N_of_ascii x <? N_of_ascii y)%N then true
      else if (N_of_ascii y <? N_of_ascii x)%N then false
      else chars_ltb a' b'
  end.

Definition ltb (a b : string) : bool :=
  chars_ltb (list_ascii_of_string a) (list_ascii_of_string b).

End PyStr.

(* ===================================================================== *)
(** ** Decoded JSON values and the Python operations the source applies *)
(* ===================================================================== *)

Inductive json : Type :=
| JNull
| JBool (b : bool)
| JInt (z : Z)
| JStr (s : string)
| JList (l : list json)
| JDict (d : list (string * json)).

(** The subclasses of [Exception] that the modelled code can meet.  The
    text of a message is reduced to its interpolated argument. *)
Inductive exn : Type :=
| KeyError (key : json)
| IndexError
| TypeError
| AttributeError
| ValueError (arg : string)
| ReError (arg : string)          (* re.error *)
| TransportError (arg : string).  (* aiohttp.ClientError, JSON decoding, ... *)

(** Pure code that may raise: an exception or a value. *)
Definition E (A : Type) : Type := (exn + A)%type.

(** A dict keeps one binding per key; lookup returns the first one. *)
Fixpoint dict_get (d : list (string * json)) (k : string) : option json :=
  match d with
  | [] => None
  | (k', v) :: d' => if String.eqb k k' then Some v else dict_get d' k
  end.

Module Py.

(** Truth value of an object: [bool(v)]. *)
Definition truthy (v : json) : bool :=
  match v with
  | JNull => false
  | JBool b => b
  | JInt z => negb (z =? 0)%Z
  | JStr s => negb (String.eqb s "")
  | JList l => match l with [] => false | _ => true end
  | JDict d => match d with [] => false | _ => true end
  end.

(** [a or b] *)
Definition or_ (a b : json) : json := if truthy a then a else b.

(** [a and b] *)
Definition and_ (a b : json) : json := if truthy a then b else a.

(** [v[k]] with a string subscript. *)
Definition getitem (v : json) (k : string) : E json :=
  match v with
  | JDict d => match dict_get d k with
               | Some x => inr x
               | None => inl (KeyError (JStr k))
               end
  | _ => inl TypeError
  end.

(** [v[0]] *)
Definition getitem0 (v : json) : E json :=
  match v with
  | JList l => match l with x :: _ => inr x | [] => inl IndexError end
  | JStr s => match s with
              | String c _ => inr (JStr (String c EmptyString))
              | EmptyString => inl IndexError
              end
  | JDict _ => inl (KeyError (JInt 0))
  | _ => inl TypeError
  end.

(** [v.get(k, default)]: only dicts have the method. *)
Definition get (v : json) (k : string) (default : json) : E json :=
  match v with
  | JDict d => match dict_get d k with
               | Some x => inr x
               | None => inr default
               end
  | _ => inl AttributeError
  end.

(** The items a [for] loop visits. *)
Definition iter (v : json) : E (list json) :=
  match v with
  | JList l => inr l
  | JDict d => inr (map (fun kv => JStr (fst kv)) d)
  | JStr s => inr (map (fun c => JStr (String c EmptyString)) (list_ascii_of_string s))
  | _ => inl TypeError
  end.

(** [len(v)] *)
Definition len (v : json) : E Z :=
  match v with
  | JStr s => inr (Z.of_nat (String.length s))
  | JList l => inr (Z.of_nat (List.length l))
  | JDict d => inr (Z.of_nat (List.length d))
  | _ => inl TypeError
  end.

Definition bool_to_Z (b : bool) : Z := if b then 1%Z else 0%Z.

(** [x == y].  [True == 1]; dicts compare without regard to order. *)
Fixpoint eq (x y : json) {struct x} : bool :=
  match x, y with
  | JNull, JNull => true
  | JBool a, JBool b => Bool.eqb a b
  | JBool a, JInt z => (bool_to_Z a =? z)%Z
  | JInt z, JBool a => (z =? bool_to_Z a)%Z
  | JInt a, JInt b => (a =? b)%Z
  | JStr a, JStr b => String.eqb a b
  | JList l1, JList l2 =>
      (fix go (l1 l2 : list json) : bool :=
         match l1, l2 with
         | [], [] => true
         | a :: l1', b :: l2' => eq a b && go l1' l2'
         | _, _ => false
         end) l1 l2
  | JDict d1, JDict d2 =>
      Nat.eqb (List.length d1) (List.length d2) &&
      (fix go (d : list (string * json)) : bool :=
         match d with
         | [] => true
         | (k, v) :: d' =>
             match dict_get d2 k with
             | Some w => eq v w
             | None => false
             end && go d'
         end) d1
  | _, _ => false
  end.

(** [x > y]: numbers with numbers, strings with strings, lists with
    lists (first differing item decides, else the longer one is greater);
    anything else raises [TypeError]. *)
Fixpoint gt (x y : json) {struct x} : E bool :=
  match x, y with
  | JBool a, JBool b => inr (bool_to_Z b <? bool_to_Z a)%Z
  | JBool a, JInt z => inr (z <? bool_to_Z a)%Z
  | JInt z, JBool a => inr (bool_to_Z a <? z)%Z
  | JInt a, JInt b => inr (b <? a)%Z
  | JStr a, JStr b => inr (PyStr.ltb b a)
  | JList l1, JList l2 =>
      (fix go (l1 l2 : list json) : E bool :=
         match l1, l2 with
         | [], _ => inr false
         | _ :: _, [] => inr true
         | a :: l1', b :: l2' => if eq a b then go l1' l2' else gt a b
         end) l1 l2
  | _, _ => inl TypeError
  end.

(** [(c1, n1) > (c2, n2)] for the two-item tuples used as ranking keys:
    the first pair of items that differ under [==] decides. *)
Definition tuple2_gt (k1 k2 : json * Z) : E bool :=
  let '(c1, n1) := k1 in
  let '(c2, n2) := k2 in
  if eq c1 c2 then inr (n2 <? n1)%Z else gt c1 c2.

End Py.

(* ===================================================================== *)
(** ** Effects: exceptions, printed diagnostics and requests *)
(* ===================================================================== *)

(** One constructor per [print] of the modelled code; the comment gives the
    format string of the source. *)
Inductive diagnostic : Type :=
| MsgReleaseError (e : exn)
    (* 获取 GitHub release 时出错: {e} *)
| MsgNoReleasePublished (owner repo : string)
    (* 仓库 {owner}/{repo} 没有发布任何 release *)
| MsgApiLimited (status : Z)
    (* API 限制或权限问题: {response.status} *)
| MsgReleaseHttpFailed (status : Z)
    (* 获取 release 失败: HTTP {response.status} *)
| MsgReleasesHttpFailed (status : Z)
    (* 获取 releases 失败: HTTP {response.status} *)
| MsgNoReleases (owner repo : string)
    (* 仓库 {owner}/{repo} 没有任何 release *)
| MsgNoAssetMatched (pattern : string)
    (* 没有找到匹配 pattern '{pattern}' 的资源文件 *)
| MsgAssetSelected (count : nat) (name : json)
    (* 找到 {len(matching_assets)} 个匹配的文件，选择: {best_asset['name']} *)
| MsgPatternInvalid (pattern : string) (e : exn)
    (* 正则表达式 pattern '{pattern}' 有误: {e} *)
| MsgPatternFailed (e : exn)
    (* 处理 pattern 时出错: {e} *)
| MsgNoManager (url : string).
    (* 没有找到支持该 URL 的包管理器: {url} *)

(** [session.get(url, headers=..., params=...)] *)
Record request : Type := mkRequest {
  req_url : string;
  req_headers : list (string * string);
  req_params : list (string * Z)
}.

(** What the code reads from a response: [response.status] and the outcome
    of [await response.json()]. *)
Record response : Type := mkResponse {
  status : Z;
  json_body : exn + json
}.

Inductive event : Type :=
| EvPrint (d : diagnostic)
| EvGet (r : request).

(** Code that may also print and send requests: the events in program
    order, and the outcome. *)
Definition M (A : Type) : Type := (list event * (exn + A))%type.

Class Monad (m : Type -> Type) : Type := {
  ret : forall {A}, A -> m A;
  bind : forall {A B}, m A -> (A -> m B) -> m B
}.

#[export] Instance Monad_E : Monad E := {
  ret := fun A x => inr x;
  bind := fun A B c f => match c with inl e => inl e | inr x => f x end
}.

#[export] Instance Monad_M : Monad M := {
  ret := fun A x => ([], inr x);
  bind := fun A B c f =>
    match c with
    | (t, inl e) => (t, inl e)
    | (t, inr x) => let '(t', r) := f x in (t ++ t', r)
    end
}.

Declare Scope monad_scope.
Delimit Scope monad_scope with monad.
Notation "x <- c ;; k" := (bind c (fun x => k))
  (at level 61, c at next level, right associativity) : monad_scope.
Notation "c ;;; k" := (bind c (fun _ => k))
  (at level 61, right associativity) : monad_scope.
Local Open Scope monad_scope.

(** Pure code run inside effectful code. *)
Definition lift {A} (c : E A) : M A := ([], c).

Definition raise {A} (e : exn) : M A := ([], inl e).

Definition print (d : diagnostic) : M unit := ([EvPrint d], inr tt).

(** [try: body  except Exception as e: handler(e)] *)
Definition try_except {A} (body : M A) (handler : exn -> M A) : M A :=
  match body with
  | (t, inl e) => let '(t', r) := handler e in (t ++ t', r)
  | (t, inr x) => (t, inr x)
  end.

Definition trace_of {A} (c : M A) : list event := fst c.
Definition outcome {A} (c : M A) : exn + A := snd c.

(** The diagnostics printed by a run, in order. *)
Definition printed {A} (c : M A) : list diagnostic :=
  flat_map (fun ev => match ev with EvPrint d => [d] | EvGet _ => [] end) (trace_of c).

(** The requests sent by a run, in order. *)
Definition requested {A} (c : M A) : list request :=
  flat_map (fun ev => match ev with EvGet r => [r] | EvPrint _ => [] end) (trace_of c).

(* ===================================================================== *)
(** ** The fragment of Python's [re] used by the fixed patterns *)
(* ===================================================================== *)

(** A backtracking matcher with CPython's priorities (leftmost start,
    alternatives left to right, greedy repeats longest first, lazy repeats
    shortest first).  The fragment: literals, [\] before a punctuation
    character, [.], sets [[...]] and [[^...]] with ranges, [^], [$], groups
    [(...)] and [(?:...)], [|], and the repeats [*], [+], [?] with their lazy
    forms.  A repeated body is taken to consume at least one character per
    iteration, which holds for every pattern of the source. *)
Module Re.

Inductive regex : Type :=
| REmpty
| RChar (c : ascii)
| RAny
| RSet (negated : bool) (ranges : list (ascii * ascii))
| RBol
| REol
| RSeq (r1 r2 : regex)
| RAlt (r1 r2 : regex)
| RGroup (n : nat) (r : regex)
| ROpt (greedy : bool) (r : regex)
| RStar (greedy : bool) (r : regex).

(** [r+] and [r+?] *)
Definition RPlus (greedy : bool) (r : regex) : regex := RSeq r (RStar greedy r).

(** Captured groups, most recent first. *)
Definition captures : Type := list (nat * list ascii).

Fixpoint group_lookup (c : captures) (n : nat) : option (list ascii) :=
  match c with
  | [] => None
  | (m, s) :: c' => if Nat.eqb n m then Some s else group_lookup c' n
  end.

Definition newline : ascii := ascii_of_N 10.

Definition in_range (x : ascii) (r : ascii * ascii) : bool :=
  ((N_of_ascii (fst r) <=? N_of_ascii x) && (N_of_ascii x <=? N_of_ascii (snd r)))%N.

Definition in_ranges (x : ascii) (rs : list (ascii * ascii)) : bool :=
  existsb (in_range x) rs.

Section Matcher.

(** [re.IGNORECASE] *)
Variable ignorecase : bool.
(** Length of the whole subject, to recognise its start. *)
Variable total : nat.

Definition char_matches (c x : ascii) : bool :=
  if ignorecase
  then Ascii.eqb (PyStr.lower_ascii c) (PyStr.lower_ascii x)
  else Ascii.eqb c x.

Definition set_matches (negated : bool) (rs : list (ascii * ascii)) (x : ascii) : bool :=
  let hit :=
    if ignorecase
    then in_ranges x rs || in_ranges (PyStr.lower_ascii x) rs
         || in_ranges (PyStr.upper_ascii x) rs
    else in_ranges x rs in
  xorb negated hit.

Definition orelse (a b : option captures) : option captures :=
  match a with Some x => Some x | None => b end.

(** The iterations of a repeat whose body is matched by [body]: a greedy
    repeat tries one more iteration before it lets [k] continue, a lazy one
    lets [k] continue first.  An iteration must consume something. *)
Fixpoint star_loop (greedy : bool)
         (body : list ascii -> captures -> (list ascii -> captures -> option captures)
                 -> option captures)
         (k : list ascii -> captures -> option captures)
         (fuel : nat) (s : list ascii) (c : captures) {struct fuel} : option captures :=
  match fuel with
  | O => k s c
  | S fuel' =>
      let again :=
        body s c (fun s' c' =>
                    if Nat.ltb (List.length s') (List.length s)
                    then star_loop greedy body k fuel' s' c' else None) in
      if greedy then orelse again (k s c) else orelse (k s c) again
  end.

(** [rmatch r s c k]: match [r] at the front of [s], then hand the rest
    of the subject and the captures to [k]; [None] asks the caller to
    backtrack. *)
Fixpoint rmatch (r : regex) (s : list ascii) (c : captures)
         (k : list ascii -> captures -> option captures) {struct r} : option captures :=
  match r with
  | REmpty => k s c
  | RChar a =>
      match s with
      | x :: s' => if char_matches a x then k s' c else None
      | [] => None
      end
  | RAny =>
      match s with
      | x :: s' => if Ascii.eqb x newline then None else k s' c
      | [] => None
      end
  | RSet negated rs =>
      match s with
      | x :: s' => if set_matches negated rs x then k s' c else None
      | [] => None
      end
  | RBol => if Nat.eqb (List.length s) total then k s c else None
  | REol =>
      match s with
      | [] => k s c
      | [x] => if Ascii.eqb x newline then k s c else None
      | _ => None
      end
  | RSeq r1 r2 => rmatch r1 s c (fun s' c' => rmatch r2 s' c' k)
  | RAlt r1 r2 => orelse (rmatch r1 s c k) (rmatch r2 s c k)
  | RGroup n r1 =>
      rmatch r1 s c
        (fun s' c' => k s' ((n, firstn (List.length s - List.length s') s) :: c'))
  | ROpt greedy r1 =>
      if greedy then orelse (rmatch r1 s c k) (k s c)
      else orelse (k s c) (rmatch r1 s c k)
  | RStar greedy r1 => star_loop greedy (rmatch r1) k (List.length s) s c
  end.

(** Try the start positions from left to right. *)
Fixpoint search_from (r : regex) (s : list ascii) : option captures :=
  match rmatch r s [] (fun _ c => Some c) with
  | Some c => Some c
  | None =>
      match s with
      | [] => None
      | _ :: s' => search_from r s'
      end
  end.

End Matcher.

(** [re.search] for a compiled pattern: the captures of the first match. *)
Definition search_regex (ignorecase : bool) (r : regex) (subject : string)
  : option captures :=
  let s := list_ascii_of_string subject in
  search_from ignorecase (List.length s) r s.

(** [match.group(n)] for a group that took part in the match. *)
Definition group (m : captures) (n : nat) : string :=
  match group_lookup m n with
  | Some s => string_of_list_ascii s
  | None => ""
  end.


(** *** Compiling a pattern of the fragment *)

Inductive compile_error : Type :=
| PatternError (msg : string)   (* re.error raised by CPython *)
| Unsupported.                  (* valid or not, outside the fragment *)

Definition is_alnum (c : ascii) : bool :=
  let n := N_of_ascii c in
  ((48 <=? n) && (n <=? 57) || (65 <=? n) && (n <=? 90) || (97 <=? n) && (n <=? 122))%N.

Definition is_repeat_char (c : ascii) : bool :=
  Ascii.eqb c "*" || Ascii.eqb c "+" || Ascii.eqb c "?".

Definition mkseq (r1 r2 : regex) : regex :=
  match r1 with
  | REmpty => r2
  | _ => RSeq r1 r2
  end.

Definition mkalt (branches : option regex) (r : regex) : regex :=
  match branches with
  | None => r
  | Some b => RAlt b r
  end.

(** The members of a set, after [[] or [[^]; [first] tells that no member
    was read yet, where a []] stands for itself. *)
Fixpoint parse_set_items (p : list ascii) (first : bool) (acc : list (ascii * ascii))
  : compile_error + (list (ascii * ascii) * list ascii) :=
  match p with
  | [] => inl (PatternError "unterminated character set")
  | c :: p1 =>
      if Ascii.eqb c "]" && negb first then inr (acc, p1)
      else if Ascii.eqb c "\" then inl Unsupported
      else
        match p1 with
        | d :: (e :: p3) as p2 =>
            if Ascii.eqb d "-" && negb (Ascii.eqb e "]") then
              if Ascii.eqb e "\" then inl Unsupported
              else if (N_of_ascii e <? N_of_ascii c)%N
                   then inl (PatternError "bad character range")
                   else parse_set_items p3 false (acc ++ [(c, e)])
            else parse_set_items p1 false (acc ++ [(c, c)])
        | _ => parse_set_items p1 false (acc ++ [(c, c)])
        end
  end.

(** An optional repeat after an atom. *)
Definition parse_repeat (atom : regex) (p : list ascii)
  : compile_error + (regex * list ascii) :=
  match p with
  | q :: p1 =>
      if is_repeat_char q then
        let '(greedy, p2) :=
          match p1 with
          | l :: p2 => if Ascii.eqb l "?" then (false, p2) else (true, p1)
          | [] => (true, p1)
          end in
        match p2 with
        | x :: _ =>
            if is_repeat_char x || Ascii.eqb x "{" then inl Unsupported
            else inr ((if Ascii.eqb q "*" then RStar greedy atom
                       else if Ascii.eqb q "+" then RPlus greedy atom
                       else ROpt greedy atom), p2)
        | [] =>
            inr ((if Ascii.eqb q "*" then RStar greedy atom
                  else if Ascii.eqb q "+" then RPlus greedy atom
                  else ROpt greedy atom), p2)
        end
      else if Ascii.eqb q "{" then inl Unsupported
      else inr (atom, p)
  | [] => inr (atom, p)
  end.

(** Parse alternatives up to the end of the pattern or an unmatched [)].
    [g] is the number of the next capturing group, [seq] the branch read
    so far, [branches] the alternatives before it. *)
Fixpoint parse (fuel : nat) (p : list ascii) (g : nat) (seq : regex)
         (branches : option regex) {struct fuel}
  : compile_error + (regex * list ascii * nat) :=
  match fuel with
  | O => inl Unsupported
  | S fuel' =>
      let after_atom (atom : regex) (rest : list ascii) (g' : nat) :=
        match parse_repeat atom rest with
        | inl e => inl e
        | inr (r, rest') => parse fuel' rest' g' (mkseq seq r) branches
        end in
      match p with
      | [] => inr (mkalt branches seq, [], g)
      | c :: p1 =>
          if Ascii.eqb c ")" then inr (mkalt branches seq, p, g)
          else if Ascii.eqb c "|" then parse fuel' p1 g REmpty (Some (mkalt branches seq))
          else if Ascii.eqb c "(" then
            let opened :=
              match p1 with
              | q :: p2 =>
                  if Ascii.eqb q "?" then
                    match p2 with
                    | x :: p3 => if Ascii.eqb x ":" then inr (false, p3) else inl Unsupported
                    | [] => inl (PatternError "unexpected end of pattern")
                    end
                  else inr (true, p1)
              | [] => inr (true, p1)
              end in
            match opened with
            | inl e => inl e
            | inr (capturing, body) =>
                match parse fuel' body (if capturing then S g else g) REmpty None with
                | inl e => inl e
                | inr (r, rest, g') =>
                    match rest with
                    | x :: rest' =>
                        (* [parse] stops only at the end or at a [)] *)
                        after_atom (if capturing then RGroup g r else r) rest' g'
                    | [] => inl (PatternError "missing ), unterminated subpattern")
                    end
                end
            end
          else if is_repeat_char c then inl (PatternError "nothing to repeat")
          else if Ascii.eqb c "{" then inl Unsupported
          else if Ascii.eqb c "[" then
            let '(negated, items) :=
              match p1 with
              | x :: p2 => if Ascii.eqb x "^" then (true, p2) else (false, p1)
              | [] => (false, p1)
              end in
            match parse_set_items items true [] with
            | inl e => inl e
            | inr (ranges, rest) => after_atom (RSet negated ranges) rest g
            end
          else if Ascii.eqb c "." then after_atom RAny p1 g
          else if Ascii.eqb c "^" then
            match p1 with
            | x :: _ => if is_repeat_char x || Ascii.eqb x "{" then inl Unsupported
                        else parse fuel' p1 g (mkseq seq RBol) branches
            | [] => parse fuel' p1 g (mkseq seq RBol) branches
            end
          else if Ascii.eqb c "$" then
            match p1 with
            | x :: _ => if is_repeat_char x || Ascii.eqb x "{" then inl Unsupported
                        else parse fuel' p1 g (mkseq seq REol) branches
            | [] => parse fuel' p1 g (mkseq seq REol) branches
            end
          else if Ascii.eqb c "\" then
            match p1 with
            | x :: p2 => if is_alnum x then inl Unsupported else after_atom (RChar x) p2 g
            | [] => inl (PatternError "bad escape (end of pattern)")
            end
          else after_atom (RChar c) p1 g
      end
  end.

(** [re.compile(pattern)] on the fragment. *)
Definition compile (pattern : string) : compile_error + regex :=
  let p := list_ascii_of_string pattern in
  match parse (S (List.length p)) p 1 REmpty None with
  | inl e => inl e
  | inr (r, rest, _) =>
      match rest with
      | [] => inr r
      | _ :: _ => inl (PatternError "unbalanced parenthesis")
      end
  end.

(** [re.search(pattern, subject)] with a pattern of the fragment given as
    text; [None] also when the pattern does not compile in the fragment. *)
Definition search (pattern subject : string) : option captures :=
  match compile pattern with
  | inr r => search_regex false r subject
  | inl _ => None
  end.

End Re.

(* ===================================================================== *)
(** ** What the code takes from its runtime *)
(* ===================================================================== *)

(** The standard library and [aiohttp] are not code of this repository.
    Their parts that are not modelled by a definition of this file are the
    fields of [Runtime]. *)
Class Runtime : Type := {
  (** A pattern object of [re]. *)
  pattern_object : Type;
  (** [re.compile(pattern, re.IGNORECASE)]; it raises [re.error] on a
      malformed pattern. *)
  re_compile_ignorecase : string -> exn + pattern_object;
  (** [regex.search(name)] as a truth value, for [name] a [str]. *)
  regex_search : pattern_object -> string -> bool;
  (** urllib's validation of a netloc holding both [[] and []]
      ([_check_bracketed_netloc]): [Some msg] when it raises [ValueError]. *)
  check_bracketed_netloc : string -> option string;
  (** [os.environ.get(name)] *)
  environ_get : string -> option string;
  (** The response the network gives to a GET request, or the exception
      [session.get] raises. *)
  session_get : request -> exn + response
}.

(* ===================================================================== *)
(** ** [urllib.parse.urlparse], as far as [netloc] *)
(* ===================================================================== *)

Module Urllib.

(** The fields of [ParseResult] that the code reads or that decide them. *)
Record ParseResult : Type := mkParseResult {
  scheme : string;
  netloc : string
}.

(** [_WHATWG_C0_CONTROL_OR_SPACE] *)
Definition is_c0_control_or_space (c : ascii) : bool := (N_of_ascii c <=? 32)%N.

(** [_UNSAFE_URL_BYTES_TO_REMOVE]: tab, carriage return, newline. *)
Definition is_unsafe (c : ascii) : bool :=
  let n := N_of_ascii c in ((n =? 9) || (n =? 13) || (n =? 10))%N.

Fixpoint lstrip (l : list ascii) : list ascii :=
  match l with
  | c :: l' => if is_c0_control_or_space c then lstrip l' else l
  | [] => []
  end.

Definition is_ascii_alpha (c : ascii) : bool :=
  let n := N_of_ascii c in
  ((65 <=? n) && (n <=? 90) || (97 <=? n) && (n <=? 122))%N.

(** [scheme_chars]: letters, digits and [+-.] *)
Definition is_scheme_char (c : ascii) : bool :=
  Re.is_alnum c || Ascii.eqb c "+" || Ascii.eqb c "-" || Ascii.eqb c ".".

(** [url[:i], url[i+1:]] for [i = url.find(c)], when [c] occurs. *)
Fixpoint split_at_first (c : ascii) (l : list ascii) : option (list ascii * list ascii) :=
  match l with
  | [] => None
  | x :: l' =>
      if Ascii.eqb x c then Some ([], l')
      else match split_at_first c l' with
           | Some (a, b) => Some (x :: a, b)
           | None => None
           end
  end.

(** The scheme, when the text before the first [:] is one, and the rest. *)
Definition split_scheme (url : list ascii) : list ascii * list ascii :=
  match split_at_first ":" url with
  | Some (c :: before, after) =>
      if is_ascii_alpha c && forallb is_scheme_char (c :: before)
      then (PyStr.lower_chars (c :: before), after)
      else ([], url)
  | _ => ([], url)
  end.

Definition is_netloc_delim (c : ascii) : bool :=
  Ascii.eqb c "/" || Ascii.eqb c "?" || Ascii.eqb c "#".

(** [_splitnetloc(url, 0)[0]]: up to the first of [/], [?], [#]. *)
Fixpoint take_netloc (l : list ascii) : list ascii :=
  match l with
  | c :: l' => if is_netloc_delim c then [] else c :: take_netloc l'
  | [] => []
  end.

(** [url] after [lstrip] and the removal of tabs and line breaks. *)
Definition clean (url : string) : list ascii :=
  filter (fun c => negb (is_unsafe c)) (lstrip (list_ascii_of_string url)).

(** The netloc that follows [//], before its brackets are validated;
    empty when the text after the scheme does not start with [//]. *)
Definition netloc_after_scheme (rest : list ascii) : list ascii :=
  match rest with
  | c1 :: c2 :: rest' =>
      if Ascii.eqb c1 "/" && Ascii.eqb c2 "/" then take_netloc rest' else []
  | _ => []
  end.


Section WithRuntime.
Context {R : Runtime}.

(** [urlparse(url)], for a URL of the Latin-1 range (code points below
    256), which is all a [string] of this file can hold.  On such text
    [_checknetloc] never raises: it raises [ValueError] only when the NFKC
    form of the netloc gains one of [/?#@:], and the NFKC form of no
    character below 256 holds one of them.  It is therefore left out, and
    nothing proved about [urlparse] here speaks of a URL with a character
    beyond that range, such as the fullwidth solidus U+FF0F, on which the
    library's [urlparse] does raise from that check. *)
Definition urlparse (url : string) : E ParseResult :=
  let '(sch, rest) := split_scheme (clean url) in
  let n := netloc_after_scheme rest in
  let has_open := PyStr.mem_char "[" n in
  let has_close := PyStr.mem_char "]" n in
  if has_open && negb has_close || has_close && negb has_open
  then inl (ValueError "Invalid IPv6 URL")
  else if has_open && has_close then
    match check_bracketed_netloc (string_of_list_ascii n) with
    | Some msg => inl (ValueError msg)
    | None => inr (mkParseResult (string_of_list_ascii sch) (string_of_list_ascii n))
    end
  else inr (mkParseResult (string_of_list_ascii sch) (string_of_list_ascii n)).

End WithRuntime.

End Urllib.

(* ===================================================================== *)
(** ** [package_managers/base.py] *)
(* ===================================================================== *)

(** The dataclass [ReleaseInfo].  Python does not enforce the annotations,
    so a field holds whatever object the code stores in it. *)
Record ReleaseInfo : Type := mkReleaseInfo {
  version : json;
  tag_name : json;
  download_url : json;
  published_at : json;
  release_notes : json
}.

(** The abstract class [PackageManager]: an object with its three abstract
    methods bound. *)
Module PackageManager.

Record t : Type := mk {
  base_url : string;
  can_handle : string -> E bool;
  get_latest_release : string -> bool -> string -> M (option ReleaseInfo);
  extract_repo_info : string -> E (string * string)
}.

(** [_parse_url(self, url)] *)
Definition _parse_url {R : Runtime} (url : string) : E Urllib.ParseResult :=
  Urllib.urlparse url.

End PackageManager.

(* ===================================================================== *)
(** ** [package_managers/github.py] *)
(* ===================================================================== *)

Module GitHubPackageManager.

(** The attributes [__init__] sets. *)
Record t : Type := mk {
  self_base_url : string;
  api_base : string;
  token : option string;
  headers : list (string * string)
}.

(** The truth value of an optional [str]: [None] and [""] are false. *)
Definition truthy_str (s : option string) : bool :=
  match s with
  | Some x => negb (String.eqb x "")
  | None => false
  end.

(** The URL shapes [extract_repo_info] accepts, as written in the source. *)
Definition patterns : list string :=
  [ "github\.com/([^/]+)/([^/]+?)(?:\.git)?/?(?:\?.*)?$";
    "github\.com/([^/]+)/([^/]+?)(?:\.git)?/(?:tree|blob|releases|actions|issues|pull)/";
    "github\.com/([^/]+)/([^/]+?)(?:\.git)?/archive/" ].

(** The body of [for pattern in patterns: ...] followed by the [raise]. *)
Fixpoint extract_loop (ps : list string) (url : string) : E (string * string) :=
  match ps with
  | [] => inl (ValueError url)
  | pattern :: ps' =>
      match Re.search pattern (PyStr.lower url) with
      | Some m =>
          let owner := Re.group m 1 in
          let repo := Re.group m 2 in
          let repo := if PyStr.endswith repo ".git" then PyStr.drop_last 4 repo else repo in
          inr (owner, repo)
      | None => extract_loop ps' url
      end
  end.

(** [extract_repo_info(self, url)]; [inl (ValueError url)] stands for
    [ValueError(f"无法从 URL 中提取仓库信息: {url}")]. *)
Definition extract_repo_info (url : string) : E (string * string) :=
  extract_loop patterns url.

Section WithRuntime.
Context {R : Runtime}.

(** [__init__(self, token=None)] *)
Definition init (tok : option string) : t :=
  let token := if truthy_str tok then tok else environ_get "GITHUB_TOKEN" in
  let headers :=
    [("Accept", "application/vnd.github.v3+json");
     ("User-Agent", "py-winget-source/1.0")] in
  mk "https://github.com" "https://api.github.com" token
     (if truthy_str token
      then headers ++ [("Authorization",
                        ("Bearer " ++ match token with Some x => x | None => "" end)%string)]
      else headers).

(** [can_handle(self, url)] *)
Definition can_handle (url : string) : E bool :=
  parsed <- PackageManager._parse_url url ;;
  ret (PyStr.mem_string (PyStr.lower (Urllib.netloc parsed))
                        ["github.com"; "www.github.com"]).

(** [session.get(...)] and the read of the response. *)
Definition get (req : request) : M response := ([EvGet req], session_get req).

(** [await response.json()] *)
Definition json_of (resp : response) : M json := lift (json_body resp).

(** The loop that fills [matching_assets]. *)
Fixpoint matching (regex : pattern_object) (assets : list json) : E (list json) :=
  match assets with
  | [] => ret []
  | asset :: assets' =>
      name <- Py.getitem asset "name" ;;
      hit <- match name with
             | JStr s => ret (regex_search regex s)
             | _ => inl TypeError
             end ;;
      rest <- matching regex assets' ;;
      ret (if hit then asset :: rest else rest)
  end.

(** [lambda x: (x.get("download_count", 0), -len(x["name"]))] *)
Definition rank_key (x : json) : E (json * Z) :=
  count <- Py.get x "download_count" (JInt 0) ;;
  name <- Py.getitem x "name" ;;
  n <- Py.len name ;;
  ret (count, (- n)%Z).

(** The scan of [max(iterable, key=...)] after its first item: a later
    item replaces the best one only when its key is strictly greater. *)
Fixpoint max_scan (items : list json) (best : json) (best_key : json * Z) : E json :=
  match items with
  | [] => ret best
  | x :: items' =>
      k <- rank_key x ;;
      greater <- Py.tuple2_gt k best_key ;;
      if greater then max_scan items' x k else max_scan items' best best_key
  end.

(** [max(matching_assets, key=...)] *)
Definition max_by_key (items : list json) : E json :=
  match items with
  | [] => inl (ValueError "max() arg is an empty sequence")
  | x :: items' => k <- rank_key x ;; max_scan items' x k
  end.

(** [_select_asset_by_pattern(self, assets, pattern)] *)
Definition _select_asset_by_pattern (assets : json) (pattern : string) : M json :=
  if String.eqb pattern "" then ret (JStr "")
  else
    try_except
      (regex <- lift (re_compile_ignorecase pattern) ;;
       items <- lift (Py.iter assets) ;;
       matching_assets <- lift (matching regex items) ;;
       match matching_assets with
       | [] => print (MsgNoAssetMatched pattern) ;;; ret (JStr "")
       | _ :: _ =>
           best_asset <- lift (max_by_key matching_assets) ;;
           name <- lift (Py.getitem best_asset "name") ;;
           print (MsgAssetSelected (List.length matching_assets) name) ;;;
           lift (Py.getitem best_asset "browser_download_url")
       end)
      (fun e =>
         match e with
         | ReError _ => print (MsgPatternInvalid pattern e) ;;; ret (JStr "")
         | _ => print (MsgPatternFailed e) ;;; ret (JStr "")
         end).

(** [_parse_release_data(self, data, pattern)] *)
Definition _parse_release_data (data : json) (pattern : string) : M ReleaseInfo :=
  assets <- lift (Py.get data "assets" JNull) ;;
  download_url <-
    (if Py.truthy assets && negb (String.eqb pattern "")
     then (a <- lift (Py.getitem data "assets") ;; _select_asset_by_pattern a pattern)
     else ret JNull) ;;
  v <- lift (Py.getitem data "tag_name") ;;
  tag <- lift (Py.getitem data "tag_name") ;;
  published <- lift (Py.get data "published_at" (JStr "")) ;;
  body <- lift (Py.get data "body" JNull) ;;
  ret (mkReleaseInfo v tag (Py.or_ download_url (JStr "")) published body).

(** [_get_latest_stable_release(self, owner, repo, pattern)] *)
Definition _get_latest_stable_release (self : t) (owner repo pattern : string)
  : M (option ReleaseInfo) :=
  let api_url :=
    (api_base self ++ "/repos/" ++ owner ++ "/" ++ repo ++ "/releases/latest")%string in
  response <- get (mkRequest api_url (headers self) []) ;;
  if (status response =? 404)%Z then
    print (MsgNoReleasePublished owner repo) ;;; ret None
  else if (status response =? 403)%Z then
    print (MsgApiLimited (status response)) ;;; ret None
  else if negb (status response =? 200)%Z then
    print (MsgReleaseHttpFailed (status response)) ;;; ret None
  else
    data <- json_of response ;;
    info <- _parse_release_data data pattern ;;
    ret (Some info).

(** [_get_latest_release_including_prerelease(self, owner, repo, pattern)] *)
Definition _get_latest_release_including_prerelease (self : t) (owner repo pattern : string)
  : M (option ReleaseInfo) :=
  let api_url :=
    (api_base self ++ "/repos/" ++ owner ++ "/" ++ repo ++ "/releases")%string in
  response <- get (mkRequest api_url (headers self) [("per_page", 10%Z)]) ;;
  if (status response =? 404)%Z then
    print (MsgNoReleasePublished owner repo) ;;; ret None
  else if (status response =? 403)%Z then
    print (MsgApiLimited (status response)) ;;; ret None
  else if negb (status response =? 200)%Z then
    print (MsgReleasesHttpFailed (status response)) ;;; ret None
  else
    releases <- json_of response ;;
    if negb (Py.truthy releases) then
      print (MsgNoReleases owner repo) ;;; ret None
    else
      first <- lift (Py.getitem0 releases) ;;
      info <- _parse_release_data first pattern ;;
      ret (Some info).

(** [get_latest_release(self, url, include_prerelease, pattern)] *)
Definition get_latest_release (self : t) (url : string) (include_prerelease : bool)
           (pattern : string) : M (option ReleaseInfo) :=
  try_except
    (owner_repo <- lift (extract_repo_info url) ;;
     let '(owner, repo) := owner_repo in
     if include_prerelease
     then _get_latest_release_including_prerelease self owner repo pattern
     else _get_latest_stable_release self owner repo pattern)
    (fun e => print (MsgReleaseError e) ;;; ret None).

(** The object seen through the interface of [PackageManager]. *)
Definition as_manager (self : t) : PackageManager.t :=
  PackageManager.mk (self_base_url self) can_handle (get_latest_release self)
                    extract_repo_info.

End WithRuntime.

End GitHubPackageManager.

(* ===================================================================== *)
(** ** [package_managers/registry.py] *)
(* ===================================================================== *)

Module PackageManagerRegistry.

Record t : Type := mk { _managers : list PackageManager.t }.

(** [register(self, manager)] *)
Definition register (self : t) (manager : PackageManager.t) : t :=
  mk (_managers self ++ [manager]).

(** [__init__(self)] with [_register_default_managers]. *)
Definition init {R : Runtime} : t :=
  let github_token : option string := None in
  register (mk []) (GitHubPackageManager.as_manager (GitHubPackageManager.init github_token)).

(** The loop of [get_manager]. *)
Fixpoint scan (managers : list PackageManager.t) (url : string) : E (option PackageManager.t) :=
  match managers with
  | [] => ret None
  | manager :: managers' =>
      handles <- PackageManager.can_handle manager url ;;
      if handles then ret (Some manager) else scan managers' url
  end.

(** [get_manager(self, url)] *)
Definition get_manager (self : t) (url : string) : E (option PackageManager.t) :=
  scan (_managers self) url.

(** [get_latest_release(self, url, include_prerelease, pattern)] *)
Definition get_latest_release (self : t) (url : string) (include_prerelease : bool)
           (pattern : string) : M (option ReleaseInfo) :=
  manager <- lift (get_manager self url) ;;
  match manager with
  | None => print (MsgNoManager url) ;;; ret None
  | Some m => PackageManager.get_latest_release m url include_prerelease pattern
  end.

End PackageManagerRegistry.

(* ===================================================================== *)
(** ** A runtime to run the model on concrete inputs *)
(* ===================================================================== *)

(** The engine of module [Re] stands for [re] (patterns outside its
    fragment are reported as errors), no environment variable is set, a
    netloc with brackets is refused, and the network knows the repositories
    of [Sample.network]. *)
Module Sample.

Definition compile_ignorecase (pattern : string) : exn + Re.regex :=
  match Re.compile pattern with
  | inr r => inr r
  | inl (Re.PatternError msg) => inl (ReError msg)
  | inl Re.Unsupported => inl (ReError "outside the modelled fragment")
  end.

Definition search (r : Re.regex) (subject : string) : bool :=
  match Re.search_regex true r subject with
  | Some _ => true
  | None => false
  end.

Definition asset (name : string) (count : Z) : json :=
  JDict [("name", JStr name);
         ("download_count", JInt count);
         ("browser_download_url", JStr ("https://dl.example/" ++ name))].

(** The asset list of the spec's first example. *)
Definition assets_counts : list json :=
  [asset "app-win32.zip" 5; asset "app-win64.zip" 20; asset "app-macos.zip" 20].

(** The asset list of the spec's second example: a tie on the count. *)
Definition assets_tie : list json :=
  [asset "app-win64.zip" 20; asset "app.zip" 20].

(** Two assets that tie on the count and on the length of the name. *)
Definition assets_all_tied : list json :=
  [asset "app-x64.zip" 7; asset "app-x86.zip" 7].

(** [re.compile("win", re.IGNORECASE)] *)
Definition win_regex : Re.regex :=
  Re.RSeq (Re.RSeq (Re.RChar "w") (Re.RChar "i")) (Re.RChar "n").

(** [re.compile("app", re.IGNORECASE)] *)
Definition app_regex : Re.regex :=
  Re.RSeq (Re.RSeq (Re.RChar "a") (Re.RChar "p")) (Re.RChar "p").

Definition release_fields (tag : string) (assets : json) : list (string * json) :=
  [("tag_name", JStr tag);
   ("published_at", JStr "2024-01-01T00:00:00Z");
   ("body", JStr "notes");
   ("assets", assets)].

Definition release (tag : string) (assets : json) : json :=
  JDict (release_fields tag assets).

Definition network (req : request) : exn + response :=
  let url := req_url req in
  if String.eqb url "https://api.github.com/repos/owner/repo/releases/latest"
  then inr (mkResponse 200 (inr (release "v1.0" (JList assets_counts))))
  else if String.eqb url "https://api.github.com/repos/owner/repo/releases"
  then inr (mkResponse 200 (inr (JList [release "v2.0-rc1" (JList assets_tie);
                                         release "v1.0" (JList assets_counts)])))
  else if String.eqb url "https://api.github.com/repos/owner/limited/releases/latest"
  then inr (mkResponse 403 (inr JNull))
  else if String.eqb url "https://api.github.com/repos/owner/created/releases/latest"
  then inr (mkResponse 201 (inr (release "v1.0" (JList assets_counts))))
  else if String.eqb url "https://api.github.com/repos/owner/created/releases"
  then inr (mkResponse 201 (inr (JList [release "v1.0" (JList assets_counts)])))
  else if String.eqb url "https://api.github.com/repos/owner/down/releases/latest"
  then inl (TransportError "connection reset")
  else inr (mkResponse 404 (inr JNull)).

#[export] Instance runtime : Runtime := {
  pattern_object := Re.regex;
  re_compile_ignorecase := compile_ignorecase;
  regex_search := search;
  check_bracketed_netloc := fun _ => Some "Invalid IPv6 URL";
  environ_get := fun _ => None;
  session_get := network
}.

Definition github : GitHubPackageManager.t := GitHubPackageManager.init None.

(** A provider that claims every URL and answers with a release tagged
    [name]. *)
Definition claiming (name : string) : PackageManager.t :=
  PackageManager.mk "https://example.org"
    (fun _ => inr true)
    (fun _ _ _ => ([], inr (Some (mkReleaseInfo (JStr name) (JStr name) (JStr "")
                                                (JStr "") JNull))))
    (fun _ => inr ("owner", "repo")).

End Sample.

(* ===================================================================== *)
(** ** Vocabulary of the statements *)
(* ===================================================================== *)

Import GitHubPackageManager.

(** An asset candidate as the release API describes it: an object with a
    textual [name], a [browser_download_url] and a [download_count] that is
    an integer when present. *)
Module Asset.

Definition well_formed (a : json) : bool :=
  match a with
  | JDict d =>
      match dict_get d "name" with Some (JStr _) => true | _ => false end
      && match dict_get d "download_count" with
         | None | Some (JInt _) => true
         | _ => false
         end
      && match dict_get d "browser_download_url" with Some _ => true | None => false end
  | _ => false
  end.

Definition name (a : json) : string :=
  match Py.getitem a "name" with
  | inr (JStr s) => s
  | _ => ""
  end.

(** The download count, 0 when the field is absent. *)
Definition count (a : json) : Z :=
  match Py.get a "download_count" (JInt 0) with
  | inr (JInt z) => z
  | _ => 0%Z
  end.

Definition url (a : json) : json :=
  match Py.getitem a "browser_download_url" with
  | inr u => u
  | inl _ => JNull
  end.

(** [a] ranks strictly above [b]: more downloads, or as many and a
    shorter name. *)
Definition beats (a b : json) : Prop :=
  (count b < count a)%Z
  \/ (count a = count b /\ String.length (name a) < String.length (name b)).

(** [a] and [b] tie on both ranking keys. *)
Definition ties (a b : json) : Prop :=
  count a = count b /\ String.length (name a) = String.length (name b).

End Asset.

(** The ranking key of a well-formed asset. *)
Definition key_of (a : json) : json * Z :=
  (JInt (Asset.count a), (- Z.of_nat (String.length (Asset.name a)))%Z).

(** [key_of a > key_of b], computed on the fields. *)
Definition key_gt (a b : json) : bool :=
  if (Asset.count a =? Asset.count b)%Z
  then Nat.ltb (String.length (Asset.name a)) (String.length (Asset.name b))
  else (Asset.count b <? Asset.count a)%Z.

(** [d.get(k, default)] on the bindings of a dict. *)
Definition field_or (d : list (string * json)) (k : string) (default : json) : json :=
  match dict_get d k with
  | Some v => v
  | None => default
  end.

(** No item of [assets] has a name that the compiled [pattern] finds. *)
Definition no_asset_matches {R : Runtime} (pattern : string) (assets : json) : Prop :=
  forall regex items a name,
    re_compile_ignorecase pattern = inr regex ->
    Py.iter assets = inr items ->
    In a items ->
    Py.getitem a "name" = inr (JStr name) ->
    regex_search regex name = false.

(** The [ReleaseInfo] built from a release object with bindings [d], tag
    [tag] and selected download URL [url]. *)
Definition release_info_of (d : list (string * json)) (tag url : json) : ReleaseInfo :=
  mkReleaseInfo tag tag url (field_or d "published_at" (JStr "")) (field_or d "body" JNull).

(** The download URL that [_parse_release_data] computes before it reads
    the other fields of a release object with bindings [d]. *)
Definition selected_url {R : Runtime} (d : list (string * json)) (pattern : string) : M json :=
  if Py.truthy (field_or d "assets" JNull) && negb (String.eqb pattern "")
  then _select_asset_by_pattern (field_or d "assets" JNull) pattern
  else ret JNull.

(** The request of [_get_latest_stable_release]. *)
Definition stable_request (self : GitHubPackageManager.t) (owner repo : string) : request :=
  mkRequest (api_base self ++ "/repos/" ++ owner ++ "/" ++ repo ++ "/releases/latest")%string
            (headers self) [].

(** The request of [_get_latest_release_including_prerelease]. *)
Definition releases_request (self : GitHubPackageManager.t) (owner repo : string) : request :=
  mkRequest (api_base self ++ "/repos/" ++ owner ++ "/" ++ repo ++ "/releases")%string
            (headers self) [("per_page", 10%Z)].

(** [Some] of the value of a run, for the functions that return
    [Optional[ReleaseInfo]]. *)
Definition found (c : M ReleaseInfo) : M (option ReleaseInfo) :=
  (fst c, match snd c with inr info => inr (Some info) | inl e => inl e end).

(** The assets of [assets] whose name the compiled pattern finds. *)
Definition matching_assets {R : Runtime} (regex : pattern_object) (assets : list json)
  : list json :=
  filter (fun a => regex_search regex (Asset.name a)) assets.





(* ===================================================================== *)
(** ** The fixed patterns of [extract_repo_info], piece by piece *)
(* ===================================================================== *)

(** A continuation of the matcher. *)
Definition cont : Type := list ascii -> Re.captures -> option Re.captures.

(** A literal: the characters of a text one after the other, as the
    compiler nests them. *)
Definition literal_from (r0 : Re.regex) (l : list ascii) : Re.regex :=
  fold_left (fun r ch => Re.RSeq r (Re.RChar ch)) l r0.

(** A body that matches exactly one character, those that satisfy [P]. *)
Definition one_char (P : ascii -> bool)
           (body : list ascii -> Re.captures -> cont -> option Re.captures) : Prop :=
  forall s cs k,
    body s cs k = match s with
                  | x :: s' => if P x then k s' cs else None
                  | [] => None
                  end.

(** The text after a run stops the run: it is empty or starts with a
    character that [P] refuses. *)
Definition stops (P : ascii -> bool) (rest : list ascii) : Prop :=
  match rest with
  | [] => True
  | y :: _ => P y = false
  end.

(** The continuations a repeat tries over a run [w] of characters that its
    body accepts, in order of priority: a greedy repeat offers the longest
    consumption first, a lazy one the shortest.  [taken] is what the
    enclosing group has consumed so far. *)
Fixpoint splits (greedy : bool) (K : list ascii -> cont) (taken w rest : list ascii)
         (cs : Re.captures) : option Re.captures :=
  match w with
  | [] => K taken rest cs
  | a :: w' =>
      if greedy
      then Re.orelse (splits greedy K (taken ++ [a]) w' rest cs) (K taken (a :: w' ++ rest) cs)
      else Re.orelse (K taken (a :: w' ++ rest) cs) (splits greedy K (taken ++ [a]) w' rest cs)
  end.

(** The characters that [[^/]] accepts. *)
Definition not_slash (x : ascii) : bool := negb (Ascii.eqb x "/").

(** [[^/]] *)
Definition not_slash_set : Re.regex := Re.RSet true [("/"%char, "/"%char)].

(** The literal all three patterns start with. *)
Definition github_com : list ascii := list_ascii_of_string "github.com/".

(** What the three patterns share: the literal, the owner group (greedy),
    a slash, the repository group (lazy). *)
Definition shared_prefix : Re.regex :=
  Re.RSeq (Re.RSeq (Re.RSeq (literal_from (Re.RChar "g") (list_ascii_of_string "ithub.com/"))
                            (Re.RGroup 1 (Re.RPlus true not_slash_set)))
                   (Re.RChar "/"))
          (Re.RGroup 2 (Re.RPlus false not_slash_set)).

(** The optional [.git] that follows the second group. *)
Definition optional_git : Re.regex :=
  Re.ROpt true (literal_from (Re.RChar ".") (list_ascii_of_string "git")).

(** The suffix [.git]. *)
Definition dot_git : list ascii := list_ascii_of_string ".git".

(** The characters of a repository name that the tail of no pattern can
    take for its own: not [/], not [?], not a line break. *)
Definition plain (x : ascii) : bool :=
  negb (Ascii.eqb x "/") && negb (Ascii.eqb x "?") && negb (Ascii.eqb x Re.newline).

(** A continuation that refuses every text starting with a plain
    character. *)
Definition refuses_plain (tail : cont) : Prop :=
  forall a u cs, plain a = true -> tail (a :: u) cs = None.

(** A pattern that continues with [(?:\.git)?] and then [tail] after the
    shared prefix. *)
Definition with_tail (total : nat) (tail : cont) : cont :=
  fun s cs =>
    Re.rmatch false total shared_prefix s cs
      (fun s' c' => Re.rmatch false total optional_git s' c' tail).

(** The end of a pattern: the match is found. *)
Definition accept : cont := fun _ cs => Some cs.

(** The compiled form of a word of letters. *)
Definition word (w : string) : Re.regex :=
  match list_ascii_of_string w with
  | [] => Re.REmpty
  | a :: l => literal_from (Re.RChar a) l
  end.

(** After the optional [.git] of the first pattern: an optional slash, an
    optional query, the end. *)
Definition root_tail (total : nat) : cont :=
  fun s cs =>
    Re.rmatch false total (Re.ROpt true (Re.RChar "/")) s cs
      (fun s1 c1 =>
         Re.rmatch false total
           (Re.ROpt true (Re.RSeq (Re.RChar "?") (Re.RStar true Re.RAny))) s1 c1
           (fun s2 c2 => Re.rmatch false total Re.REol s2 c2 accept)).

(** [(?:tree|blob|releases|actions|issues|pull)] *)
Definition page_keyword : Re.regex :=
  Re.RAlt (Re.RAlt (Re.RAlt (Re.RAlt (Re.RAlt (word "tree") (word "blob")) (word "releases"))
                            (word "actions")) (word "issues")) (word "pull").

(** After the optional [.git] of the second pattern: a slash, a keyword,
    a slash. *)
Definition page_tail (total : nat) : cont :=
  fun s cs =>
    Re.rmatch false total (Re.RChar "/") s cs
      (fun s1 c1 =>
         Re.rmatch false total page_keyword s1 c1
           (fun s2 c2 => Re.rmatch false total (Re.RChar "/") s2 c2 accept)).

(** After the optional [.git] of the third pattern: [/archive/]. *)
Definition archive_tail : cont :=
  fun s cs =>
    if PyStr.starts_with (list_ascii_of_string "/archive/") s then Some cs else None.

(** The three patterns of [extract_repo_info], compiled. *)
Definition root_pattern : Re.regex :=
  Re.RSeq (Re.RSeq (Re.RSeq (Re.RSeq shared_prefix optional_git) (Re.ROpt true (Re.RChar "/")))
                   (Re.ROpt true (Re.RSeq (Re.RChar "?") (Re.RStar true Re.RAny))))
          Re.REol.

Definition page_pattern : Re.regex :=
  Re.RSeq (Re.RSeq (Re.RSeq (Re.RSeq shared_prefix optional_git) (Re.RChar "/")) page_keyword)
          (Re.RChar "/").

Definition archive_pattern : Re.regex :=
  literal_from (Re.RSeq shared_prefix optional_git) (list_ascii_of_string "/archive/").

(** [p] starts somewhere in [s]. *)
Fixpoint occurs (p s : list ascii) : bool :=
  PyStr.starts_with p s
  || match s with
     | [] => false
     | _ :: s' => occurs p s'
     end.

(** A pattern that can only match where [github.com/] starts. *)
Definition anchored (total : nat) (R : Re.regex) : Prop :=
  forall u,
    PyStr.starts_with github_com u = false -> Re.rmatch false total R u [] accept = None.

(** The keywords that may follow the repository, each between slashes. *)
Definition sub_pages : list string :=
  ["tree"; "blob"; "releases"; "actions"; "issues"; "pull"; "archive"].

(** What [extract_repo_info] returns for a match object. *)
Definition repo_of_match (m : Re.captures) : E (string * string) :=
  let owner := Re.group m 1 in
  let repo := Re.group m 2 in
  let repo := if PyStr.endswith repo ".git" then PyStr.drop_last 4 repo else repo in
  inr (owner, repo).

(** The repository part of a lower-cased URL that reads
    [pre github.com/ o / r] with an optional [.git] and then [rest]. *)
Definition repo_text (o r : list ascii) (git : bool) (rest : list ascii) : list ascii :=
  o ++ "/"%char :: (r ++ (if git then dot_git else [])) ++ rest.

(* ===================================================================== *)
(** ** Effects of the code around release resolution *)
(* ===================================================================== *)

(** The exceptions a run can end with outside release resolution: those of
    [exn], and the ones that reading the manifest adds. *)
Inductive failure : Type :=
| Raised (e : exn)
| FileNotFoundError
| OSError (arg : string)       (* any other failure of [open] or of the read *)
| YAMLError (arg : string).    (* yaml.YAMLError *)

(** One constructor per [print] of [get_repository_info],
    [ManifestParser.parse] and [process_package]; the comment gives the
    format string of the source. *)
Inductive notice : Type :=
| MsgRepositoryHttpFailed (status : Z)
    (* 获取仓库信息失败: HTTP {response.status} *)
| MsgRepositoryError (e : failure)
    (* 获取仓库信息时出错: {e} *)
| MsgIncompletePackage (package_data : json)
    (* 警告: 包信息不完整: {package_data} *)
| MsgPackageWithoutUrl (name : json)
    (* 警告: 跳过没有 URL 的包: {package.name} *)
| MsgManifestNotFound (manifest_path : string)
    (* 错误: 找不到 manifest 文件: {self.manifest_path} *)
| MsgYamlFailed (e : failure)
    (* 错误: 解析 YAML 文件失败: {e} *)
| MsgManifestFailed (e : failure)
    (* 错误: 解析 manifest 文件时出错: {e} *)
| MsgProcessing (name id : json)
    (* \n处理包: {package.name} ({package.id}) *)
| MsgPackageUrl (url : string)
    (* URL: {package.url} *)
| MsgPackagePattern (pattern : string)
    (* 匹配模式: {package.pattern} *)
| MsgLatestVersion (version : json)
    (* ✅ 最新版本: {release_info.version} *)
| MsgTag (tag_name : json)
    (*    标签: {release_info.tag_name} *)
| MsgDownloadUrl (download_url : json)
    (*    下载链接: {release_info.download_url} *)
| MsgPublishedAt (published_at : json)
    (*    发布时间: {release_info.published_at} *)
| MsgReleaseNotes (notes_preview : json)
    (*    发布说明: {notes_preview} *)
| MsgNoReleaseInfo.
    (* ❌ 无法获取 release 信息 *)

(** What a run leaves behind: the events of release resolution, and the
    lines printed around it. *)
Inductive output : Type :=
| Core (ev : event)
| Say (n : notice).

Definition IO (A : Type) : Type := (list output * (failure + A))%type.

#[export] Instance Monad_IO : Monad IO := {
  ret := fun A x => ([], inr x);
  bind := fun A B c f =>
    match c with
    | (t, inl e) => (t, inl e)
    | (t, inr x) => let '(t', r) := f x in (t ++ t', r)
    end
}.

Definition say (n : notice) : IO unit := ([Say n], inr tt).

(** Pure code run inside [IO]. *)
Definition of_E {A} (c : E A) : IO A :=
  ([], match c with inl e => inl (Raised e) | inr x => inr x end).

(** Code of release resolution run inside [IO]. *)
Definition of_M {A} (c : M A) : IO A :=
  (map Core (fst c), match snd c with inl e => inl (Raised e) | inr x => inr x end).

(** [try: body  except ...: handler(e)], the handler choosing by the
    class of [e]. *)
Definition try_io {A} (body : IO A) (handler : failure -> IO A) : IO A :=
  match body with
  | (t, inl e) => let '(t', r) := handler e in (t ++ t', r)
  | (t, inr x) => (t, inr x)
  end.

Definition result {A} (c : IO A) : failure + A := snd c.

(** The lines printed around release resolution, in order. *)
Definition said {A} (c : IO A) : list notice :=
  flat_map (fun o => match o with Say n => [n] | Core _ => [] end) (fst c).

(** The requests sent by a run, in order. *)
Definition sent {A} (c : IO A) : list request :=
  flat_map (fun o => match o with Core (EvGet r) => [r] | _ => [] end) (fst c).

(* ===================================================================== *)
(** ** [package_managers/github.py]: the two queries beside release resolution *)
(* ===================================================================== *)

(** The text of an integer in an f-string. *)
Definition decimal (z : Z) : string := NilZero.string_of_int (Z.to_int z).

Module GitHubQueries.

Section WithRuntime.
Context {R : Runtime}.

(** [get_repository_info(self, url)]; Python's [None] is [JNull], which is
    also what a body [null] decodes to. *)
Definition get_repository_info (self : GitHubPackageManager.t) (url : string) : IO json :=
  try_io
    (owner_repo <- of_E (extract_repo_info url) ;;
     let '(owner, repo) := owner_repo in
     let api_url := (api_base self ++ "/repos/" ++ owner ++ "/" ++ repo)%string in
     response <- of_M (get (mkRequest api_url (headers self) [])) ;;
     if (status response =? 200)%Z then of_M (json_of response)
     else say (MsgRepositoryHttpFailed (status response)) ;;; ret JNull)
    (fun e => say (MsgRepositoryError e) ;;; ret JNull).

(** [str(e)], the text of an exception, is left open. *)
Variable str : exn -> string.

(** [check_rate_limit(self)] *)
Definition check_rate_limit (self : GitHubPackageManager.t) : M json :=
  let api_url := (api_base self ++ "/rate_limit")%string in
  try_except
    (response <- get (mkRequest api_url (headers self) []) ;;
     if (status response =? 200)%Z then json_of response
     else ret (JDict [("error", JStr ("HTTP " ++ decimal (status response)))]))
    (fun e => ret (JDict [("error", JStr (str e))])).

End WithRuntime.

End GitHubQueries.

(* ===================================================================== *)
(** ** [manifest_parser.py] *)
(* ===================================================================== *)

(** The dataclass [PackageInfo].  A field holds whatever object the parser
    read from the manifest. *)
Module PackageInfo.

Record t : Type := mk {
  name : json;
  id : json;
  url : json;
  include_prerelease : json;
  pattern : json
}.

End PackageInfo.

Module ManifestParser.

Record t : Type := mk { manifest_path : string }.

(** [__init__(self, manifest_path="manifest.yml")] *)
Definition init (manifest_path : option string) : t :=
  mk match manifest_path with Some p => p | None => "manifest.yml" end.

(** The file system and PyYAML are not code of this repository.
    [load path] is the outcome of
    [with open(path, "r", encoding="utf-8") as file: yaml.safe_load(file)];
    the document is a [json] tree (YAML floats, dates and mappings with
    keys that are not strings are outside the model). *)
Class Files : Type := {
  load : string -> failure + json
}.

(** [k in v] for a string [k]. *)
Definition contains (v : json) (k : string) : E bool :=
  match v with
  | JDict d => inr match dict_get d k with Some _ => true | None => false end
  | JList l => inr (existsb (fun x => Py.eq x (JStr k)) l)
  | JStr s => inr (occurs (list_ascii_of_string k) (list_ascii_of_string s))
  | _ => inl TypeError
  end.

(** [v[i]] for a sequence [v] and [0 <= i]. *)
Definition index (v : json) (i : nat) : E json :=
  match v with
  | JList l => match nth_error l i with Some x => inr x | None => inl IndexError end
  | JStr s => match String.get i s with
              | Some c => inr (JStr (String c EmptyString))
              | None => inl IndexError
              end
  | JDict _ => inl (KeyError (JInt (Z.of_nat i)))
  | _ => inl TypeError
  end.

Definition is_dict (v : json) : bool :=
  match v with JDict _ => true | _ => false end.

(** The package an entry of [packages] describes, [None] after the
    warning that ends with [continue]. *)
Definition package_of (package_data : json) : IO (option PackageInfo.t) :=
  if is_dict package_data then
    name <- of_E (Py.get package_data "name" (JStr "")) ;;
    id <- of_E (Py.get package_data "id" (JStr "")) ;;
    url <- of_E (Py.get package_data "url" (JStr "")) ;;
    include_prerelease <- of_E (Py.get package_data "include_prerelease" (JBool false)) ;;
    pattern <- of_E (Py.get package_data "pattern" (JStr "")) ;;
    ret (Some (PackageInfo.mk name id url include_prerelease pattern))
  else
    n <- of_E (Py.len package_data) ;;
    if (3 <=? n)%Z then
      name <- of_E (index package_data 0) ;;
      id <- of_E (index package_data 1) ;;
      url <- of_E (index package_data 2) ;;
      ret (Some (PackageInfo.mk name id url (JBool false) (JStr "")))
    else
      say (MsgIncompletePackage package_data) ;;; ret None.

(** The body of [for package_data in data["packages"]: ...], with the list
    [packages] built so far. *)
Fixpoint parse_loop (items : list json) (packages : list PackageInfo.t)
  : IO (list PackageInfo.t) :=
  match items with
  | [] => ret packages
  | package_data :: items' =>
      made <- package_of package_data ;;
      match made with
      | None => parse_loop items' packages
      | Some package =>
          if Py.truthy (PackageInfo.url package)
          then parse_loop items' (packages ++ [package])
          else say (MsgPackageWithoutUrl (PackageInfo.name package)) ;;;
               parse_loop items' packages
      end
  end.

Section WithFiles.
Context {F : Files}.

(** [parse(self)] *)
Definition parse (self : t) : IO (list PackageInfo.t) :=
  try_io
    (data <- ([], load (manifest_path self)) ;;   (* nothing is printed by the read *)
     has_packages <- of_E (contains data "packages") ;;
     if has_packages then
       entries <- of_E (Py.getitem data "packages") ;;
       items <- of_E (Py.iter entries) ;;
       parse_loop items []
     else ret [])
    (fun e =>
       match e with
       | FileNotFoundError => say (MsgManifestNotFound (manifest_path self)) ;;; ret []
       | YAMLError _ => say (MsgYamlFailed e) ;;; ret []
       | _ => say (MsgManifestFailed e) ;;; ret []
       end).

End WithFiles.

End ManifestParser.

(* ===================================================================== *)
(** ** [main.py]: [process_package] *)
(* ===================================================================== *)

(** [notes_preview] as [process_package] computes it from truthy release
    notes: the slice [[:100]], and [+= "..."] when the notes are longer.
    Subscripting a dict with a slice raises [TypeError] in CPython 3.11. *)
Definition notes_preview (release_notes : json) : E json :=
  match release_notes with
  | JStr s =>
      let preview := substring 0 100 s in
      inr (JStr (if Nat.ltb 100 (String.length s) then preview ++ "..." else preview)%string)
  | JList l =>
      let preview := firstn 100 l in
      inr (JList (if Nat.ltb 100 (List.length l)
                  then preview ++ [JStr "."; JStr "."; JStr "."]
                  else preview))
  | _ => inl TypeError
  end.

(** [process_package(package, registry)] for a package whose fields have
    the types the dataclass announces for what the registry receives:
    [url] and [pattern] a [str], [include_prerelease] a [bool]. *)
Definition process_package (name id : json) (url : string) (include_prerelease : bool)
           (pattern : string) (registry : PackageManagerRegistry.t) : IO unit :=
  say (MsgProcessing name id) ;;;
  say (MsgPackageUrl url) ;;;
  (if negb (String.eqb pattern "") then say (MsgPackagePattern pattern) else ret tt) ;;;
  release_info <- of_M (PackageManagerRegistry.get_latest_release
                          registry url include_prerelease pattern) ;;
  match release_info with
  | Some info =>
      say (MsgLatestVersion (version info)) ;;;
      say (MsgTag (tag_name info)) ;;;
      say (MsgDownloadUrl (download_url info)) ;;;
      (if Py.truthy (published_at info) then say (MsgPublishedAt (published_at info))
       else ret tt) ;;;
      if Py.truthy (release_notes info) then
        preview <- of_E (notes_preview (release_notes info)) ;;
        say (MsgReleaseNotes preview)
      else ret tt
  | None => say MsgNoReleaseInfo
  end.

(* ===================================================================== *)
(** ** Vocabulary of the further statements *)
(* ===================================================================== *)

(** The request of [get_repository_info]. *)
Definition repository_request (self : GitHubPackageManager.t) (owner repo : string) : request :=
  mkRequest (api_base self ++ "/repos/" ++ owner ++ "/" ++ repo)%string (headers self) [].

(** The request of [check_rate_limit]. *)
Definition rate_limit_request (self : GitHubPackageManager.t) : request :=
  mkRequest (api_base self ++ "/rate_limit")%string (headers self) [].

(** A pattern without a capturing group. *)
Fixpoint groupless (r : Re.regex) : bool :=
  match r with
  | Re.RGroup _ _ => false
  | Re.RSeq r1 r2 | Re.RAlt r1 r2 => groupless r1 && groupless r2
  | Re.ROpt _ r1 | Re.RStar _ r1 => groupless r1
  | _ => true
  end.

(** A continuation that can only succeed with the captures it is given. *)
Definition keeps_captures (k : cont) : Prop :=
  forall s cs m, k s cs = Some m -> m = cs.

(** The package that a mapping entry of the manifest describes. *)
Definition package_of_dict (d : list (string * json)) : PackageInfo.t :=
  PackageInfo.mk (field_or d "name" (JStr "")) (field_or d "id" (JStr ""))
                 (field_or d "url" (JStr ""))
                 (field_or d "include_prerelease" (JBool false))
                 (field_or d "pattern" (JStr "")).

(** An entry of the manifest in one of its two formats: a mapping, or a
    sequence. *)
Definition is_entry (entry : json) : bool :=
  match entry with
  | JDict _ | JList _ => true
  | _ => false
  end.

(** The package that an entry describes: none for a sequence of fewer than
    three items. *)
Definition described (entry : json) : option PackageInfo.t :=
  match entry with
  | JDict d => Some (package_of_dict d)
  | JList (name :: id :: url :: _) =>
      Some (PackageInfo.mk name id url (JBool false) (JStr ""))
  | _ => None
  end.

Definition has_url (package : PackageInfo.t) : bool := Py.truthy (PackageInfo.url package).

(** The packages that [parse] keeps from a list of entries, in their
    order. *)
Definition kept (entries : list json) : list PackageInfo.t :=
  filter has_url
         (flat_map (fun e => match described e with Some p => [p] | None => [] end) entries).

(** The warnings that [parse] prints for a list of entries, in their
    order. *)
Definition warnings (entries : list json) : list notice :=
  flat_map (fun e => match described e with
                     | Some p =>
                         if has_url p then [] else [MsgPackageWithoutUrl (PackageInfo.name p)]
                     | None => [MsgIncompletePackage e]
                     end) entries.

(** A value that is neither a mapping nor sized: [None], a truth value or
    an integer. *)
Definition is_scalar (v : json) : bool :=
  match v with
  | JNull | JBool _ | JInt _ => true
  | _ => false
  end.

(** The lines of [process_package] that announce a package. *)
Definition announcement (name id : json) (url pattern : string) : list notice :=
  MsgProcessing name id :: MsgPackageUrl url
    :: (if String.eqb pattern "" then [] else [MsgPackagePattern pattern]).

(** The lines of [process_package] that report a release, up to the
    release notes. *)
Definition report (info : ReleaseInfo) : list notice :=
  MsgLatestVersion (version info) :: MsgTag (tag_name info)
    :: MsgDownloadUrl (download_url info)
    :: (if Py.truthy (published_at info) then [MsgPublishedAt (published_at info)] else []).

(* ===================================================================== *)
(** ** A second runtime, and a file system *)
(* ===================================================================== *)

(** As [Sample], with [GITHUB_TOKEN] set in the environment and a network
    that also knows a release without a tag, a release with long notes, the
    description of a repository and the rate limit; and a file system with
    a few manifests. *)
Module Fixture.

(** 120 characters. *)
Definition long_notes : string :=
  "0123456789012345678901234567890123456789012345678901234567890123456789012345678901234567890123456789abcdefghijklmnopqrst".

Definition network (req : request) : exn + response :=
  let url := req_url req in
  if String.eqb url "https://api.github.com/repos/owner/untagged/releases/latest"
  then inr (mkResponse 200 (inr (JDict [("name", JStr "nightly")])))
  else if String.eqb url "https://api.github.com/repos/owner/verbose/releases/latest"
  then inr (mkResponse 200 (inr (JDict [("tag_name", JStr "v3.0");
                                         ("body", JStr long_notes)])))
  else if String.eqb url "https://api.github.com/repos/owner/repo"
  then inr (mkResponse 200 (inr (JDict [("full_name", JStr "owner/repo")])))
  else if String.eqb url "https://api.github.com/rate_limit"
  then inr (mkResponse 200 (inr (JDict [("rate", JDict [("remaining", JInt 60)])])))
  else Sample.network req.

Definition runtime : Runtime := {|
  pattern_object := Re.regex;
  re_compile_ignorecase := Sample.compile_ignorecase;
  regex_search := Sample.search;
  check_bracketed_netloc := fun _ => Some "Invalid IPv6 URL";
  environ_get := fun name => if String.eqb name "GITHUB_TOKEN" then Some "secret" else None;
  session_get := network
|}.

Definition github : GitHubPackageManager.t := GitHubPackageManager.init (R := runtime) None.

Definition registry : PackageManagerRegistry.t := PackageManagerRegistry.init (R := runtime).

Definition app_entry : json :=
  JDict [("name", JStr "App"); ("id", JStr "Vendor.App");
         ("url", JStr "https://github.com/owner/repo"); ("pattern", JStr "win")].

Definition tool_entry : json :=
  JList [JStr "Tool"; JStr "Vendor.Tool"; JStr "https://github.com/owner/tool"].

(** A sequence that is too short, and a mapping without [url]. *)
Definition short_entry : json := JList [JStr "Short"; JStr "Vendor.Short"].

Definition nameless_entry : json := JDict [("id", JStr "Vendor.Nameless")].

Definition manifest : list (string * json) :=
  [("packages", JList [app_entry; short_entry; tool_entry; nameless_entry])].

(** A manifest with a number among its entries. *)
Definition poisoned : list (string * json) :=
  [("packages", JList [app_entry; nameless_entry; JInt 5; tool_entry])].

Definition files : ManifestParser.Files := {|
  ManifestParser.load := fun path =>
    if String.eqb path "manifest.yml" then inr (JDict manifest)
    else if String.eqb path "poisoned.yml" then inr (JDict poisoned)
    else if String.eqb path "list.yml" then inr (JList [app_entry])
    else if String.eqb path "other.yml" then inr (JDict [("version", JInt 1)])
    else if String.eqb path "broken.yml" then inl (YAMLError "mapping values are not allowed here")
    else if String.eqb path "locked.yml" then inl (OSError "Permission denied")
    else inl FileNotFoundError
|}.

End Fixture.

(* ===================================================================== *)
(** * Properties *)
(* ===================================================================== *)

(** ** Ranking of well-formed assets *)

Section Ranking.
Context {R : Runtime}.

Lemma rank_key_well_formed a :
  Asset.well_formed a = true ->
  rank_key a = inr (key_of a).
Proof.
  destruct a as [| | | |l|d]; try discriminate.
  unfold Asset.well_formed, rank_key, key_of, Asset.count, Asset.name.
  cbn [Py.get Py.getitem].
  destruct (dict_get d "name") as [[]|]; try discriminate.
  destruct (dict_get d "download_count") as [[]|]; try discriminate;
    intros _; reflexivity.
Qed.

Lemma tuple2_gt_keys a b :
  Py.tuple2_gt (key_of a) (key_of b) = inr (key_gt a b).
Proof.
  unfold Py.tuple2_gt, key_gt, key_of.
  change (Py.eq (JInt (Asset.count a)) (JInt (Asset.count b)))
    with (Asset.count a =? Asset.count b)%Z.
  destruct (Asset.count a =? Asset.count b)%Z; [|reflexivity].
  f_equal.
  destruct (Nat.ltb_spec (String.length (Asset.name a)) (String.length (Asset.name b)));
    [apply Z.ltb_lt | apply Z.ltb_ge]; lia.
Qed.

Lemma key_gt_beats a b : key_gt a b = true <-> Asset.beats a b.
Proof.
  unfold key_gt, Asset.beats.
  destruct (Z.eqb_spec (Asset.count a) (Asset.count b)).
  - rewrite Nat.ltb_lt. intuition lia.
  - rewrite Z.ltb_lt. intuition lia.
Qed.

Lemma max_scan_step x items best :
  Asset.well_formed x = true ->
  max_scan (x :: items) best (key_of best)
  = if key_gt x best then max_scan items x (key_of x)
    else max_scan items best (key_of best).
Proof.
  intros Hx. cbn [max_scan]. rewrite (rank_key_well_formed _ Hx).
  cbn [bind Monad_E]. rewrite tuple2_gt_keys. reflexivity.
Qed.

Lemma max_scan_maximal items : forall best,
  Forall (fun a => Asset.well_formed a = true) items ->
  exists r,
    max_scan items best (key_of best) = inr r
    /\ In r (best :: items)
    /\ forall x, In x (best :: items) -> ~ Asset.beats x r.
Proof.
  induction items as [|x items IH]; intros best Hwf.
  - exists best. split; [reflexivity|]. split; [now left|].
    intros y [<-|[]]. unfold Asset.beats. lia.
  - inversion Hwf as [|? ? Hx Hrest]; subst.
    rewrite (max_scan_step _ _ _ Hx).
    destruct (key_gt x best) eqn:Hgt.
    + destruct (IH x Hrest) as (r & Hr & Hin & Hmax).
      exists r. split; [exact Hr|]. split; [right; exact Hin|].
      intros y [<-|Hy]; [|now apply Hmax].
      apply key_gt_beats in Hgt. pose proof (Hmax x (or_introl eq_refl)) as Hxr.
      unfold Asset.beats in *. lia.
    + destruct (IH best Hrest) as (r & Hr & Hin & Hmax).
      exists r. split; [exact Hr|]. split.
      * destruct Hin as [<-|Hin]; [now left | right; now right].
      * intros y [<-|[<-|Hy]].
        -- apply Hmax. now left.
        -- assert (Hnb : ~ Asset.beats x best).
           { intros Hb. apply key_gt_beats in Hb. congruence. }
           pose proof (Hmax best (or_introl eq_refl)) as Hbr.
           unfold Asset.beats in *. lia.
        -- apply Hmax. now right.
Qed.

Lemma max_scan_all_tied items : forall best,
  Forall (fun a => Asset.well_formed a = true /\ Asset.ties a best) items ->
  max_scan items best (key_of best) = inr best.
Proof.
  induction items as [|x items IH]; intros best Hall; [reflexivity|].
  inversion Hall as [|? ? [Hx Htie] Hrest]; subst.
  rewrite (max_scan_step _ _ _ Hx).
  assert (Hgt : key_gt x best = false).
  { destruct (key_gt x best) eqn:E; [|reflexivity].
    apply key_gt_beats in E. unfold Asset.beats, Asset.ties in *. lia. }
  rewrite Hgt. apply IH. exact Hrest.
Qed.

Lemma max_by_key_maximal x items :
  Forall (fun a => Asset.well_formed a = true) (x :: items) ->
  exists r,
    max_by_key (x :: items) = inr r
    /\ In r (x :: items)
    /\ forall y, In y (x :: items) -> ~ Asset.beats y r.
Proof.
  intros Hwf. inversion Hwf as [|? ? Hx Hrest]; subst.
  cbn [max_by_key]. rewrite (rank_key_well_formed _ Hx). cbn [bind Monad_E].
  apply (max_scan_maximal items x Hrest).
Qed.

Lemma matching_well_formed regex assets :
  Forall (fun a => Asset.well_formed a = true) assets ->
  matching regex assets = inr (matching_assets regex assets).
Proof.
  induction 1 as [|a assets Ha _ IH]; [reflexivity|].
  cbn [matching matching_assets filter].
  destruct a as [| | | |l|d]; try discriminate.
  unfold Asset.well_formed in Ha. unfold Asset.name. cbn [Py.getitem].
  destruct (dict_get d "name") as [[]|]; try discriminate.
  cbn [bind Monad_E ret]. rewrite IH. cbn [bind Monad_E ret].
  unfold matching_assets. now destruct (regex_search regex s).
Qed.

End Ranking.

(** ** Asset selection *)

Section Selection.
Context {R : Runtime}.

Lemma nonempty_eqb pattern : pattern <> "" -> String.eqb pattern "" = false.
Proof. intros H. now apply String.eqb_neq. Qed.

Lemma well_formed_name a :
  Asset.well_formed a = true -> Py.getitem a "name" = inr (JStr (Asset.name a)).
Proof.
  destruct a as [| | | |l|d]; try discriminate.
  unfold Asset.well_formed, Asset.name. cbn [Py.getitem].
  destruct (dict_get d "name") as [[]|]; try discriminate. reflexivity.
Qed.

Lemma well_formed_url a :
  Asset.well_formed a = true -> Py.getitem a "browser_download_url" = inr (Asset.url a).
Proof.
  destruct a as [| | | |l|d]; try discriminate.
  unfold Asset.well_formed, Asset.url. cbn [Py.getitem].
  destruct (dict_get d "browser_download_url"); [reflexivity|].
  rewrite andb_false_r. discriminate.
Qed.

Lemma select_runs assets pattern regex best :
  pattern <> "" ->
  re_compile_ignorecase pattern = inr regex ->
  Forall (fun a => Asset.well_formed a = true) assets ->
  matching_assets regex assets <> [] ->
  max_by_key (matching_assets regex assets) = inr best ->
  Asset.well_formed best = true ->
  _select_asset_by_pattern (JList assets) pattern
  = ([EvPrint (MsgAssetSelected (List.length (matching_assets regex assets))
                                (JStr (Asset.name best)))],
     inr (Asset.url best)).
Proof.
  intros Hp Hc Hwf Hne Hmax Hbest.
  unfold _select_asset_by_pattern. rewrite (nonempty_eqb _ Hp).
  unfold lift. rewrite Hc. cbn [bind Monad_M Py.iter].
  rewrite (matching_well_formed regex assets Hwf).
  destruct (matching_assets regex assets) as [|m ms] eqn:Hm; [congruence|].
  cbn [bind Monad_M]. rewrite Hmax. cbn [bind Monad_M].
  rewrite (well_formed_name _ Hbest). cbn [bind Monad_M print].
  rewrite (well_formed_url _ Hbest). reflexivity.
Qed.

Lemma matching_assets_well_formed regex assets a :
  Forall (fun a => Asset.well_formed a = true) assets ->
  In a (matching_assets regex assets) ->
  Asset.well_formed a = true /\ In a assets /\ regex_search regex (Asset.name a) = true.
Proof.
  intros Hwf Hin. apply filter_In in Hin as [Hin Hm].
  rewrite Forall_forall in Hwf. auto.
Qed.

(** Whatever happens inside, the selection returns a value. *)
Lemma select_never_raises assets pattern :
  exists v, outcome (_select_asset_by_pattern assets pattern) = inr v.
Proof.
  unfold _select_asset_by_pattern.
  destruct (String.eqb pattern ""); [now exists (JStr "")|].
  match goal with |- context [try_except ?b _] => destruct b as [t [e|v]] end.
  - exists (JStr ""). destruct e; reflexivity.
  - now exists v.
Qed.

(** Only diagnostics are produced by the selection: it sends nothing. *)
Lemma select_sends_nothing assets pattern :
  requested (_select_asset_by_pattern assets pattern) = [].
Proof.
  unfold _select_asset_by_pattern.
  destruct (String.eqb pattern ""); [reflexivity|].
  unfold lift.
  destruct (re_compile_ignorecase pattern) as [e|regex]; [now destruct e|].
  destruct (Py.iter assets) as [e|items]; [now destruct e|].
  cbn [bind Monad_M].
  destruct (matching regex items) as [e|[|m ms]]; [now destruct e|reflexivity|].
  cbn [bind Monad_M].
  destruct (max_by_key (m :: ms)) as [e|best]; [now destruct e|].
  cbn [bind Monad_M].
  destruct (Py.getitem best "name") as [e|name]; [now destruct e|].
  cbn [bind Monad_M print].
  destruct (Py.getitem best "browser_download_url") as [e|u]; [now destruct e|reflexivity].
Qed.

End Selection.

(** C1. For a list of well-formed assets and a non-empty pattern that
    compiles and finds at least one asset name, the selection returns the
    download URL of a matching asset that no matching asset beats in the
    ranking (more downloads first, then the shorter name).  On the spec's
    lists: with pattern [win] the asset [app-win64.zip] (20 downloads) is
    chosen over [app-win32.zip] (5), and on a tie at 20 downloads the
    shorter [app.zip] is chosen over [app-win64.zip]. *)
Theorem select_asset_by_pattern_maximal :
  (forall (R : Runtime) (assets : list json) (pattern : string) (regex : pattern_object),
      pattern <> "" ->
      re_compile_ignorecase pattern = inr regex ->
      Forall (fun a => Asset.well_formed a = true) assets ->
      (exists a, In a assets /\ regex_search regex (Asset.name a) = true) ->
      exists best,
        In best assets
        /\ regex_search regex (Asset.name best) = true
        /\ outcome (_select_asset_by_pattern (JList assets) pattern) = inr (Asset.url best)
        /\ forall a, In a assets -> regex_search regex (Asset.name a) = true ->
                     ~ Asset.beats a best)
  /\ outcome (_select_asset_by_pattern (R := Sample.runtime) (JList Sample.assets_counts) "win")
     = inr (JStr "https://dl.example/app-win64.zip")
  /\ outcome (_select_asset_by_pattern (R := Sample.runtime) (JList Sample.assets_tie)
                                       "app.*\.zip")
     = inr (JStr "https://dl.example/app.zip").
Proof.
  split; [|split; reflexivity].
  intros R assets pattern regex Hp Hc Hwf (a & Ha & Hm).
  assert (Hne : matching_assets regex assets <> []).
  { intros Hnil. assert (Hin : In a (matching_assets regex assets))
      by (apply filter_In; auto).
    rewrite Hnil in Hin. exact Hin. }
  destruct (matching_assets regex assets) as [|m ms] eqn:Hmatch; [congruence|].
  assert (Hwfm : Forall (fun a => Asset.well_formed a = true) (m :: ms)).
  { apply Forall_forall. intros x Hx. rewrite <- Hmatch in Hx.
    now apply (matching_assets_well_formed regex assets x Hwf). }
  destruct (max_by_key_maximal m ms Hwfm) as (best & Hmax & Hin & Hbest).
  rewrite <- Hmatch in Hin, Hmax.
  destruct (matching_assets_well_formed regex assets best Hwf Hin) as (Hwb & Hinb & Hmb).
  exists best. repeat split; auto.
  - rewrite (select_runs assets pattern regex best Hp Hc Hwf); auto.
    rewrite Hmatch. discriminate.
  - intros x Hx Hmx. apply Hbest. rewrite <- Hmatch. apply filter_In. auto.
Qed.

Lemma select_asset_by_pattern_maximal_witness :
  exists best,
    In best Sample.assets_counts
    /\ Sample.search Sample.win_regex (Asset.name best) = true
    /\ outcome (_select_asset_by_pattern (R := Sample.runtime) (JList Sample.assets_counts) "win")
       = inr (Asset.url best)
    /\ forall a, In a Sample.assets_counts ->
                 Sample.search Sample.win_regex (Asset.name a) = true ->
                 ~ Asset.beats a best.
Proof.
  apply (proj1 select_asset_by_pattern_maximal Sample.runtime Sample.assets_counts "win"
               Sample.win_regex).
  - discriminate.
  - reflexivity.
  - repeat constructor.
  - exists (Sample.asset "app-win32.zip" 5). split; [now left | reflexivity].
Defined.

(** C10. When every matching asset ties with the first matching one on both
    ranking keys (same download count, same name length), the selection
    returns the download URL of the first matching asset in input order. *)
Theorem select_asset_all_tied_takes_first :
  forall (R : Runtime) (assets : list json) (pattern : string) (regex : pattern_object)
         (first : json) (others : list json),
    pattern <> "" ->
    re_compile_ignorecase pattern = inr regex ->
    Forall (fun a => Asset.well_formed a = true) assets ->
    matching_assets regex assets = first :: others ->
    Forall (fun a => Asset.ties a first) others ->
    outcome (_select_asset_by_pattern (JList assets) pattern) = inr (Asset.url first).
Proof.
  intros R assets pattern regex first others Hp Hc Hwf Hmatch Hties.
  assert (Hin : forall x, In x (first :: others) -> Asset.well_formed x = true).
  { intros x Hx. rewrite <- Hmatch in Hx.
    now apply (matching_assets_well_formed regex assets x Hwf). }
  rewrite (select_runs assets pattern regex first Hp Hc Hwf).
  - reflexivity.
  - rewrite Hmatch. discriminate.
  - rewrite Hmatch. cbn [max_by_key].
    rewrite (rank_key_well_formed first (Hin first (or_introl eq_refl))).
    cbn [bind Monad_E]. apply max_scan_all_tied.
    apply Forall_forall. intros x Hx. split.
    + apply Hin. now right.
    + rewrite Forall_forall in Hties. now apply Hties.
  - apply Hin. now left.
Qed.

Lemma select_asset_all_tied_takes_first_witness :
  outcome (_select_asset_by_pattern (R := Sample.runtime) (JList Sample.assets_all_tied) "app")
  = inr (JStr "https://dl.example/app-x64.zip").
Proof.
  apply (select_asset_all_tied_takes_first Sample.runtime Sample.assets_all_tied "app"
           Sample.app_regex (Sample.asset "app-x64.zip" 7) [Sample.asset "app-x86.zip" 7]).
  - discriminate.
  - reflexivity.
  - repeat constructor.
  - reflexivity.
  - repeat constructor.
Defined.

(** ** Parsing a release object *)

Section Parsing.
Context {R : Runtime}.

Lemma selected_url_never_raises d pattern :
  exists v, outcome (selected_url d pattern) = inr v.
Proof.
  unfold selected_url.
  destruct (Py.truthy (field_or d "assets" JNull) && negb (String.eqb pattern "")).
  - apply select_never_raises.
  - now exists JNull.
Qed.

Lemma parse_release_data_runs d pattern tag :
  dict_get d "tag_name" = Some tag ->
  _parse_release_data (JDict d) pattern
  = (trace_of (selected_url d pattern),
     match outcome (selected_url d pattern) with
     | inr u => inr (release_info_of d tag (Py.or_ u (JStr "")))
     | inl e => inl e
     end).
Proof.
  intros Htag.
  unfold _parse_release_data, selected_url, release_info_of, field_or, lift.
  cbn [Py.get Py.getitem].
  rewrite Htag.
  destruct (dict_get d "assets") as [assets|] eqn:Hassets.
  - cbn [bind Monad_M].
    destruct (Py.truthy assets && negb (String.eqb pattern "")).
    + cbn [bind Monad_M app].
      destruct (_select_asset_by_pattern assets pattern) as [t [e|u]]; [reflexivity|].
      destruct (dict_get d "published_at"), (dict_get d "body");
        cbn [bind Monad_M ret app trace_of outcome fst snd]; now rewrite app_nil_r.
    + destruct (dict_get d "published_at"), (dict_get d "body"); reflexivity.
  - cbn [bind Monad_M Py.truthy andb].
    destruct (dict_get d "published_at"), (dict_get d "body"); reflexivity.
Qed.

Lemma matching_none regex items :
  (forall a name, In a items -> Py.getitem a "name" = inr (JStr name) ->
                  regex_search regex name = false) ->
  matching regex items = inr [] \/ exists e, matching regex items = inl e.
Proof.
  induction items as [|a items IH]; intros Hnone; [now left|].
  cbn [matching].
  destruct (Py.getitem a "name") as [e|name] eqn:Hname; [right; now exists e|].
  cbn [bind Monad_E].
  destruct name as [| | |s| |]; try (right; now exists TypeError).
  cbn [bind Monad_E ret].
  rewrite (Hnone a s (or_introl eq_refl) Hname).
  destruct IH as [-> | [e ->]].
  - intros b name Hb. apply Hnone. now right.
  - now left.
  - right. now exists e.
Qed.

Lemma select_no_match assets pattern :
  no_asset_matches pattern assets ->
  outcome (_select_asset_by_pattern assets pattern) = inr (JStr "").
Proof.
  intros Hnone. unfold _select_asset_by_pattern.
  destruct (String.eqb pattern ""); [reflexivity|].
  unfold lift.
  destruct (re_compile_ignorecase pattern) as [e|regex] eqn:Hc; [now destruct e|].
  destruct (Py.iter assets) as [e|items] eqn:Hiter; [now destruct e|].
  cbn [bind Monad_M].
  destruct (matching_none regex items) as [-> | [e ->]].
  - intros a name Ha Hname. now apply (Hnone regex items a name).
  - reflexivity.
  - now destruct e.
Qed.

End Parsing.

(** ** Fetching a release *)

Section Fetching.
Context {R : Runtime}.
Variables (self : GitHubPackageManager.t) (owner repo pattern : string).

(** The stable path, by the status of the response. *)
Lemma stable_release_by_status resp :
  session_get (stable_request self owner repo) = inr resp ->
  _get_latest_stable_release self owner repo pattern
  = if (status resp =? 404)%Z then
      ([EvGet (stable_request self owner repo); EvPrint (MsgNoReleasePublished owner repo)],
       inr None)
    else if (status resp =? 403)%Z then
      ([EvGet (stable_request self owner repo); EvPrint (MsgApiLimited (status resp))],
       inr None)
    else if negb (status resp =? 200)%Z then
      ([EvGet (stable_request self owner repo); EvPrint (MsgReleaseHttpFailed (status resp))],
       inr None)
    else
      match json_body resp with
      | inl e => ([EvGet (stable_request self owner repo)], inl e)
      | inr data =>
          (EvGet (stable_request self owner repo)
             :: trace_of (_parse_release_data data pattern),
           outcome (found (_parse_release_data data pattern)))
      end.
Proof.
  intros Hget. unfold _get_latest_stable_release, get.
  fold (stable_request self owner repo). rewrite Hget. cbn [bind Monad_M].
  destruct (status resp =? 404)%Z; [reflexivity|].
  destruct (status resp =? 403)%Z; [reflexivity|].
  destruct (negb (status resp =? 200)%Z); [reflexivity|].
  unfold json_of, lift. destruct (json_body resp) as [e|data]; [reflexivity|].
  cbn [bind Monad_M]. unfold found, trace_of, outcome.
  destruct (_parse_release_data data pattern) as [t [e|info]];
    cbn [fst snd app ret Monad_M]; rewrite ?app_nil_r; reflexivity.
Qed.

(** The path that includes pre-releases, by the status of the response. *)
Lemma releases_by_status resp :
  session_get (releases_request self owner repo) = inr resp ->
  _get_latest_release_including_prerelease self owner repo pattern
  = if (status resp =? 404)%Z then
      ([EvGet (releases_request self owner repo); EvPrint (MsgNoReleasePublished owner repo)],
       inr None)
    else if (status resp =? 403)%Z then
      ([EvGet (releases_request self owner repo); EvPrint (MsgApiLimited (status resp))],
       inr None)
    else if negb (status resp =? 200)%Z then
      ([EvGet (releases_request self owner repo); EvPrint (MsgReleasesHttpFailed (status resp))],
       inr None)
    else
      match json_body resp with
      | inl e => ([EvGet (releases_request self owner repo)], inl e)
      | inr releases =>
          if negb (Py.truthy releases) then
            ([EvGet (releases_request self owner repo); EvPrint (MsgNoReleases owner repo)],
             inr None)
          else
            match Py.getitem0 releases with
            | inl e => ([EvGet (releases_request self owner repo)], inl e)
            | inr first =>
                (EvGet (releases_request self owner repo)
                   :: trace_of (_parse_release_data first pattern),
                 outcome (found (_parse_release_data first pattern)))
            end
      end.
Proof.
  intros Hget. unfold _get_latest_release_including_prerelease, get.
  fold (releases_request self owner repo). rewrite Hget. cbn [bind Monad_M].
  destruct (status resp =? 404)%Z; [reflexivity|].
  destruct (status resp =? 403)%Z; [reflexivity|].
  destruct (negb (status resp =? 200)%Z); [reflexivity|].
  unfold json_of, lift. destruct (json_body resp) as [e|releases]; [reflexivity|].
  cbn [bind Monad_M].
  destruct (negb (Py.truthy releases)); [reflexivity|].
  destruct (Py.getitem0 releases) as [e|first]; [reflexivity|].
  cbn [bind Monad_M]. unfold found, trace_of, outcome.
  destruct (_parse_release_data first pattern) as [t [e|info]];
    cbn [fst snd app ret Monad_M]; rewrite ?app_nil_r; reflexivity.
Qed.

(** A request that the network fails raises that fault. *)
Lemma stable_release_transport_fault e :
  session_get (stable_request self owner repo) = inl e ->
  _get_latest_stable_release self owner repo pattern
  = ([EvGet (stable_request self owner repo)], inl e).
Proof.
  intros Hget. unfold _get_latest_stable_release, get.
  fold (stable_request self owner repo). now rewrite Hget.
Qed.

Lemma releases_transport_fault e :
  session_get (releases_request self owner repo) = inl e ->
  _get_latest_release_including_prerelease self owner repo pattern
  = ([EvGet (releases_request self owner repo)], inl e).
Proof.
  intros Hget. unfold _get_latest_release_including_prerelease, get.
  fold (releases_request self owner repo). now rewrite Hget.
Qed.

End Fetching.

Section Resolution.
Context {R : Runtime}.

Lemma parse_sends_nothing data pattern :
  requested (_parse_release_data data pattern) = [].
Proof.
  unfold _parse_release_data, lift.
  destruct (Py.get data "assets" JNull) as [e|assets]; [reflexivity|].
  cbn [bind Monad_M].
  destruct (Py.truthy assets && negb (String.eqb pattern "")).
  - destruct (Py.getitem data "assets") as [e|a]; [reflexivity|].
    cbn [bind Monad_M app].
    pose proof (select_sends_nothing a pattern) as Hsel.
    destruct (_select_asset_by_pattern a pattern) as [t [e|u]]; [exact Hsel|].
    destruct (Py.getitem data "tag_name") as [e|tag];
      [unfold requested in *; cbn in *; now rewrite app_nil_r|].
    destruct (Py.get data "published_at" (JStr "")) as [e|p];
      [unfold requested in *; cbn in *; now rewrite app_nil_r|].
    destruct (Py.get data "body" JNull) as [e|b];
      unfold requested in *; cbn in *; now rewrite app_nil_r.
  - cbn [ret Monad_M].
    destruct (Py.getitem data "tag_name") as [e|tag]; [reflexivity|].
    destruct (Py.get data "published_at" (JStr "")) as [e|p]; [reflexivity|].
    destruct (Py.get data "body" JNull) as [e|b]; reflexivity.
Qed.

(** [get_latest_release] with the repository identified: the [try] body
    is the chosen path. *)
Lemma get_latest_release_runs self url include_prerelease pattern owner repo :
  extract_repo_info url = inr (owner, repo) ->
  get_latest_release self url include_prerelease pattern
  = try_except
      (if include_prerelease
       then _get_latest_release_including_prerelease self owner repo pattern
       else _get_latest_stable_release self owner repo pattern)
      (fun e => print (MsgReleaseError e) ;;; ret None).
Proof.
  intros Hx. unfold get_latest_release, lift. rewrite Hx. cbn [bind Monad_M].
  f_equal.
  destruct include_prerelease;
    match goal with |- (let '(t', r) := ?c in _) = _ => destruct c as [t r] end; reflexivity.
Qed.

End Resolution.

(** ** The claims about release resolution *)

Lemma parse_release_data_succeeds {R : Runtime} d pattern tag :
  dict_get d "tag_name" = Some tag ->
  exists url,
    _parse_release_data (JDict d) pattern
    = (trace_of (selected_url d pattern), inr (release_info_of d tag url))
    /\ (pattern = "" -> url = JStr "")
    /\ (no_asset_matches pattern (field_or d "assets" JNull) -> url = JStr "").
Proof.
  intros Htag. rewrite (parse_release_data_runs d pattern tag Htag).
  destruct (selected_url_never_raises d pattern) as [v Hv]. rewrite Hv.
  exists (Py.or_ v (JStr "")). split; [reflexivity|]. split.
  - intros ->. unfold selected_url in Hv. rewrite andb_false_r in Hv.
    injection Hv as <-. reflexivity.
  - intros Hnone. unfold selected_url in Hv.
    destruct (Py.truthy (field_or d "assets" JNull) && negb (String.eqb pattern "")).
    + rewrite (select_no_match _ _ Hnone) in Hv. injection Hv as <-. reflexivity.
    + injection Hv as <-. reflexivity.
Qed.

(** C2, as amended.  On both paths a 404 response gives [None] without any
    exception, a 403 gives [None] with the diagnostic of a rate-limit or
    authorization problem, every other status different from 200 (the
    other 2xx ones included) gives [None] with the status printed, and a
    200 response that carries a release object (for the path with
    pre-releases: a list that starts with one) is parsed into a
    [ReleaseInfo]. *)
Theorem release_status_handling :
  forall (R : Runtime) (self : GitHubPackageManager.t) (owner repo pattern : string),
    (forall resp,
        session_get (stable_request self owner repo) = inr resp ->
        (status resp = 404%Z ->
         _get_latest_stable_release self owner repo pattern
         = ([EvGet (stable_request self owner repo);
             EvPrint (MsgNoReleasePublished owner repo)], inr None))
        /\ (status resp = 403%Z ->
            _get_latest_stable_release self owner repo pattern
            = ([EvGet (stable_request self owner repo); EvPrint (MsgApiLimited 403)],
               inr None))
        /\ (status resp <> 404%Z -> status resp <> 403%Z -> status resp <> 200%Z ->
            _get_latest_stable_release self owner repo pattern
            = ([EvGet (stable_request self owner repo);
                EvPrint (MsgReleaseHttpFailed (status resp))], inr None))
        /\ (status resp = 200%Z ->
            forall d tag,
              json_body resp = inr (JDict d) ->
              dict_get d "tag_name" = Some tag ->
              exists url,
                outcome (_get_latest_stable_release self owner repo pattern)
                = inr (Some (mkReleaseInfo tag tag url
                                           (field_or d "published_at" (JStr ""))
                                           (field_or d "body" JNull)))))
    /\ (forall resp,
           session_get (releases_request self owner repo) = inr resp ->
           (status resp = 404%Z ->
            _get_latest_release_including_prerelease self owner repo pattern
            = ([EvGet (releases_request self owner repo);
                EvPrint (MsgNoReleasePublished owner repo)], inr None))
           /\ (status resp = 403%Z ->
               _get_latest_release_including_prerelease self owner repo pattern
               = ([EvGet (releases_request self owner repo); EvPrint (MsgApiLimited 403)],
                  inr None))
           /\ (status resp <> 404%Z -> status resp <> 403%Z -> status resp <> 200%Z ->
               _get_latest_release_including_prerelease self owner repo pattern
               = ([EvGet (releases_request self owner repo);
                   EvPrint (MsgReleasesHttpFailed (status resp))], inr None))
           /\ (status resp = 200%Z ->
               forall d rest tag,
                 json_body resp = inr (JList (JDict d :: rest)) ->
                 dict_get d "tag_name" = Some tag ->
                 exists url,
                   outcome (_get_latest_release_including_prerelease self owner repo pattern)
                   = inr (Some (mkReleaseInfo tag tag url
                                              (field_or d "published_at" (JStr ""))
                                              (field_or d "body" JNull))))).
Proof.
  intros R self owner repo pattern. split; intros resp Hget.
  - rewrite (stable_release_by_status self owner repo pattern resp Hget).
    repeat split.
    + intros ->. reflexivity.
    + intros ->. reflexivity.
    + intros H404 H403 H200.
      apply Z.eqb_neq in H404, H403, H200. now rewrite H404, H403, H200.
    + intros -> d tag Hbody Htag. cbn [Z.eqb negb]. rewrite Hbody.
      destruct (parse_release_data_succeeds d pattern tag Htag) as (url & -> & _).
      now exists url.
  - rewrite (releases_by_status self owner repo pattern resp Hget).
    repeat split.
    + intros ->. reflexivity.
    + intros ->. reflexivity.
    + intros H404 H403 H200.
      apply Z.eqb_neq in H404, H403, H200. now rewrite H404, H403, H200.
    + intros -> d rest tag Hbody Htag. cbn [Z.eqb negb]. rewrite Hbody.
      cbn [Py.truthy negb Py.getitem0].
      destruct (parse_release_data_succeeds d pattern tag Htag) as (url & -> & _).
      now exists url.
Qed.

Lemma release_status_handling_witness :
  _get_latest_stable_release (R := Sample.runtime) Sample.github "owner" "limited" "win"
  = ([EvGet (stable_request Sample.github "owner" "limited"); EvPrint (MsgApiLimited 403)],
     inr None)
  /\ _get_latest_stable_release (R := Sample.runtime) Sample.github "owner" "missing" "win"
     = ([EvGet (stable_request Sample.github "owner" "missing");
         EvPrint (MsgNoReleasePublished "owner" "missing")], inr None)
  /\ _get_latest_stable_release (R := Sample.runtime) Sample.github "owner" "created" "win"
     = ([EvGet (stable_request Sample.github "owner" "created");
         EvPrint (MsgReleaseHttpFailed 201)], inr None)
  /\ exists url,
       outcome (_get_latest_release_including_prerelease (R := Sample.runtime)
                  Sample.github "owner" "repo" "win")
       = inr (Some (mkReleaseInfo (JStr "v2.0-rc1") (JStr "v2.0-rc1") url
                                  (JStr "2024-01-01T00:00:00Z") (JStr "notes"))).
Proof.
  split; [|split; [|split]].
  - refine (proj1 (proj2 (proj1 (release_status_handling Sample.runtime Sample.github
                                   "owner" "limited" "win")
                                (mkResponse 403 (inr JNull)) _)) _); reflexivity.
  - refine (proj1 (proj1 (release_status_handling Sample.runtime Sample.github
                            "owner" "missing" "win")
                         (mkResponse 404 (inr JNull)) _) _); reflexivity.
  - refine (proj1 (proj2 (proj2 (proj1 (release_status_handling Sample.runtime Sample.github
                                          "owner" "created" "win")
                                       (mkResponse 201 _) _))) _ _ _);
      [reflexivity | discriminate | discriminate | discriminate].
  - refine (proj2 (proj2 (proj2 (proj2 (release_status_handling Sample.runtime Sample.github
                                          "owner" "repo" "win")
                                       (mkResponse 200 _) _))) _
                  (Sample.release_fields "v2.0-rc1" (JList Sample.assets_tie))
                  [Sample.release "v1.0" (JList Sample.assets_counts)]
                  (JStr "v2.0-rc1") _ _);
      reflexivity.
Defined.

(** The claim C2 as stated fails on a 2xx status other than 200: the stable
    path answers a 201 response that carries a release object with [None]. *)
Lemma status_2xx_other_than_200_is_not_found :
  ~ (forall (R : Runtime) (self : GitHubPackageManager.t) (owner repo pattern : string)
            (resp : response) (d : list (string * json)) (tag : json),
        session_get (stable_request self owner repo) = inr resp ->
        (200 <= status resp < 300)%Z ->
        json_body resp = inr (JDict d) ->
        dict_get d "tag_name" = Some tag ->
        exists info,
          outcome (_get_latest_stable_release self owner repo pattern) = inr (Some info)).
Proof.
  intros H.
  destruct (H Sample.runtime Sample.github "owner" "created" "win"
              (mkResponse 201 (inr (Sample.release "v1.0" (JList Sample.assets_counts))))
              _ (JStr "v1.0") eq_refl ltac:(cbn; lia) eq_refl eq_refl) as [info Hinfo].
  discriminate Hinfo.
Qed.

(** C3. A release object with a tag is parsed into a [ReleaseInfo] whose
    [version] and [tag_name] are that tag, whose [published_at] and
    [release_notes] are the object's [published_at] and [body] as they are
    (the empty string and [None] when the object omits them), and whose
    [download_url] is the empty string when the pattern is empty or finds no
    asset; fetched with status 200 on either path, such a release is
    returned as a [ReleaseInfo], not as [None]. *)
Theorem parse_release_data_fields :
  forall (R : Runtime) (d : list (string * json)) (pattern : string) (tag : json),
    dict_get d "tag_name" = Some tag ->
    exists url,
      outcome (_parse_release_data (JDict d) pattern)
      = inr (mkReleaseInfo tag tag url
                           (field_or d "published_at" (JStr ""))
                           (field_or d "body" JNull))
      /\ (pattern = "" -> url = JStr "")
      /\ (no_asset_matches pattern (field_or d "assets" JNull) -> url = JStr "")
      /\ (forall self owner repo,
             session_get (stable_request self owner repo)
             = inr (mkResponse 200 (inr (JDict d))) ->
             outcome (_get_latest_stable_release self owner repo pattern)
             = inr (Some (mkReleaseInfo tag tag url
                                        (field_or d "published_at" (JStr ""))
                                        (field_or d "body" JNull))))
      /\ (forall self owner repo rest,
             session_get (releases_request self owner repo)
             = inr (mkResponse 200 (inr (JList (JDict d :: rest)))) ->
             outcome (_get_latest_release_including_prerelease self owner repo pattern)
             = inr (Some (mkReleaseInfo tag tag url
                                        (field_or d "published_at" (JStr ""))
                                        (field_or d "body" JNull)))).
Proof.
  intros R d pattern tag Htag.
  destruct (parse_release_data_succeeds d pattern tag Htag) as (url & Hrun & Hempty & Hnone).
  exists url. split; [now rewrite Hrun|]. split; [exact Hempty|]. split; [exact Hnone|].
  split.
  - intros self owner repo Hget.
    rewrite (stable_release_by_status self owner repo pattern _ Hget).
    cbn [status json_body Z.eqb negb]. now rewrite Hrun.
  - intros self owner repo rest Hget.
    rewrite (releases_by_status self owner repo pattern _ Hget).
    cbn [status json_body Z.eqb negb Py.truthy Py.getitem0]. now rewrite Hrun.
Qed.

Lemma parse_release_data_fields_witness :
  exists url,
    outcome (_parse_release_data (R := Sample.runtime)
               (Sample.release "v1.0" (JList Sample.assets_counts)) "linux")
    = inr (mkReleaseInfo (JStr "v1.0") (JStr "v1.0") url
                         (JStr "2024-01-01T00:00:00Z") (JStr "notes"))
    /\ url = JStr "".
Proof.
  destruct (parse_release_data_fields Sample.runtime
              (Sample.release_fields "v1.0" (JList Sample.assets_counts)) "linux"
              (JStr "v1.0") eq_refl) as (url & Hrun & _ & Hnone & _).
  exists url. split; [exact Hrun|].
  apply Hnone. intros regex items a name Hc Hiter Ha Hname.
  injection Hc as <-. injection Hiter as <-.
  destruct Ha as [<-|[<-|[<-|[]]]]; injection Hname as <-; reflexivity.
Defined.

(** The requests of a resolution. *)

Section Requests.
Context {R : Runtime}.

Lemma requested_app_print {A} (t : list event) (d : diagnostic) (x y : exn + A) :
  requested (t ++ [EvPrint d], x) = requested (t, y).
Proof. unfold requested, trace_of. cbn [fst]. rewrite flat_map_app. cbn. now rewrite app_nil_r. Qed.

Lemma requested_try_print {A} (body : M (option A)) :
  requested (try_except body (fun e => print (MsgReleaseError e) ;;; ret None))
  = requested body.
Proof.
  destruct body as [t [e|x]]; [|reflexivity].
  unfold try_except. cbn [print bind Monad_M ret app].
  apply requested_app_print.
Qed.

Lemma stable_requested self owner repo pattern :
  requested (_get_latest_stable_release self owner repo pattern)
  = [stable_request self owner repo].
Proof.
  destruct (session_get (stable_request self owner repo)) as [e|resp] eqn:Hget.
  - now rewrite (stable_release_transport_fault self owner repo pattern e Hget).
  - rewrite (stable_release_by_status self owner repo pattern resp Hget).
    destruct (status resp =? 404)%Z; [reflexivity|].
    destruct (status resp =? 403)%Z; [reflexivity|].
    destruct (negb (status resp =? 200)%Z); [reflexivity|].
    destruct (json_body resp) as [e|data]; [reflexivity|].
    pose proof (parse_sends_nothing data pattern) as Hparse.
    unfold requested, trace_of in *. cbn [fst flat_map app] in *. now rewrite Hparse.
Qed.

Lemma releases_requested self owner repo pattern :
  requested (_get_latest_release_including_prerelease self owner repo pattern)
  = [releases_request self owner repo].
Proof.
  destruct (session_get (releases_request self owner repo)) as [e|resp] eqn:Hget.
  - now rewrite (releases_transport_fault self owner repo pattern e Hget).
  - rewrite (releases_by_status self owner repo pattern resp Hget).
    destruct (status resp =? 404)%Z; [reflexivity|].
    destruct (status resp =? 403)%Z; [reflexivity|].
    destruct (negb (status resp =? 200)%Z); [reflexivity|].
    destruct (json_body resp) as [e|data]; [reflexivity|].
    destruct (negb (Py.truthy data)); [reflexivity|].
    destruct (Py.getitem0 data) as [e|first]; [reflexivity|].
    pose proof (parse_sends_nothing first pattern) as Hparse.
    unfold requested, trace_of in *. cbn [fst flat_map app] in *. now rewrite Hparse.
Qed.

(** The requests of a resolution: none when the URL names no repository,
    else the one request of the chosen path. *)
Lemma get_latest_release_requested self url include_prerelease pattern :
  requested (get_latest_release self url include_prerelease pattern)
  = match extract_repo_info url with
    | inl _ => []
    | inr (owner, repo) =>
        [if include_prerelease then releases_request self owner repo
         else stable_request self owner repo]
    end.
Proof.
  destruct (extract_repo_info url) as [e|[owner repo]] eqn:Hx.
  - unfold get_latest_release, lift. rewrite Hx. reflexivity.
  - rewrite (get_latest_release_runs self url include_prerelease pattern owner repo Hx).
    rewrite requested_try_print.
    destruct include_prerelease; [apply releases_requested | apply stable_requested].
Qed.

End Requests.

(** C4. With [include_prerelease] true, [get_latest_release] on a URL
    that names a repository sends one request, for the list of releases
    with [per_page] set to 10.  On a 200 response an empty list gives
    [None]; a list that starts with a release object gives the
    [ReleaseInfo] of that first object (its tag as version and tag name,
    its [published_at] and [body], the download URL selected among its
    assets), whatever follows it in the list: nothing is sorted or
    compared. *)
Theorem prerelease_takes_first_release :
  forall (R : Runtime) (self : GitHubPackageManager.t) (url owner repo pattern : string),
    extract_repo_info url = inr (owner, repo) ->
    requested (get_latest_release self url true pattern)
    = [mkRequest (api_base self ++ "/repos/" ++ owner ++ "/" ++ repo ++ "/releases")%string
                 (headers self) [("per_page", 10%Z)]]
    /\ forall resp,
         session_get (releases_request self owner repo) = inr resp ->
         status resp = 200%Z ->
         (json_body resp = inr (JList []) ->
          get_latest_release self url true pattern
          = ([EvGet (releases_request self owner repo); EvPrint (MsgNoReleases owner repo)],
             inr None))
         /\ (forall d rest tag,
                json_body resp = inr (JList (JDict d :: rest)) ->
                dict_get d "tag_name" = Some tag ->
                exists u,
                  outcome (selected_url d pattern) = inr u
                  /\ (pattern = "" -> u = JNull)
                  /\ get_latest_release self url true pattern
                     = (EvGet (releases_request self owner repo)
                          :: trace_of (selected_url d pattern),
                        inr (Some (mkReleaseInfo tag tag (Py.or_ u (JStr ""))
                                                 (field_or d "published_at" (JStr ""))
                                                 (field_or d "body" JNull))))).
Proof.
  intros R self url owner repo pattern Hx.
  rewrite (get_latest_release_runs self url true pattern owner repo Hx).
  split.
  - rewrite requested_try_print. apply releases_requested.
  - intros resp Hget Hstatus.
    rewrite (releases_by_status self owner repo pattern resp Hget), Hstatus.
    cbn [Z.eqb negb Pos.eqb]. split.
    + intros ->. reflexivity.
    + intros d rest tag -> Htag. cbn [Py.truthy negb Py.getitem0].
      rewrite (parse_release_data_runs d pattern tag Htag).
      destruct (selected_url_never_raises d pattern) as [u Hu].
      exists u. split; [exact Hu|]. split.
      * intros ->. unfold selected_url in Hu. rewrite andb_false_r in Hu.
        now injection Hu as <-.
      * unfold found, trace_of, outcome in *. cbn [fst snd]. rewrite Hu. reflexivity.
Qed.

Lemma prerelease_takes_first_release_witness :
  exists u,
    outcome (selected_url (R := Sample.runtime)
               (Sample.release_fields "v2.0-rc1" (JList Sample.assets_tie)) "win")
    = inr u
    /\ ("win" = "" -> u = JNull)
    /\ get_latest_release (R := Sample.runtime) Sample.github
                          "https://github.com/owner/repo" true "win"
       = (EvGet (releases_request Sample.github "owner" "repo")
            :: trace_of (selected_url (R := Sample.runtime)
                           (Sample.release_fields "v2.0-rc1" (JList Sample.assets_tie)) "win"),
          inr (Some (mkReleaseInfo
                       (JStr "v2.0-rc1") (JStr "v2.0-rc1") (Py.or_ u (JStr ""))
                       (field_or (Sample.release_fields "v2.0-rc1" (JList Sample.assets_tie))
                                 "published_at" (JStr ""))
                       (field_or (Sample.release_fields "v2.0-rc1" (JList Sample.assets_tie))
                                 "body" JNull)))).
Proof.
  destruct (prerelease_takes_first_release
              Sample.runtime Sample.github "https://github.com/owner/repo" "owner" "repo" "win")
    as (_ & Hresp); [vm_compute; reflexivity|].
  destruct (Hresp (mkResponse 200 (inr (JList [Sample.release "v2.0-rc1" (JList Sample.assets_tie);
                                               Sample.release "v1.0" (JList Sample.assets_counts)]))))
    as (_ & Hfirst); [reflexivity | reflexivity |].
  apply (Hfirst (Sample.release_fields "v2.0-rc1" (JList Sample.assets_tie))
                [Sample.release "v1.0" (JList Sample.assets_counts)] (JStr "v2.0-rc1"));
    reflexivity.
Defined.

(** C5. [get_latest_release] of the provider never raises: its outcome is
    always a value, a [ReleaseInfo] or [None].  A failure to identify the
    repository, a fault of the network, and any exception that leaves the
    chosen path (such as a body that cannot be decoded or parsed) end in
    [None] after the exception is printed. *)
Theorem get_latest_release_never_raises :
  forall (R : Runtime) (self : GitHubPackageManager.t) (url : string)
         (include_prerelease : bool) (pattern : string),
    (exists result,
        outcome (get_latest_release self url include_prerelease pattern) = inr result)
    /\ (forall e,
           extract_repo_info url = inl e ->
           get_latest_release self url include_prerelease pattern
           = ([EvPrint (MsgReleaseError e)], inr None))
    /\ (forall owner repo e,
           extract_repo_info url = inr (owner, repo) ->
           session_get (if include_prerelease
                        then releases_request self owner repo
                        else stable_request self owner repo) = inl e ->
           get_latest_release self url include_prerelease pattern
           = ([EvGet (if include_prerelease
                      then releases_request self owner repo
                      else stable_request self owner repo);
               EvPrint (MsgReleaseError e)], inr None))
    /\ (forall owner repo e,
           extract_repo_info url = inr (owner, repo) ->
           outcome (if include_prerelease
                    then _get_latest_release_including_prerelease self owner repo pattern
                    else _get_latest_stable_release self owner repo pattern) = inl e ->
           get_latest_release self url include_prerelease pattern
           = (trace_of (if include_prerelease
                        then _get_latest_release_including_prerelease self owner repo pattern
                        else _get_latest_stable_release self owner repo pattern)
                ++ [EvPrint (MsgReleaseError e)], inr None)).
Proof.
  intros R self url include_prerelease pattern.
  assert (Hinner : forall owner repo e,
             extract_repo_info url = inr (owner, repo) ->
             outcome (if include_prerelease
                      then _get_latest_release_including_prerelease self owner repo pattern
                      else _get_latest_stable_release self owner repo pattern) = inl e ->
             get_latest_release self url include_prerelease pattern
             = (trace_of (if include_prerelease
                          then _get_latest_release_including_prerelease self owner repo pattern
                          else _get_latest_stable_release self owner repo pattern)
                  ++ [EvPrint (MsgReleaseError e)], inr None)).
  { intros owner repo e Hx Hout.
    rewrite (get_latest_release_runs self url include_prerelease pattern owner repo Hx).
    unfold outcome, trace_of in *.
    destruct (if include_prerelease
              then _get_latest_release_including_prerelease self owner repo pattern
              else _get_latest_stable_release self owner repo pattern) as [t r].
    cbn [snd fst] in *. subst r. reflexivity. }
  split; [|split; [|split]].
  - unfold get_latest_release.
    match goal with |- context [try_except ?b _] => destruct b as [t [e|r]] end.
    + now exists None.
    + now exists r.
  - intros e Hx. unfold get_latest_release, lift. now rewrite Hx.
  - intros owner repo e Hx Hget.
    rewrite (Hinner owner repo e Hx).
    + destruct include_prerelease.
      * now rewrite (releases_transport_fault self owner repo pattern e Hget).
      * now rewrite (stable_release_transport_fault self owner repo pattern e Hget).
    + destruct include_prerelease.
      * now rewrite (releases_transport_fault self owner repo pattern e Hget).
      * now rewrite (stable_release_transport_fault self owner repo pattern e Hget).
  - exact Hinner.
Qed.

Lemma get_latest_release_never_raises_witness :
  get_latest_release (R := Sample.runtime) Sample.github "https://gitlab.com/owner/repo"
                     false "win"
  = ([EvPrint (MsgReleaseError (ValueError "https://gitlab.com/owner/repo"))], inr None)
  /\ get_latest_release (R := Sample.runtime) Sample.github "https://github.com/owner/down"
                        false "win"
     = ([EvGet (stable_request Sample.github "owner" "down");
         EvPrint (MsgReleaseError (TransportError "connection reset"))], inr None).
Proof.
  split.
  - apply (proj1 (proj2 (get_latest_release_never_raises Sample.runtime Sample.github
                           "https://gitlab.com/owner/repo" false "win"))).
    reflexivity.
  - apply (proj1 (proj2 (proj2 (get_latest_release_never_raises Sample.runtime Sample.github
                                  "https://github.com/owner/down" false "win")))
                 "owner" "down"); reflexivity.
Defined.

(** C6. An empty pattern returns the empty string at once, with nothing
    printed.  A pattern that [re.compile] rejects makes the selection print
    the failure and return the empty string, for every asset list; the
    error does not leave the selection, and parsing the enclosing release
    object still yields its [ReleaseInfo], with an empty download URL. *)
Theorem select_asset_malformed_pattern_is_no_match :
  forall (R : Runtime) (assets : json),
    _select_asset_by_pattern assets "" = ([], inr (JStr ""))
    /\ forall pattern msg,
         pattern <> "" ->
         re_compile_ignorecase pattern = inl (ReError msg) ->
         _select_asset_by_pattern assets pattern
         = ([EvPrint (MsgPatternInvalid pattern (ReError msg))], inr (JStr ""))
         /\ forall d tag,
              dict_get d "tag_name" = Some tag ->
              outcome (_parse_release_data (JDict d) pattern)
              = inr (mkReleaseInfo tag tag (JStr "")
                                   (field_or d "published_at" (JStr ""))
                                   (field_or d "body" JNull)).
Proof.
  intros R assets. split; [reflexivity|].
  intros pattern msg Hp Hc.
  assert (Hsel : forall a, _select_asset_by_pattern a pattern
                           = ([EvPrint (MsgPatternInvalid pattern (ReError msg))],
                              inr (JStr ""))).
  { intros a. unfold _select_asset_by_pattern. rewrite (nonempty_eqb _ Hp).
    unfold lift. now rewrite Hc. }
  split; [apply Hsel|].
  intros d tag Htag. rewrite (parse_release_data_runs d pattern tag Htag).
  unfold selected_url.
  destruct (Py.truthy (field_or d "assets" JNull) && negb (String.eqb pattern ""));
    [rewrite Hsel|]; reflexivity.
Qed.

Lemma select_asset_malformed_pattern_is_no_match_witness :
  _select_asset_by_pattern (R := Sample.runtime) (JList Sample.assets_counts) "(win"
  = ([EvPrint (MsgPatternInvalid "(win" (ReError "missing ), unterminated subpattern"))],
     inr (JStr "")).
Proof.
  apply (proj2 (select_asset_malformed_pattern_is_no_match Sample.runtime
                  (JList Sample.assets_counts))).
  - discriminate.
  - reflexivity.
Defined.


(** ** The registry *)

Section Registry.

Lemma scan_first_match before m after url :
  Forall (fun p => PackageManager.can_handle p url = inr false) before ->
  PackageManager.can_handle m url = inr true ->
  PackageManagerRegistry.scan (before ++ m :: after) url = inr (Some m).
Proof.
  induction 1 as [|p before Hp _ IH]; intros Hm; cbn [app PackageManagerRegistry.scan].
  - now rewrite Hm.
  - rewrite Hp. cbn [bind Monad_E]. now apply IH.
Qed.

Lemma scan_no_match managers url :
  Forall (fun p => PackageManager.can_handle p url = inr false) managers ->
  PackageManagerRegistry.scan managers url = inr None.
Proof.
  induction 1 as [|p managers Hp _ IH]; cbn [PackageManagerRegistry.scan]; [reflexivity|].
  rewrite Hp. exact IH.
Qed.

Lemma registry_delegates self url include_prerelease pattern m :
  PackageManagerRegistry.get_manager self url = inr (Some m) ->
  PackageManagerRegistry.get_latest_release self url include_prerelease pattern
  = PackageManager.get_latest_release m url include_prerelease pattern.
Proof.
  intros Hm. unfold PackageManagerRegistry.get_latest_release, lift. rewrite Hm.
  cbn [bind Monad_M].
  now destruct (PackageManager.get_latest_release m url include_prerelease pattern).
Qed.

End Registry.

(** C8. [register] appends, and the registry scans its providers in that
    order: the first provider whose [can_handle] answers true, the earlier
    ones having answered false, is the one returned by [get_manager] and the
    one whose [get_latest_release] runs.  When two registered providers
    both claim a URL the first-registered one is used.  When every provider
    answers false the registry returns [None] and prints the diagnostic
    that names the URL. *)
Theorem registry_first_match_wins :
  (forall self p,
      PackageManagerRegistry._managers (PackageManagerRegistry.register self p)
      = PackageManagerRegistry._managers self ++ [p])
  /\ (forall before m after url include_prerelease pattern,
         Forall (fun p => PackageManager.can_handle p url = inr false) before ->
         PackageManager.can_handle m url = inr true ->
         PackageManagerRegistry.get_manager
           (PackageManagerRegistry.mk (before ++ m :: after)) url = inr (Some m)
         /\ PackageManagerRegistry.get_latest_release
              (PackageManagerRegistry.mk (before ++ m :: after)) url include_prerelease pattern
            = PackageManager.get_latest_release m url include_prerelease pattern)
  /\ (forall a b url include_prerelease pattern,
         PackageManager.can_handle a url = inr true ->
         PackageManager.can_handle b url = inr true ->
         PackageManagerRegistry.get_latest_release
           (PackageManagerRegistry.register
              (PackageManagerRegistry.register (PackageManagerRegistry.mk []) a) b)
           url include_prerelease pattern
         = PackageManager.get_latest_release a url include_prerelease pattern)
  /\ (forall self url include_prerelease pattern,
         Forall (fun p => PackageManager.can_handle p url = inr false)
                (PackageManagerRegistry._managers self) ->
         PackageManagerRegistry.get_latest_release self url include_prerelease pattern
         = ([EvPrint (MsgNoManager url)], inr None)).
Proof.
  split; [reflexivity|]. split; [|split].
  - intros before m after url include_prerelease pattern Hbefore Hm.
    assert (Hget : PackageManagerRegistry.get_manager
                     (PackageManagerRegistry.mk (before ++ m :: after)) url = inr (Some m))
      by (apply scan_first_match; assumption).
    split; [exact Hget|]. now apply registry_delegates.
  - intros a b url include_prerelease pattern Ha _.
    apply registry_delegates.
    apply (scan_first_match [] a [b] url); [constructor | exact Ha].
  - intros self url include_prerelease pattern Hnone.
    unfold PackageManagerRegistry.get_latest_release, PackageManagerRegistry.get_manager, lift.
    now rewrite (scan_no_match _ url Hnone).
Qed.

Lemma registry_first_match_wins_witness :
  PackageManagerRegistry.get_latest_release
    (PackageManagerRegistry.register
       (PackageManagerRegistry.register (PackageManagerRegistry.mk [])
                                        (Sample.claiming "first"))
       (Sample.claiming "second"))
    "https://example.org/owner/repo" false ""
  = ([], inr (Some (mkReleaseInfo (JStr "first") (JStr "first") (JStr "") (JStr "") JNull)))
  /\ PackageManagerRegistry.get_latest_release
       (PackageManagerRegistry.init (R := Sample.runtime))
       "https://gitlab.com/owner/repo" false ""
     = ([EvPrint (MsgNoManager "https://gitlab.com/owner/repo")], inr None).
Proof.
  split.
  - apply (proj1 (proj2 (proj2 registry_first_match_wins))
                 (Sample.claiming "first") (Sample.claiming "second")); reflexivity.
  - apply (proj2 (proj2 (proj2 registry_first_match_wins))).
    repeat constructor.
Defined.

(** ** URL ownership *)

Section Ownership.
Context {R : Runtime}.




End Ownership.

(** *** The netloc and the host *)










(** ** Repository identity *)

(** *** The matcher on runs of characters *)

Section MatcherFacts.
Variable total : nat.

Local Abbreviation rmatch := (Re.rmatch false total).
Local Abbreviation star_loop := Re.star_loop.

Lemma star_loop_ext greedy body k1 k2 :
  (forall k k', (forall s c, k s c = k' s c) -> forall s c, body s c k = body s c k') ->
  (forall s c, k1 s c = k2 s c) ->
  forall fuel s c, star_loop greedy body k1 fuel s c = star_loop greedy body k2 fuel s c.
Proof.
  intros Hbody Hk. induction fuel as [|fuel IH]; intros s c; cbn [Re.star_loop].
  - apply Hk.
  - rewrite (Hk s c).
    rewrite (Hbody _ (fun s' c' => if Nat.ltb (List.length s') (List.length s)
                                   then star_loop greedy body k2 fuel s' c' else None)).
    + reflexivity.
    + intros s' c'. now rewrite IH.
Qed.

Lemma rmatch_ext r : forall k1 k2,
  (forall s cs, k1 s cs = k2 s cs) -> forall s cs, rmatch r s cs k1 = rmatch r s cs k2.
Proof.
  induction r as [|a| |neg rs| | |r1 IH1 r2 IH2|r1 IH1 r2 IH2|n r IH|g r IH|g r IH];
    intros k1 k2 Hk s cs; cbn [Re.rmatch].
  - apply Hk.
  - destruct s; [reflexivity|]. now rewrite Hk.
  - destruct s; [reflexivity|]. now rewrite Hk.
  - destruct s; [reflexivity|]. now rewrite Hk.
  - now rewrite Hk.
  - destruct s as [|x [|y s]]; [apply Hk | now rewrite Hk | reflexivity].
  - apply IH1. intros s' c'. now apply IH2.
  - now rewrite (IH1 k1 k2 Hk), (IH2 k1 k2 Hk).
  - apply IH. intros s' c'. apply Hk.
  - now rewrite (IH k1 k2 Hk), Hk.
  - apply star_loop_ext; [|exact Hk]. intros k k' Hkk s0 c0. now apply IH.
Qed.

Lemma rmatch_literal_from l : forall r0 k s cs,
  rmatch (literal_from r0 l) s cs k
  = rmatch r0 s cs (fun s' c' =>
                      if PyStr.starts_with l s' then k (skipn (List.length l) s') c'
                      else None).
Proof.
  induction l as [|x l IH]; intros r0 k s cs; cbn [literal_from fold_left].
  - apply rmatch_ext. reflexivity.
  - fold (literal_from (Re.RSeq r0 (Re.RChar x)) l). rewrite IH. cbn [Re.rmatch].
    apply rmatch_ext. intros s' c'. destruct s' as [|y s']; [reflexivity|].
    cbn [PyStr.starts_with List.length skipn]. unfold Re.char_matches.
    now destruct (Ascii.eqb x y).
Qed.

Lemma rmatch_literal a l k s cs :
  rmatch (literal_from (Re.RChar a) l) s cs k
  = if PyStr.starts_with (a :: l) s then k (skipn (S (List.length l)) s) cs else None.
Proof.
  rewrite rmatch_literal_from. cbn [Re.rmatch]. destruct s as [|y s]; [reflexivity|].
  cbn [PyStr.starts_with skipn]. unfold Re.char_matches.
  now destruct (Ascii.eqb a y).
Qed.

Lemma firstn_taken (p q : list ascii) :
  firstn (List.length (p ++ q) - List.length q) (p ++ q) = p.
Proof.
  rewrite length_app. replace (List.length p + List.length q - List.length q)
    with (List.length p + 0) by lia.
  rewrite firstn_app_2. cbn. apply app_nil_r.
Qed.

Lemma star_loop_splits greedy P body n (k : cont) rest cs :
  one_char P body -> stops P rest ->
  forall w taken fuel,
    Forall (fun x => P x = true) w -> List.length w <= fuel ->
    star_loop greedy body
      (fun s' c' =>
         k s' ((n, firstn (List.length (taken ++ w ++ rest) - List.length s')
                          (taken ++ w ++ rest)) :: c'))
      fuel (w ++ rest) cs
    = splits greedy (fun cap s' c' => k s' ((n, cap) :: c')) taken w rest cs.
Proof.
  intros Hbody Hstop. induction w as [|a w IH]; intros taken fuel Hw Hfuel.
  - cbn [app splits].
    destruct fuel as [|fuel]; cbn [Re.star_loop]; [now rewrite firstn_taken|].
    assert (Hnone : forall K, body rest cs K = None).
    { intros K. rewrite Hbody. destruct rest as [|y rest]; [reflexivity|].
      cbn in Hstop. now rewrite Hstop. }
    rewrite Hnone, firstn_taken. unfold Re.orelse.
    destruct greedy; [reflexivity|]. now destruct (k rest _).
  - destruct fuel as [|fuel]; [cbn in Hfuel; lia|].
    inversion Hw as [|? ? Ha Hw']; subst.
    cbn [app Re.star_loop splits].
    assert (Hstep : forall K, body (a :: w ++ rest) cs K = K (w ++ rest) cs)
      by (intros K; now rewrite Hbody, Ha).
    rewrite !Hstep.
    replace (Nat.ltb (List.length (w ++ rest)) (List.length (a :: w ++ rest))) with true
      by (symmetry; apply Nat.ltb_lt; cbn; lia).
    assert (Hhere : firstn (List.length (taken ++ a :: w ++ rest)
                            - List.length (a :: w ++ rest)) (taken ++ a :: w ++ rest)
                    = taken) by apply (firstn_taken taken (a :: w ++ rest)).
    rewrite Hhere.
    assert (Hnext : star_loop greedy body
                      (fun s' c' =>
                         k s' ((n, firstn (List.length (taken ++ a :: w ++ rest)
                                           - List.length s')
                                          (taken ++ a :: w ++ rest)) :: c'))
                      fuel (w ++ rest) cs
                    = splits greedy (fun cap s' c' => k s' ((n, cap) :: c'))
                             (taken ++ [a]) w rest cs).
    { rewrite <- (IH (taken ++ [a]) fuel Hw' ltac:(cbn in Hfuel; lia)).
      apply star_loop_ext.
      - intros k1 k2 Hk s0 c0. rewrite !Hbody. destruct s0 as [|x s0]; [reflexivity|].
        now rewrite Hk.
      - intros s' c'. now rewrite <- app_assoc. }
    rewrite Hnext. reflexivity.
Qed.

(** A group around [S+] or [S+?], for a body [S] that matches one
    character: on a run [a :: w] that the text after it stops, the group
    offers its continuation the splits of the run. *)
Lemma rmatch_group_plus greedy P S n (k : cont) a w rest cs :
  one_char P (rmatch S) -> stops P rest ->
  P a = true -> Forall (fun x => P x = true) w ->
  rmatch (Re.RGroup n (Re.RPlus greedy S)) (a :: w ++ rest) cs k
  = splits greedy (fun cap s' c' => k s' ((n, cap) :: c')) [a] w rest cs.
Proof.
  intros HS Hstop Ha Hw. unfold Re.RPlus. cbn [Re.rmatch]. rewrite HS, Ha.
  apply (star_loop_splits greedy P (rmatch S) n k rest cs HS Hstop w [a]
           (List.length (w ++ rest)) Hw).
  rewrite length_app. lia.
Qed.

Lemma splits_greedy_whole (K : list ascii -> cont) rest cs w : forall taken,
  (forall u v, w = u ++ v -> v <> [] -> K (taken ++ u) (v ++ rest) cs = None) ->
  splits true K taken w rest cs = K (taken ++ w) rest cs.
Proof.
  induction w as [|a w IH]; intros taken Hnone; cbn [splits].
  - now rewrite app_nil_r.
  - rewrite IH.
    + specialize (Hnone [] (a :: w) eq_refl ltac:(discriminate)).
      rewrite app_nil_r in Hnone. cbn [app] in Hnone. rewrite Hnone.
      rewrite <- app_assoc. cbn [app]. now destruct (K _ rest cs).
    + intros u v -> Hv. rewrite <- app_assoc. cbn [app].
      apply (Hnone (a :: u) v eq_refl Hv).
Qed.

Lemma rmatch_seq r1 r2 s cs (k : cont) :
  rmatch (Re.RSeq r1 r2) s cs k = rmatch r1 s cs (fun s' c' => rmatch r2 s' c' k).
Proof. reflexivity. Qed.

Lemma rmatch_char a s cs (k : cont) :
  rmatch (Re.RChar a) s cs k
  = match s with
    | x :: s' => if Ascii.eqb a x then k s' cs else None
    | [] => None
    end.
Proof. reflexivity. Qed.

Lemma not_slash_set_one_char : one_char not_slash (rmatch not_slash_set).
Proof.
  intros s cs k. cbn [Re.rmatch not_slash_set]. destruct s as [|x s]; [reflexivity|].
  replace (Re.set_matches false true [("/"%char, "/"%char)] x) with (not_slash x);
    [reflexivity|].
  destruct x as [[] [] [] [] [] [] [] []]; reflexivity.
Qed.

Lemma rmatch_shared_prefix_miss s cs k :
  PyStr.starts_with github_com s = false -> rmatch shared_prefix s cs k = None.
Proof.
  intros Hs. unfold shared_prefix. do 3 rewrite rmatch_seq. rewrite rmatch_literal.
  change (PyStr.starts_with _ s) with (PyStr.starts_with github_com s). now rewrite Hs.
Qed.

Lemma rmatch_shared_prefix (k : cont) a o b w rest cs :
  Forall (fun x => not_slash x = true) (a :: o) ->
  Forall (fun x => not_slash x = true) (b :: w) ->
  stops not_slash rest ->
  rmatch shared_prefix (github_com ++ (a :: o) ++ "/"%char :: (b :: w) ++ rest) cs k
  = splits false (fun cap s' c' => k s' ((2, cap) :: c')) [b] w rest ((1, a :: o) :: cs).
Proof.
  intros Ho Hw Hrest. inversion Ho as [|? ? Ha Ho']; inversion Hw as [|? ? Hb Hw']; subst.
  unfold shared_prefix. do 3 rewrite rmatch_seq. rewrite rmatch_literal.
  replace (PyStr.starts_with _ _) with true by reflexivity.
  change (skipn _ (github_com ++ (a :: o) ++ "/"%char :: (b :: w) ++ rest))
    with (a :: o ++ "/"%char :: (b :: w) ++ rest).
  rewrite (rmatch_group_plus true not_slash not_slash_set 1 _ a o _ cs
             not_slash_set_one_char); try assumption; [|reflexivity].
  rewrite splits_greedy_whole.
  - rewrite rmatch_char. cbn [app].
    replace (Ascii.eqb "/" "/") with true by reflexivity.
    apply (rmatch_group_plus false not_slash not_slash_set 2 k b w rest _
             not_slash_set_one_char); assumption.
  - intros u v Huv Hv. destruct v as [|y v]; [congruence|]. cbn [app].
    assert (Hy : not_slash y = true).
    { rewrite Forall_forall in Ho'. apply Ho'. rewrite Huv. apply in_or_app. right. now left. }
    rewrite rmatch_char. unfold not_slash in Hy.
    rewrite Ascii.eqb_sym. now destruct (Ascii.eqb y "/").
Qed.

Lemma rmatch_optional_git s cs (k : cont) :
  rmatch optional_git s cs k
  = Re.orelse (if PyStr.starts_with dot_git s then k (skipn 4 s) cs else None) (k s cs).
Proof. unfold optional_git. cbn [Re.rmatch]. now rewrite rmatch_literal. Qed.

Lemma plain_not_slash x : plain x = true -> not_slash x = true.
Proof. unfold plain, not_slash. now destruct (Ascii.eqb x "/"). Qed.

Lemma dot_git_plain : Forall (fun x => plain x = true) dot_git.
Proof. repeat constructor. Qed.

Lemma rmatch_optional_git_on_run (tail : cont) v rest cs :
  refuses_plain tail ->
  v <> [] -> Forall (fun x => plain x = true) v -> stops not_slash rest ->
  rmatch optional_git (v ++ rest) cs tail
  = if PyStr.chars_eqb v dot_git then tail rest cs else None.
Proof.
  intros Hk Hv Hplain Hrest. rewrite rmatch_optional_git.
  assert (Hhead : tail (v ++ rest) cs = None).
  { destruct v as [|a v]; [congruence|]. inversion Hplain; subst. now apply Hk. }
  rewrite Hhead.
  assert (Hrest' : forall y, PyStr.starts_with [y] rest = true -> not_slash y = false).
  { intros y. destruct rest as [|z rest]; [discriminate|]. cbn in Hrest |- *.
    rewrite andb_true_r. intros Hy. apply Ascii.eqb_eq in Hy. now subst. }
  unfold dot_git in *. cbn [list_ascii_of_string].
  destruct v as [|a [|b [|c [|d [|e v]]]]]; [congruence| | | | |];
    cbn [PyStr.starts_with PyStr.chars_eqb app skipn];
    repeat match goal with
           | |- context [Ascii.eqb ?x ?y] =>
               destruct (Ascii.eqb_spec x y); subst; cbn [andb]
           end;
    try reflexivity;
    try (destruct rest as [|z rest]; cbn [PyStr.starts_with]; [reflexivity|];
         cbn in Hrest; destruct (Ascii.eqb_spec z "/"); [subst; reflexivity | ];
         unfold not_slash in Hrest; apply negb_false_iff, Ascii.eqb_eq in Hrest; congruence).
  all: try (now destruct (tail rest cs)).
  rewrite Hk; [reflexivity|].
  rewrite Forall_forall in Hplain. apply Hplain. cbn. tauto.
Qed.

Lemma chars_eqb_eq a : forall b, PyStr.chars_eqb a b = true -> a = b.
Proof.
  induction a as [|x a IH]; intros [|y b]; cbn; try discriminate; [reflexivity|].
  intros H. apply andb_true_iff in H as [Hxy Hab].
  apply Ascii.eqb_eq in Hxy. subst. f_equal. now apply IH.
Qed.

Lemma splits_plain_run (tail : cont) rest cs w : forall taken,
  refuses_plain tail ->
  Forall (fun x => plain x = true) w -> stops not_slash rest ->
  (forall u v, w = u ++ v -> PyStr.chars_eqb v dot_git = false) ->
  splits false (fun cap s' c' => rmatch optional_git s' ((2, cap) :: c') tail) taken w rest cs
  = rmatch optional_git rest ((2, taken ++ w) :: cs) tail.
Proof.
  induction w as [|a w IH]; intros taken Hk Hw Hrest Hsuffix; cbn [splits].
  - now rewrite app_nil_r.
  - rewrite (rmatch_optional_git_on_run tail (a :: w) rest _ Hk ltac:(discriminate) Hw Hrest).
    rewrite (Hsuffix [] (a :: w) eq_refl). cbn [Re.orelse].
    inversion Hw; subst. rewrite IH; try assumption.
    + now rewrite <- app_assoc.
    + intros u v ->. apply (Hsuffix (a :: u) v eq_refl).
Qed.

Lemma splits_git_run (tail : cont) rest cs r : forall taken,
  refuses_plain tail ->
  Forall (fun x => plain x = true) r -> stops not_slash rest ->
  splits false (fun cap s' c' => rmatch optional_git s' ((2, cap) :: c') tail)
         taken (r ++ dot_git) rest cs
  = Re.orelse (tail rest ((2, taken ++ r) :: cs))
              (rmatch optional_git rest ((2, taken ++ r ++ dot_git) :: cs) tail).
Proof.
  induction r as [|a r IH]; intros taken Hk Hr Hrest.
  - cbn [app].
    change (splits false (fun cap s' c' => rmatch optional_git s' ((2, cap) :: c') tail)
                   taken dot_git rest cs)
      with (Re.orelse
              (rmatch optional_git (dot_git ++ rest) ((2, taken) :: cs) tail)
              (splits false (fun cap s' c' => rmatch optional_git s' ((2, cap) :: c') tail)
                      (taken ++ ["."%char]) (list_ascii_of_string "git") rest cs)).
    rewrite (rmatch_optional_git_on_run tail dot_git rest _ Hk ltac:(discriminate)
               dot_git_plain Hrest).
    replace (PyStr.chars_eqb dot_git dot_git) with true by reflexivity.
    rewrite app_nil_r. f_equal.
    rewrite (splits_plain_run tail rest cs _ (taken ++ ["."%char]) Hk); try assumption.
    + now rewrite <- app_assoc.
    + repeat constructor.
    + intros u v Huv.
      destruct (PyStr.chars_eqb v dot_git) eqn:E; [|reflexivity].
      apply chars_eqb_eq in E. subst v.
      apply (f_equal (@List.length ascii)) in Huv. rewrite length_app in Huv.
      cbn in Huv. lia.
  - inversion Hr; subst. cbn [app splits].
    rewrite (rmatch_optional_git_on_run tail (a :: r ++ dot_git) rest _ Hk
               ltac:(discriminate)); try assumption.
    + replace (PyStr.chars_eqb (a :: r ++ dot_git) dot_git) with false.
      * cbn [Re.orelse]. rewrite IH; try assumption. now rewrite <- !app_assoc.
      * symmetry. destruct (PyStr.chars_eqb (a :: r ++ dot_git) dot_git) eqn:E; [|reflexivity].
        apply chars_eqb_eq in E. apply (f_equal (@List.length ascii)) in E.
        cbn in E. rewrite length_app in E. cbn in E. lia.
    + constructor; [assumption|]. apply Forall_app. split; [assumption | apply dot_git_plain].
Qed.

Lemma with_tail_miss tail s cs :
  PyStr.starts_with github_com s = false -> with_tail total tail s cs = None.
Proof. apply rmatch_shared_prefix_miss. Qed.

Lemma with_tail_plain_run tail a o b r rest cs :
  refuses_plain tail ->
  Forall (fun x => not_slash x = true) (a :: o) ->
  Forall (fun x => plain x = true) (b :: r) ->
  (forall u v, r = u ++ v -> PyStr.chars_eqb v dot_git = false) ->
  stops not_slash rest ->
  with_tail total tail (github_com ++ (a :: o) ++ "/"%char :: (b :: r) ++ rest) cs
  = rmatch optional_git rest ((2, b :: r) :: (1, a :: o) :: cs) tail.
Proof.
  intros Hk Ho Hr Hsuffix Hrest. unfold with_tail.
  rewrite rmatch_shared_prefix; try assumption.
  - inversion Hr; subst. now rewrite splits_plain_run.
  - eapply Forall_impl; [|exact Hr]. intros x. apply plain_not_slash.
Qed.

Lemma with_tail_git_run tail a o b r rest cs :
  refuses_plain tail ->
  Forall (fun x => not_slash x = true) (a :: o) ->
  Forall (fun x => plain x = true) (b :: r) ->
  stops not_slash rest ->
  with_tail total tail (github_com ++ (a :: o) ++ "/"%char :: ((b :: r) ++ dot_git) ++ rest) cs
  = Re.orelse (tail rest ((2, b :: r) :: (1, a :: o) :: cs))
              (rmatch optional_git rest ((2, (b :: r) ++ dot_git) :: (1, a :: o) :: cs) tail).
Proof.
  intros Hk Ho Hr Hrest. unfold with_tail. cbn [app].
  rewrite (rmatch_shared_prefix _ a o b (r ++ dot_git) rest cs); try assumption.
  - inversion Hr; subst. now rewrite splits_git_run.
  - eapply Forall_impl; [intros x; apply plain_not_slash|].
    inversion Hr; subst. constructor; [assumption|].
    apply Forall_app. split; [assumption | apply dot_git_plain].
Qed.

Lemma compile_patterns :
  map Re.compile patterns = [inr root_pattern; inr page_pattern; inr archive_pattern].
Proof. vm_compute. reflexivity. Qed.

Lemma rmatch_root_pattern s cs :
  rmatch root_pattern s cs accept = with_tail total (root_tail total) s cs.
Proof. reflexivity. Qed.

Lemma rmatch_page_pattern s cs :
  rmatch page_pattern s cs accept = with_tail total (page_tail total) s cs.
Proof. reflexivity. Qed.

Lemma rmatch_archive_pattern s cs :
  rmatch archive_pattern s cs accept = with_tail total archive_tail s cs.
Proof.
  unfold archive_pattern. rewrite rmatch_literal_from. rewrite rmatch_seq. unfold with_tail.
  apply rmatch_ext. intros s1 c1. apply rmatch_ext. intros s2 c2. reflexivity.
Qed.

Lemma plain_cases a :
  plain a = true ->
  Ascii.eqb "/" a = false /\ Ascii.eqb "?" a = false /\ Ascii.eqb a Re.newline = false.
Proof.
  unfold plain. rewrite (Ascii.eqb_sym "/" a), (Ascii.eqb_sym "?" a).
  destruct (Ascii.eqb a "/"), (Ascii.eqb a "?"), (Ascii.eqb a Re.newline);
    cbn; intuition discriminate.
Qed.

Lemma root_tail_refuses : refuses_plain (root_tail total).
Proof.
  intros a u cs Ha. destruct (plain_cases a Ha) as (H1 & H2 & H3).
  unfold root_tail. cbn [Re.rmatch Re.char_matches]. rewrite H1, H2. cbn [Re.orelse].
  destruct u; [now rewrite H3 | reflexivity].
Qed.

Lemma page_tail_refuses : refuses_plain (page_tail total).
Proof.
  intros a u cs Ha. destruct (plain_cases a Ha) as (H1 & _).
  unfold page_tail. rewrite rmatch_char. now rewrite H1.
Qed.

Lemma archive_tail_refuses : refuses_plain archive_tail.
Proof.
  intros a u cs Ha. destruct (plain_cases a Ha) as (H1 & _).
  unfold archive_tail. cbn [list_ascii_of_string PyStr.starts_with]. now rewrite H1.
Qed.

Lemma search_from_unfold R s :
  Re.search_from false total R s
  = match rmatch R s [] accept with
    | Some c => Some c
    | None => match s with
              | [] => None
              | _ :: s' => Re.search_from false total R s'
              end
    end.
Proof. destruct s; reflexivity. Qed.

Lemma search_from_prefix R pre s :
  anchored total R -> PyStr.mem_char "g" pre = false ->
  Re.search_from false total R (pre ++ s) = Re.search_from false total R s.
Proof.
  intros HR. induction pre as [|x pre IH]; intros Hpre; [reflexivity|].
  cbn [PyStr.mem_char existsb] in Hpre. apply orb_false_iff in Hpre as [Hx Hpre].
  rewrite search_from_unfold. cbn [app]. rewrite HR.
  - now apply IH.
  - unfold github_com. cbn [list_ascii_of_string PyStr.starts_with]. now rewrite Hx.
Qed.

Lemma search_from_absent R s :
  anchored total R -> occurs github_com s = false -> Re.search_from false total R s = None.
Proof.
  intros HR. induction s as [|x s IH]; intros Hs; rewrite search_from_unfold;
    cbn [occurs] in Hs; apply orb_false_iff in Hs as [Hhere Hlater];
    rewrite (HR _ Hhere); [reflexivity | now apply IH].
Qed.

(** The search on a text where [github.com/] first starts after [pre]:
    the match there if there is one, else a match further on. *)
Lemma search_from_at R pre s :
  anchored total R -> PyStr.mem_char "g" pre = false ->
  Re.search_from false total R (pre ++ github_com ++ s)
  = match rmatch R (github_com ++ s) [] accept with
    | Some c => Some c
    | None => Re.search_from false total R s
    end.
Proof.
  intros HR Hpre. rewrite (search_from_prefix R pre _ HR Hpre).
  rewrite search_from_unfold. destruct (rmatch R (github_com ++ s) [] accept); [reflexivity|].
  apply (search_from_prefix R (list_ascii_of_string "ithub.com/") s HR). reflexivity.
Qed.

Lemma anchored_root : anchored total root_pattern.
Proof. intros u Hu. rewrite rmatch_root_pattern. now apply with_tail_miss. Qed.

Lemma anchored_page : anchored total page_pattern.
Proof. intros u Hu. rewrite rmatch_page_pattern. now apply with_tail_miss. Qed.

Lemma anchored_archive : anchored total archive_pattern.
Proof. intros u Hu. rewrite rmatch_archive_pattern. now apply with_tail_miss. Qed.



End MatcherFacts.

(** *** The three patterns on the accepted shapes *)

Lemma compile_root :
  Re.compile "github\.com/([^/]+)/([^/]+?)(?:\.git)?/?(?:\?.*)?$" = inr root_pattern.
Proof. vm_compute. reflexivity. Qed.

Lemma compile_page :
  Re.compile
    "github\.com/([^/]+)/([^/]+?)(?:\.git)?/(?:tree|blob|releases|actions|issues|pull)/"
  = inr page_pattern.
Proof. vm_compute. reflexivity. Qed.

Lemma compile_archive :
  Re.compile "github\.com/([^/]+)/([^/]+?)(?:\.git)?/archive/" = inr archive_pattern.
Proof. vm_compute. reflexivity. Qed.

Lemma extract_repo_info_unfold url :
  let s := list_ascii_of_string (PyStr.lower url) in
  let find R := Re.search_from false (List.length s) R s in
  extract_repo_info url
  = match find root_pattern with
    | Some m => repo_of_match m
    | None =>
        match find page_pattern with
        | Some m => repo_of_match m
        | None =>
            match find archive_pattern with
            | Some m => repo_of_match m
            | None => inl (ValueError url)
            end
        end
    end.
Proof.
  cbv zeta. unfold extract_repo_info, patterns. cbn [extract_loop]. unfold Re.search.
  rewrite compile_root, compile_page, compile_archive. reflexivity.
Qed.

Lemma starts_with_app p : forall q, PyStr.starts_with p (p ++ q) = true.
Proof.
  induction p as [|x p IH]; intros q; [reflexivity|].
  cbn [app PyStr.starts_with]. now rewrite Ascii.eqb_refl, IH.
Qed.

Lemma endswith_dot_git u :
  PyStr.endswith (string_of_list_ascii (u ++ dot_git)) ".git" = true.
Proof.
  unfold PyStr.endswith. rewrite list_ascii_of_string_of_list_ascii, rev_app_distr.
  apply starts_with_app.
Qed.

Lemma no_dot_git_suffix b r :
  PyStr.endswith (string_of_list_ascii (b :: r)) ".git" = false ->
  forall u v, r = u ++ v -> PyStr.chars_eqb v dot_git = false.
Proof.
  intros Hend u v ->. destruct (PyStr.chars_eqb v dot_git) eqn:E; [|reflexivity].
  apply chars_eqb_eq in E. subst v.
  change (b :: u ++ dot_git) with ((b :: u) ++ dot_git) in Hend.
  now rewrite endswith_dot_git in Hend.
Qed.

Lemma match_at_github total tail o r (git : bool) rest :
  refuses_plain tail ->
  o <> [] -> Forall (fun x => not_slash x = true) o ->
  r <> [] -> Forall (fun x => plain x = true) r ->
  PyStr.endswith (string_of_list_ascii r) ".git" = false ->
  stops not_slash rest ->
  with_tail total tail (github_com ++ repo_text o r git rest) []
  = if git
    then Re.orelse (tail rest [(2, r); (1, o)])
                   (Re.rmatch false total optional_git rest [(2, r ++ dot_git); (1, o)] tail)
    else Re.rmatch false total optional_git rest [(2, r); (1, o)] tail.
Proof.
  intros Hk Ho Hns Hr Hplain Hend Hrest. unfold repo_text.
  destruct o as [|a o]; [congruence|]. destruct r as [|b r]; [congruence|].
  destruct git.
  - now apply with_tail_git_run.
  - rewrite app_nil_r. apply with_tail_plain_run; try assumption.
    now apply (no_dot_git_suffix b).
Qed.

Lemma group_owner_repo o r :
  repo_of_match [(2, r); (1, o)]
  = inr (string_of_list_ascii o,
         if PyStr.endswith (string_of_list_ascii r) ".git"
         then PyStr.drop_last 4 (string_of_list_ascii r)
         else string_of_list_ascii r).
Proof. reflexivity. Qed.

(** X1. The URL shapes that [extract_repo_info] reads as intended.  Take
    a URL whose lower-case form is some text without the letter [g], then
    [github.com/], an owner (not empty, without slash), a slash, and a
    repository name (not empty, without slash, question mark or line
    break, and not ending in [.git]), with or without [.git] after it.  When
    the URL ends there, or goes on with a single slash, or goes on with a
    slash, one of the keywords [tree], [blob], [releases], [actions],
    [issues], [pull], [archive], a slash and any text such that
    [github.com/] does not occur again from the owner on, the pair returned
    is that owner and that repository name. *)
Theorem extract_repo_info_on_shapes :
  forall (url : string) (pre o r rest : list ascii) (git : bool),
    list_ascii_of_string (PyStr.lower url) = pre ++ github_com ++ repo_text o r git rest ->
    PyStr.mem_char "g" pre = false ->
    o <> [] -> Forall (fun x => not_slash x = true) o ->
    r <> [] -> Forall (fun x => plain x = true) r ->
    PyStr.endswith (string_of_list_ascii r) ".git" = false ->
    (rest = [] \/ rest = ["/"%char]
     \/ (exists kw t,
            In kw sub_pages
            /\ rest = "/"%char :: list_ascii_of_string kw ++ "/"%char :: t
            /\ occurs github_com (repo_text o r git rest) = false)) ->
    extract_repo_info url = inr (string_of_list_ascii o, string_of_list_ascii r).
Proof.
  intros url pre o r rest git Htext Hpre Ho Hns Hr Hplain Hend Hshape.
  rewrite extract_repo_info_unfold. cbv zeta. rewrite Htext.
  set (total := List.length (pre ++ github_com ++ repo_text o r git rest)).
  assert (Hdone : repo_of_match [(2, r); (1, o)]
                  = inr (string_of_list_ascii o, string_of_list_ascii r))
    by (rewrite group_owner_repo; now rewrite Hend).
  assert (Hat : forall R tail,
             (forall s cs, Re.rmatch false total R s cs accept = with_tail total tail s cs) ->
             refuses_plain tail -> stops not_slash rest ->
             Re.rmatch false total R (github_com ++ repo_text o r git rest) [] accept
             = if git
               then Re.orelse (tail rest [(2, r); (1, o)])
                              (Re.rmatch false total optional_git rest
                                         [(2, r ++ dot_git); (1, o)] tail)
               else Re.rmatch false total optional_git rest [(2, r); (1, o)] tail).
  { intros R tail HR Hk Hstop. rewrite HR. now apply match_at_github. }
  pose proof (root_tail_refuses total) as Hroot.
  pose proof (page_tail_refuses total) as Hpage.
  rewrite (search_from_at total root_pattern pre _ (anchored_root total) Hpre).
  destruct Hshape as [-> | [-> | (kw & t & Hkw & -> & Hocc)]].
  - rewrite (Hat root_pattern (root_tail total) (rmatch_root_pattern total) Hroot I).
    destruct git; exact Hdone.
  - rewrite (Hat root_pattern (root_tail total) (rmatch_root_pattern total) Hroot eq_refl).
    destruct git; exact Hdone.
  - assert (Hstop : stops not_slash ("/"%char :: list_ascii_of_string kw ++ "/"%char :: t))
      by reflexivity.
    rewrite (Hat root_pattern (root_tail total) (rmatch_root_pattern total) Hroot Hstop).
    rewrite (search_from_absent total root_pattern _ (anchored_root total) Hocc).
    rewrite (search_from_at total page_pattern pre _ (anchored_page total) Hpre).
    rewrite (Hat page_pattern (page_tail total) (rmatch_page_pattern total) Hpage Hstop).
    rewrite (search_from_absent total page_pattern _ (anchored_page total) Hocc).
    rewrite (search_from_at total archive_pattern pre _ (anchored_archive total) Hpre).
    rewrite (Hat archive_pattern archive_tail (rmatch_archive_pattern total)
               archive_tail_refuses Hstop).
    cbn [sub_pages In] in Hkw.
    destruct Hkw as [<-|[<-|[<-|[<-|[<-|[<-|[<-|[]]]]]]]]; destruct git; exact Hdone.
Qed.

(** [https://GitHub.com/Owner/Repo.git/tree/main/src] is such a URL. *)
Example extract_repo_info_on_shapes_example :
  extract_repo_info "https://GitHub.com/Owner/Repo.git/tree/main/src"
  = inr ("owner", "repo").
Proof.
  apply (extract_repo_info_on_shapes
           "https://GitHub.com/Owner/Repo.git/tree/main/src"
           (list_ascii_of_string "https://") (list_ascii_of_string "owner")
           (list_ascii_of_string "repo") (list_ascii_of_string "/tree/main/src") true);
    try reflexivity; try discriminate.
  - repeat constructor.
  - repeat constructor.
  - right. right. exists "tree", (list_ascii_of_string "main/src").
    repeat split. now left.
Defined.

(** C7. The root URL of [kubernetes/kubernetes] yields that pair, but the
    URL of a sub-page of the same repository whose path holds
    [github.com/spf13/cobra] yields [("spf13", "cobra")]: the first pattern,
    tried first and free to start anywhere, finds the later occurrence.
    This URL has every property [extract_repo_info_on_shapes] asks for but
    the last: [github.com/] occurs again after the repository.  A sub-page
    URL without a slash after [issues] matches no pattern. *)
Theorem extract_repo_info_follows_last_github_path :
  extract_repo_info "https://github.com/kubernetes/kubernetes"
  = inr ("kubernetes", "kubernetes")
  /\ extract_repo_info
       "https://github.com/kubernetes/kubernetes/tree/master/vendor/github.com/spf13/cobra"
     = inr ("spf13", "cobra")
  /\ occurs github_com
            (repo_text (list_ascii_of_string "kubernetes") (list_ascii_of_string "kubernetes")
                       false
                       (list_ascii_of_string "/tree/master/vendor/github.com/spf13/cobra"))
     = true
  /\ extract_repo_info "https://github.com/owner/repo/issues"
     = inl (ValueError "https://github.com/owner/repo/issues").
Proof. repeat split; vm_compute; reflexivity. Qed.

(* ===================================================================== *)
(** * Further properties *)
(* ===================================================================== *)

(** ** What [extract_repo_info] can return *)

Section MatcherSoundness.
Variable total : nat.

Local Abbreviation rmatch := (Re.rmatch false total).

Lemma orelse_some a b m :
  Re.orelse a b = Some m -> a = Some m \/ b = Some m.
Proof. destruct a; cbn; auto. Qed.

Lemma star_loop_groupless greedy body (k : cont) :
  (forall s cs (K : cont) m, body s cs K = Some m -> exists s', K s' cs = Some m) ->
  forall fuel s cs m,
    Re.star_loop greedy body k fuel s cs = Some m -> exists s', k s' cs = Some m.
Proof.
  intros Hbody. induction fuel as [|fuel IH]; intros s cs m H; cbn [Re.star_loop] in H.
  - now exists s.
  - assert (Hagain : forall m',
               body s cs (fun s' c' =>
                            if Nat.ltb (List.length s') (List.length s)
                            then Re.star_loop greedy body k fuel s' c' else None) = Some m' ->
               exists s', k s' cs = Some m').
    { intros m' Hm. apply Hbody in Hm as [s' Hs'].
      destruct (Nat.ltb _ _); [now apply IH in Hs' | discriminate]. }
    destruct greedy; apply orelse_some in H as [H|H]; eauto.
Qed.

Lemma rmatch_groupless r :
  groupless r = true ->
  forall s cs (k : cont) m, rmatch r s cs k = Some m -> exists s', k s' cs = Some m.
Proof.
  induction r as [| a | | neg rs | | | r1 IH1 r2 IH2 | r1 IH1 r2 IH2 | n r1 IH1
                 | g r1 IH1 | g r1 IH1];
    intros Hg s cs k m H; cbn [groupless] in Hg; cbn [Re.rmatch] in H.
  - eauto.
  - destruct s as [|x s]; [discriminate|]. destruct (Re.char_matches false a x); [eauto|discriminate].
  - destruct s as [|x s]; [discriminate|]. destruct (Ascii.eqb x Re.newline); [discriminate|eauto].
  - destruct s as [|x s]; [discriminate|].
    destruct (Re.set_matches false neg rs x); [eauto|discriminate].
  - destruct (Nat.eqb _ _); [eauto|discriminate].
  - destruct s as [|x [|y s]]; [eauto| |discriminate].
    destruct (Ascii.eqb x Re.newline); [eauto|discriminate].
  - apply andb_prop in Hg as [H1 H2].
    apply (IH1 H1) in H as [s' Hs']. now apply (IH2 H2) in Hs'.
  - apply andb_prop in Hg as [H1 H2].
    apply orelse_some in H as [H|H]; [now apply (IH1 H1) in H | now apply (IH2 H2) in H].
  - discriminate.
  - destruct g; apply orelse_some in H as [H|H]; eauto.
  - apply (star_loop_groupless g (rmatch r1) k) in H; [exact H|].
    intros s0 cs0 K m0. apply (IH1 Hg).
Qed.

Lemma root_tail_keeps : keeps_captures (root_tail total).
Proof.
  intros s cs m H.
  change (rmatch (Re.RSeq (Re.ROpt true (Re.RChar "/"))
                          (Re.RSeq (Re.ROpt true (Re.RSeq (Re.RChar "?") (Re.RStar true Re.RAny)))
                                   Re.REol)) s cs accept = Some m) in H.
  apply rmatch_groupless in H as [s' Hs']; [|reflexivity].
  now injection Hs' as <-.
Qed.

Lemma page_tail_keeps : keeps_captures (page_tail total).
Proof.
  intros s cs m H.
  change (rmatch (Re.RSeq (Re.RChar "/") (Re.RSeq page_keyword (Re.RChar "/"))) s cs accept
          = Some m) in H.
  apply rmatch_groupless in H as [s' Hs']; [|reflexivity].
  now injection Hs' as <-.
Qed.

Lemma archive_tail_keeps : keeps_captures archive_tail.
Proof.
  intros s cs m H. unfold archive_tail in H.
  destruct (PyStr.starts_with _ s); [now injection H as <- | discriminate].
Qed.

Lemma run_split (P : ascii -> bool) s :
  exists w rest, s = w ++ rest /\ Forall (fun x => P x = true) w /\ stops P rest.
Proof.
  induction s as [|x s (w & rest & -> & Hw & Hrest)].
  - exists [], []. repeat split. constructor.
  - destruct (P x) eqn:Hx.
    + exists (x :: w), rest. repeat split; [now constructor | exact Hrest].
    + exists [], (x :: w ++ rest). repeat split; [constructor | exact Hx].
Qed.

Lemma splits_sound greedy (K : list ascii -> cont) rest cs m w : forall taken,
  splits greedy K taken w rest cs = Some m ->
  exists u v, w = u ++ v /\ K (taken ++ u) (v ++ rest) cs = Some m.
Proof.
  induction w as [|a w IH]; intros taken H; cbn [splits] in H.
  - exists [], []. split; [reflexivity|]. now rewrite app_nil_r.
  - assert (Hhere : K taken (a :: w ++ rest) cs = Some m ->
                    exists u v, a :: w = u ++ v /\ K (taken ++ u) (v ++ rest) cs = Some m).
    { intros Hk. exists [], (a :: w). split; [reflexivity|]. now rewrite app_nil_r. }
    assert (Hlater : splits greedy K (taken ++ [a]) w rest cs = Some m ->
                     exists u v, a :: w = u ++ v /\ K (taken ++ u) (v ++ rest) cs = Some m).
    { intros Hs. apply IH in Hs as (u & v & -> & Hk).
      exists (a :: u), v. split; [reflexivity|]. now rewrite <- app_assoc in Hk. }
    destruct greedy; apply orelse_some in H as [H|H]; auto.
Qed.

(** A group around a repeat of [[^/]] hands its continuation a non-empty
    run without slash. *)
Lemma rmatch_group_plus_sound greedy n (k : cont) s cs m :
  rmatch (Re.RGroup n (Re.RPlus greedy not_slash_set)) s cs k = Some m ->
  exists taken rest,
    s = taken ++ rest /\ taken <> [] /\ Forall (fun x => not_slash x = true) taken
    /\ k rest ((n, taken) :: cs) = Some m.
Proof.
  intros H. destruct s as [|a s].
  - unfold Re.RPlus in H. cbn [Re.rmatch] in H. now rewrite not_slash_set_one_char in H.
  - destruct (not_slash a) eqn:Ha.
    + destruct (run_split not_slash s) as (w & rest & -> & Hw & Hrest).
      rewrite (rmatch_group_plus total greedy not_slash not_slash_set n k a w rest cs
                 (not_slash_set_one_char total) Hrest Ha Hw) in H.
      apply splits_sound in H as (u & v & -> & Hk).
      exists (a :: u), (v ++ rest). split; [now rewrite <- app_assoc|].
      split; [discriminate|]. split; [|exact Hk].
      constructor; [exact Ha|]. apply Forall_app in Hw. apply Hw.
    + unfold Re.RPlus in H. cbn [Re.rmatch] in H.
      rewrite not_slash_set_one_char, Ha in H. discriminate.
Qed.

Lemma starts_with_split p : forall s,
  PyStr.starts_with p s = true -> s = p ++ skipn (List.length p) s.
Proof.
  induction p as [|x p IH]; intros s H; [reflexivity|].
  destruct s as [|y s]; [discriminate|]. cbn [PyStr.starts_with] in H.
  apply andb_prop in H as [Hxy Hp]. apply Ascii.eqb_eq in Hxy. subst y.
  cbn [List.length skipn app]. f_equal. now apply IH.
Qed.

Lemma rmatch_shared_prefix_sound (k : cont) s cs m :
  rmatch shared_prefix s cs k = Some m ->
  exists o w rest,
    s = github_com ++ o ++ "/"%char :: w ++ rest
    /\ o <> [] /\ Forall (fun x => not_slash x = true) o
    /\ w <> [] /\ Forall (fun x => not_slash x = true) w
    /\ k rest ((2, w) :: (1, o) :: cs) = Some m.
Proof.
  intros H. unfold shared_prefix in H. do 3 rewrite rmatch_seq in H.
  rewrite rmatch_literal in H.
  change ("g"%char :: list_ascii_of_string "ithub.com/") with github_com in H.
  destruct (PyStr.starts_with github_com s) eqn:Hs; [|discriminate].
  apply starts_with_split in Hs.
  change (S (List.length (list_ascii_of_string "ithub.com/"))) with (List.length github_com) in H.
  set (s1 := skipn (List.length github_com) s) in *.
  apply rmatch_group_plus_sound in H as (o & s2 & Hs1 & Ho & Hns & H).
  rewrite rmatch_char in H. destruct s2 as [|x s2]; [discriminate|].
  destruct (Ascii.eqb "/" x) eqn:Hx; [|discriminate]. apply Ascii.eqb_eq in Hx. subst x.
  apply rmatch_group_plus_sound in H as (w & rest & -> & Hw & Hnw & H).
  exists o, w, rest. rewrite Hs, Hs1. repeat split; assumption.
Qed.

Lemma with_tail_sound (tail : cont) s cs m :
  keeps_captures tail ->
  with_tail total tail s cs = Some m ->
  exists o w rest,
    s = github_com ++ o ++ "/"%char :: w ++ rest
    /\ o <> [] /\ Forall (fun x => not_slash x = true) o
    /\ w <> [] /\ Forall (fun x => not_slash x = true) w
    /\ m = (2, w) :: (1, o) :: cs.
Proof.
  intros Htail H. unfold with_tail in H.
  apply rmatch_shared_prefix_sound in H as (o & w & rest & Hs & Ho & Hns & Hw & Hnw & H).
  exists o, w, rest. repeat split; try assumption.
  rewrite rmatch_optional_git in H.
  apply orelse_some in H as [H|H]; [|now apply Htail in H].
  destruct (PyStr.starts_with dot_git rest); [now apply Htail in H | discriminate].
Qed.

Lemma search_from_sound R s m :
  Re.search_from false total R s = Some m ->
  exists pre u, s = pre ++ u /\ rmatch R u [] accept = Some m.
Proof.
  induction s as [|x s IH]; rewrite search_from_unfold;
    destruct (rmatch R _ [] accept) as [c|] eqn:Hc; intros H.
  - injection H as <-. now exists [], [].
  - discriminate.
  - injection H as <-. now exists [], (x :: s).
  - apply IH in H as (pre & u & -> & Hu). now exists (x :: pre), u.
Qed.

End MatcherSoundness.

Lemma not_slash_mem l :
  Forall (fun x => not_slash x = true) l -> PyStr.mem_char "/" l = false.
Proof.
  induction 1 as [|x l Hx _ IH]; [reflexivity|].
  cbn [PyStr.mem_char existsb]. fold (PyStr.mem_char "/" l). rewrite IH.
  unfold not_slash in Hx. rewrite Ascii.eqb_sym. now destruct (Ascii.eqb x "/").
Qed.

Lemma repo_of_match_sound o w owner repo :
  o <> [] -> Forall (fun x => not_slash x = true) o ->
  Forall (fun x => not_slash x = true) w ->
  repo_of_match [(2, w); (1, o)] = inr (owner, repo) ->
  owner <> ""
  /\ list_ascii_of_string owner = o
  /\ PyStr.mem_char "/" (list_ascii_of_string repo) = false
  /\ exists tail, w = list_ascii_of_string repo ++ tail.
Proof.
  intros Ho Hns Hnw H. rewrite group_owner_repo in H. injection H as <- <-.
  rewrite list_ascii_of_string_of_list_ascii.
  split; [|split; [reflexivity|]].
  - intros Hempty. apply Ho.
    rewrite <- (list_ascii_of_string_of_list_ascii o). now rewrite Hempty.
  - destruct (PyStr.endswith (string_of_list_ascii w) ".git").
    + unfold PyStr.drop_last. rewrite !list_ascii_of_string_of_list_ascii.
      split.
      * apply not_slash_mem. rewrite <- (firstn_skipn (List.length w - 4) w) in Hnw.
        apply Forall_app in Hnw. apply Hnw.
      * exists (skipn (List.length w - 4) w). symmetry. apply firstn_skipn.
    + rewrite list_ascii_of_string_of_list_ascii. split; [now apply not_slash_mem|].
      exists []. now rewrite app_nil_r.
Qed.

(** X2. Whatever the URL, a pair that [extract_repo_info] returns is read
    from the URL in lower case, right after an occurrence of
    [github.com/]: the owner, a slash, the repository.  The owner is not
    empty, and neither name holds a slash. *)
Theorem extract_repo_info_reads_after_github_com :
  forall (url owner repo : string),
    extract_repo_info url = inr (owner, repo) ->
    owner <> ""
    /\ PyStr.mem_char "/" (list_ascii_of_string owner) = false
    /\ PyStr.mem_char "/" (list_ascii_of_string repo) = false
    /\ exists pre rest,
         list_ascii_of_string (PyStr.lower url)
         = pre ++ github_com ++ list_ascii_of_string owner
               ++ "/"%char :: list_ascii_of_string repo ++ rest.
Proof.
  intros url owner repo H. rewrite extract_repo_info_unfold in H. cbv zeta in H.
  set (s := list_ascii_of_string (PyStr.lower url)) in *.
  set (total := List.length s) in *.
  assert (Hmatch : forall R tail m,
             (forall u cs, Re.rmatch false total R u cs accept = with_tail total tail u cs) ->
             keeps_captures tail ->
             Re.search_from false total R s = Some m ->
             repo_of_match m = inr (owner, repo) ->
             owner <> ""
             /\ PyStr.mem_char "/" (list_ascii_of_string owner) = false
             /\ PyStr.mem_char "/" (list_ascii_of_string repo) = false
             /\ exists pre rest,
                  s = pre ++ github_com ++ list_ascii_of_string owner
                          ++ "/"%char :: list_ascii_of_string repo ++ rest).
  { intros R tail m HR Htail Hsearch Hrepo.
    apply search_from_sound in Hsearch as (pre & u & Hs & Hu).
    rewrite HR in Hu.
    apply (with_tail_sound total tail u [] m Htail) in Hu
      as (o & w & rest & -> & Ho & Hns & Hw & Hnw & ->).
    destruct (repo_of_match_sound o w owner repo Ho Hns Hnw Hrepo)
      as (Howner & Ho' & Hrepo' & tail' & Hw').
    split; [exact Howner|]. split; [rewrite Ho'; now apply not_slash_mem|].
    split; [exact Hrepo'|].
    exists pre, (tail' ++ rest). rewrite Hs, Ho', Hw'. now rewrite <- app_assoc. }
  destruct (Re.search_from false total root_pattern s) as [m|] eqn:Hroot.
  { apply (Hmatch root_pattern (root_tail total) m (rmatch_root_pattern total)
             (root_tail_keeps total) Hroot H). }
  destruct (Re.search_from false total page_pattern s) as [m|] eqn:Hpage.
  { apply (Hmatch page_pattern (page_tail total) m (rmatch_page_pattern total)
             (page_tail_keeps total) Hpage H). }
  destruct (Re.search_from false total archive_pattern s) as [m|] eqn:Harchive.
  { apply (Hmatch archive_pattern archive_tail m (rmatch_archive_pattern total)
             archive_tail_keeps Harchive H). }
  discriminate.
Qed.

Lemma extract_repo_info_reads_after_github_com_witness :
  "kubernetes" <> ""
  /\ PyStr.mem_char "/" (list_ascii_of_string "kubernetes") = false
  /\ PyStr.mem_char "/" (list_ascii_of_string "kubernetes") = false
  /\ exists pre rest,
       list_ascii_of_string (PyStr.lower "https://GitHub.com/Kubernetes/kubernetes.git")
       = pre ++ github_com ++ list_ascii_of_string "kubernetes"
             ++ "/"%char :: list_ascii_of_string "kubernetes" ++ rest.
Proof.
  apply (extract_repo_info_reads_after_github_com
           "https://GitHub.com/Kubernetes/kubernetes.git" "kubernetes" "kubernetes").
  vm_compute. reflexivity.
Defined.

(** ** Selection on arbitrary input *)

Section SelectionSafety.
Context {R : Runtime}.

Lemma max_scan_in items :
  forall best k r, max_scan items best k = inr r -> r = best \/ In r items.
Proof.
  induction items as [|x items IH]; intros best k r H; cbn [max_scan] in H.
  - left. change (@inr exn json best = inr r) in H. congruence.
  - destruct (rank_key x) as [e|kx]; cbn [bind Monad_E] in H; [discriminate|].
    destruct (Py.tuple2_gt kx k) as [e|[|]]; cbn [bind Monad_E] in H; [discriminate| |].
    + destruct (IH _ _ _ H) as [->|Hin]; right; [now left | now right].
    + destruct (IH _ _ _ H) as [->|Hin]; [now left | right; now right].
Qed.

Lemma max_by_key_in items r : max_by_key items = inr r -> In r items.
Proof.
  destruct items as [|x items]; cbn [max_by_key]; [discriminate|].
  destruct (rank_key x) as [e|k]; cbn [bind Monad_E]; [discriminate|].
  intros H. destruct (max_scan_in _ _ _ _ H) as [->|Hin]; [now left | now right].
Qed.

Lemma matching_sound regex items :
  forall l, matching regex items = inr l ->
    forall a, In a l ->
      In a items
      /\ exists name, Py.getitem a "name" = inr (JStr name) /\ regex_search regex name = true.
Proof.
  induction items as [|x items IH]; intros l H a Ha; cbn [matching] in H.
  - change (@inr exn (list json) [] = inr l) in H. injection H as <-. destruct Ha.
  - destruct (Py.getitem x "name") as [e|n] eqn:Hn; cbn [bind Monad_E] in H; [discriminate|].
    destruct n as [| | |s| |]; cbn [bind Monad_E ret] in H; try discriminate.
    destruct (matching regex items) as [e|rest]; cbn [bind Monad_E ret] in H; [discriminate|].
    injection H as <-.
    destruct (regex_search regex s) eqn:Hs.
    + destruct Ha as [<-|Ha].
      * split; [now left|]. now exists s.
      * destruct (IH rest eq_refl a Ha) as [Hin Hex]. split; [now right | exact Hex].
    + destruct (IH rest eq_refl a Ha) as [Hin Hex]. split; [now right | exact Hex].
Qed.

End SelectionSafety.

(** X3. Whatever [assets] and [pattern] are, selection sends no request and
    returns a value, and the value is either the empty string or the
    [browser_download_url] of an item of [assets] whose name the compiled
    pattern finds. *)
Theorem select_returns_url_of_matching_asset :
  forall (R : Runtime) (assets : json) (pattern : string),
    requested (_select_asset_by_pattern assets pattern) = []
    /\ exists v,
         outcome (_select_asset_by_pattern assets pattern) = inr v
         /\ (v = JStr ""
             \/ exists regex items a name,
                  re_compile_ignorecase pattern = inr regex
                  /\ Py.iter assets = inr items
                  /\ In a items
                  /\ Py.getitem a "name" = inr (JStr name)
                  /\ regex_search regex name = true
                  /\ Py.getitem a "browser_download_url" = inr v).
Proof.
  intros R assets pattern. unfold _select_asset_by_pattern.
  destruct (String.eqb pattern ""); [split; [reflexivity | exists (JStr ""); split; [reflexivity | now left]]|].
  destruct (re_compile_ignorecase pattern) as [e|regex] eqn:Hc.
  { destruct e; (split; [reflexivity | exists (JStr ""); split; [reflexivity | now left]]). }
  destruct (Py.iter assets) as [e|items] eqn:Hi.
  { destruct e; (split; [reflexivity | exists (JStr ""); split; [reflexivity | now left]]). }
  cbn. destruct (matching regex items) as [e|l] eqn:Hm.
  { destruct e; (split; [reflexivity | exists (JStr ""); split; [reflexivity | now left]]). }
  cbn. destruct l as [|x l].
  { split; [reflexivity | exists (JStr ""); split; [reflexivity | now left]]. }
  destruct (max_by_key (x :: l)) as [e|best] eqn:Hb.
  { destruct e; (split; [reflexivity | exists (JStr ""); split; [reflexivity | now left]]). }
  cbn. destruct (Py.getitem best "name") as [e|n] eqn:Hn.
  { destruct e; (split; [reflexivity | exists (JStr ""); split; [reflexivity | now left]]). }
  cbn. destruct (Py.getitem best "browser_download_url") as [e|u] eqn:Hu.
  { destruct e; (split; [reflexivity | exists (JStr ""); split; [reflexivity | now left]]). }
  cbn. split; [reflexivity|]. exists u. split; [reflexivity|]. right.
  apply max_by_key_in in Hb.
  destruct (matching_sound regex items _ Hm best Hb) as [Hin (name & Hname & Hs)].
  exists regex, items, best, name. repeat split; assumption.
Qed.

(** ** Releases without a tag, and the requests of a resolution *)

Section MissingTag.
Context {R : Runtime}.

Lemma parse_release_data_without_tag d pattern :
  dict_get d "tag_name" = None ->
  _parse_release_data (JDict d) pattern
  = (trace_of (selected_url d pattern), inl (KeyError (JStr "tag_name"))).
Proof.
  intros Htag.
  destruct (selected_url_never_raises d pattern) as [v Hv]. revert Hv.
  unfold _parse_release_data, selected_url, field_or, lift.
  cbn [Py.get Py.getitem].
  rewrite Htag.
  destruct (dict_get d "assets") as [assets|] eqn:Hassets.
  - cbn [bind Monad_M].
    destruct (Py.truthy assets && negb (String.eqb pattern "")).
    + cbn [bind Monad_M app].
      destruct (_select_asset_by_pattern assets pattern) as [t [e|u]]; [discriminate|].
      intros _. cbn [bind Monad_M ret app trace_of outcome fst snd]. now rewrite app_nil_r.
    + reflexivity.
  - reflexivity.
Qed.

End MissingTag.

(** X4. A release object without [tag_name] cannot be parsed: the parse
    raises [KeyError], after the asset selection has run, and a resolution
    that receives such an object with status 200 (as the latest release, or
    first in the list of releases) ends in [None] with that error printed
    last. *)
Theorem release_without_tag_is_not_found :
  forall (R : Runtime) (self : GitHubPackageManager.t) (url owner repo pattern : string)
         (include_prerelease : bool) (d : list (string * json)) (rest : list json),
    extract_repo_info url = inr (owner, repo) ->
    dict_get d "tag_name" = None ->
    session_get (if include_prerelease
                 then releases_request self owner repo
                 else stable_request self owner repo)
    = inr (mkResponse 200 (inr (if include_prerelease
                                then JList (JDict d :: rest)
                                else JDict d))) ->
    outcome (_parse_release_data (JDict d) pattern) = inl (KeyError (JStr "tag_name"))
    /\ outcome (get_latest_release self url include_prerelease pattern) = inr None
    /\ printed (get_latest_release self url include_prerelease pattern)
       = printed (selected_url d pattern) ++ [MsgReleaseError (KeyError (JStr "tag_name"))].
Proof.
  intros R self url owner repo pattern pre d rest Hx Htag Hget.
  pose proof (parse_release_data_without_tag d pattern Htag) as Hparse.
  split; [now rewrite Hparse|].
  rewrite (get_latest_release_runs self url pre pattern owner repo Hx).
  destruct pre.
  - rewrite (releases_by_status self owner repo pattern _ Hget).
    cbn [status json_body Z.eqb Pos.eqb negb Py.truthy Py.getitem0].
    rewrite Hparse. unfold found, try_except, printed, trace_of, outcome.
    cbn [fst snd bind Monad_M print ret app flat_map].
    split; [reflexivity|]. rewrite flat_map_app. reflexivity.
  - rewrite (stable_release_by_status self owner repo pattern _ Hget).
    cbn [status json_body Z.eqb Pos.eqb negb].
    rewrite Hparse. unfold found, try_except, printed, trace_of, outcome.
    cbn [fst snd bind Monad_M print ret app flat_map].
    split; [reflexivity|]. rewrite flat_map_app. reflexivity.
Qed.

Lemma release_without_tag_is_not_found_witness :
  outcome (_parse_release_data (R := Fixture.runtime) (JDict [("name", JStr "nightly")]) "win")
  = inl (KeyError (JStr "tag_name"))
  /\ outcome (get_latest_release (R := Fixture.runtime) Fixture.github
                                 "https://github.com/owner/untagged" false "win")
     = inr None
  /\ printed (get_latest_release (R := Fixture.runtime) Fixture.github
                                 "https://github.com/owner/untagged" false "win")
     = printed (selected_url (R := Fixture.runtime) [("name", JStr "nightly")] "win")
         ++ [MsgReleaseError (KeyError (JStr "tag_name"))].
Proof.
  apply (release_without_tag_is_not_found
           Fixture.runtime Fixture.github "https://github.com/owner/untagged"
           "owner" "untagged" "win" false [("name", JStr "nightly")] []).
  - vm_compute. reflexivity.
  - reflexivity.
  - reflexivity.
Defined.

(** X5. A resolution sends at most one request, and only for a URL that
    names a repository: a GET of [/repos/owner/repo/releases/latest] (of
    [/releases] with [per_page=10] when pre-releases are included) under the
    API base, with the headers fixed when the provider was built.  These
    are [Accept] and [User-Agent], followed by [Authorization: Bearer t]
    exactly when a token [t] is in force: the non-empty token given to the
    constructor, else a non-empty [GITHUB_TOKEN] of the environment. *)
Theorem resolution_requests_carry_the_token :
  forall (R : Runtime) (tok : option string) (url : string) (include_prerelease : bool)
         (pattern : string),
    let self := init tok in
    let effective := if truthy_str tok then tok else environ_get "GITHUB_TOKEN" in
    let base := [("Accept", "application/vnd.github.v3+json");
                 ("User-Agent", "py-winget-source/1.0")] in
    (forall e, extract_repo_info url = inl e ->
               requested (get_latest_release self url include_prerelease pattern) = [])
    /\ (forall owner repo,
           extract_repo_info url = inr (owner, repo) ->
           requested (get_latest_release self url include_prerelease pattern)
           = [mkRequest
                ("https://api.github.com/repos/" ++ owner ++ "/" ++ repo
                 ++ (if include_prerelease then "/releases" else "/releases/latest"))%string
                (headers self)
                (if include_prerelease then [("per_page", 10%Z)] else [])])
    /\ (forall t, effective = Some t -> t <> "" ->
                  headers self = base ++ [("Authorization", ("Bearer " ++ t)%string)])
    /\ (effective = None \/ effective = Some "" -> headers self = base).
Proof.
  intros R tok url pre pattern self effective base.
  split; [|split; [|split]].
  - intros e Hx. rewrite get_latest_release_requested. now rewrite Hx.
  - intros owner repo Hx. rewrite get_latest_release_requested. rewrite Hx.
    destruct pre; reflexivity.
  - intros t Ht Hne. subst self. unfold init. fold effective. rewrite Ht.
    cbn [truthy_str]. apply String.eqb_neq in Hne. now rewrite Hne.
  - intros [Ht|Ht]; subst self; unfold init; fold effective; now rewrite Ht.
Qed.

Lemma resolution_requests_carry_the_token_witness :
  requested (get_latest_release (R := Fixture.runtime) Fixture.github
                                "https://github.com/owner/repo" true "")
  = [mkRequest "https://api.github.com/repos/owner/repo/releases"
               (headers Fixture.github) [("per_page", 10%Z)]]
  /\ headers Fixture.github
     = [("Accept", "application/vnd.github.v3+json");
        ("User-Agent", "py-winget-source/1.0");
        ("Authorization", "Bearer secret")]
  /\ requested (get_latest_release (R := Fixture.runtime) Fixture.github
                                   "https://github.com/owner" true "")
     = [].
Proof.
  split; [|split].
  - destruct (resolution_requests_carry_the_token
                Fixture.runtime None "https://github.com/owner/repo" true "")
      as (_ & Hsent & _).
    apply (Hsent "owner" "repo"). vm_compute. reflexivity.
  - destruct (resolution_requests_carry_the_token
                Fixture.runtime None "https://github.com/owner/repo" true "")
      as (_ & _ & Htoken & _).
    apply (Htoken "secret"); [reflexivity | discriminate].
  - destruct (resolution_requests_carry_the_token
                Fixture.runtime None "https://github.com/owner" true "")
      as (Hnone & _).
    apply (Hnone (ValueError "https://github.com/owner")). vm_compute. reflexivity.
Defined.

(** ** The registry as it is built, and as it grows *)

Section Dispatch.
Context {R : Runtime}.

Lemma provider_returns self url include_prerelease pattern :
  exists found, outcome (get_latest_release self url include_prerelease pattern) = inr found.
Proof.
  unfold get_latest_release.
  match goal with |- context [try_except ?b _] => destruct b as [t [e|x]] end.
  - now exists None.
  - now exists x.
Qed.

Lemma scan_app managers p url :
  PackageManagerRegistry.scan (managers ++ [p]) url
  = match PackageManagerRegistry.scan managers url with
    | inr None =>
        match PackageManager.can_handle p url with
        | inl e => inl e
        | inr true => inr (Some p)
        | inr false => inr None
        end
    | chosen => chosen
    end.
Proof.
  induction managers as [|m managers IH]; cbn [app PackageManagerRegistry.scan].
  - destruct (PackageManager.can_handle p url) as [e|[|]]; reflexivity.
  - destruct (PackageManager.can_handle m url) as [e|[|]]; cbn [bind Monad_E];
      [reflexivity|reflexivity|exact IH].
Qed.

End Dispatch.

(** X6. The registry as it is built holds the GitHub provider alone.  Its
    [get_latest_release] raises exactly when [can_handle] does (that is,
    when [urlparse] refuses the URL); for a URL that [can_handle] rejects it
    sends no request, prints that no provider was found and returns [None];
    for a URL that [can_handle] accepts it is the resolution of the GitHub
    provider built without a token argument. *)
Theorem default_registry_dispatch :
  forall (R : Runtime) (url : string) (include_prerelease : bool) (pattern : string),
    let run := PackageManagerRegistry.get_latest_release
                 PackageManagerRegistry.init url include_prerelease pattern in
    (forall e, outcome run = inl e <-> can_handle url = inl e)
    /\ (forall e, can_handle url = inl e -> trace_of run = [])
    /\ (can_handle url = inr false -> run = ([EvPrint (MsgNoManager url)], inr None))
    /\ (can_handle url = inr true ->
        run = get_latest_release (init None) url include_prerelease pattern).
Proof.
  intros R url pre pattern run. subst run.
  unfold PackageManagerRegistry.get_latest_release, PackageManagerRegistry.get_manager,
    PackageManagerRegistry.init, PackageManagerRegistry.register.
  cbn [PackageManagerRegistry._managers app PackageManagerRegistry.scan
       PackageManager.can_handle as_manager].
  destruct (can_handle url) as [e|[|]] eqn:Hc; cbn [bind Monad_E ret lift Monad_M].
  - split; [|split; [|split]]; try discriminate.
    + intros e'. cbn [outcome snd]. split; congruence.
    + reflexivity.
  - destruct (provider_returns (init None) url pre pattern) as [found Hfound].
    change (PackageManager.get_latest_release (as_manager (init None)) url pre pattern)
      with (get_latest_release (init None) url pre pattern).
    destruct (get_latest_release (init None) url pre pattern) as [t r] eqn:Hrun.
    cbn [outcome snd] in Hfound. subst r. cbn [app].
    split; [|split; [|split]]; try discriminate.
    + intros e'. cbn [outcome snd]. split; discriminate.
    + reflexivity.
  - split; [|split; [|split]]; try discriminate.
    + intros e'. cbn [outcome snd print bind Monad_M]. split; discriminate.
    + reflexivity.
Qed.

Lemma default_registry_dispatch_witness :
  PackageManagerRegistry.get_latest_release
    (PackageManagerRegistry.init (R := Sample.runtime)) "https://github.com/owner/repo" false "win"
  = get_latest_release (R := Sample.runtime) (init (R := Sample.runtime) None)
                       "https://github.com/owner/repo" false "win"
  /\ PackageManagerRegistry.get_latest_release
       (PackageManagerRegistry.init (R := Sample.runtime)) "https://gitlab.com/owner/repo" false "win"
     = ([EvPrint (MsgNoManager "https://gitlab.com/owner/repo")], inr None)
  /\ outcome (PackageManagerRegistry.get_latest_release
                (PackageManagerRegistry.init (R := Sample.runtime)) "https://[github.com/owner/repo"
                false "win")
     = inl (ValueError "Invalid IPv6 URL").
Proof.
  split; [|split].
  - destruct (default_registry_dispatch
                Sample.runtime "https://github.com/owner/repo" false "win")
      as (_ & _ & _ & Hgithub).
    apply Hgithub. vm_compute. reflexivity.
  - destruct (default_registry_dispatch
                Sample.runtime "https://gitlab.com/owner/repo" false "win")
      as (_ & _ & Hother & _).
    apply Hother. vm_compute. reflexivity.
  - destruct (default_registry_dispatch
                Sample.runtime "https://[github.com/owner/repo" false "win")
      as (Hraises & _).
    apply (Hraises (ValueError "Invalid IPv6 URL")). vm_compute. reflexivity.
Defined.

(** X7. Registering a provider changes nothing for the URLs the registry
    already settles: where [get_manager] found a provider, or raised, it
    still does.  For a URL that no earlier provider claims, the new
    provider is asked, and when it claims the URL the registry's
    [get_latest_release] is the new provider's. *)
Theorem register_extends_the_registry :
  forall (self : PackageManagerRegistry.t) (p : PackageManager.t) (url : string)
         (include_prerelease : bool) (pattern : string),
    let extended := PackageManagerRegistry.register self p in
    (forall m, PackageManagerRegistry.get_manager self url = inr (Some m) ->
               PackageManagerRegistry.get_manager extended url = inr (Some m))
    /\ (forall e, PackageManagerRegistry.get_manager self url = inl e ->
                  PackageManagerRegistry.get_manager extended url = inl e)
    /\ (PackageManagerRegistry.get_manager self url = inr None ->
        (forall e, PackageManager.can_handle p url = inl e ->
                   PackageManagerRegistry.get_manager extended url = inl e)
        /\ (PackageManager.can_handle p url = inr false ->
            PackageManagerRegistry.get_manager extended url = inr None)
        /\ (PackageManager.can_handle p url = inr true ->
            PackageManagerRegistry.get_manager extended url = inr (Some p)
            /\ PackageManagerRegistry.get_latest_release extended url include_prerelease pattern
               = PackageManager.get_latest_release p url include_prerelease pattern)).
Proof.
  intros self p url pre pattern extended. subst extended.
  unfold PackageManagerRegistry.get_latest_release, PackageManagerRegistry.get_manager,
    PackageManagerRegistry.register.
  cbn [PackageManagerRegistry._managers]. rewrite scan_app.
  split; [|split].
  - intros m ->. reflexivity.
  - intros e ->. reflexivity.
  - intros ->. split; [|split].
    + intros e ->. reflexivity.
    + intros ->. reflexivity.
    + intros ->. split; [reflexivity|]. unfold lift. cbn [bind Monad_M].
      destruct (PackageManager.get_latest_release p url pre pattern) as [t r]. reflexivity.
Qed.

Lemma register_extends_the_registry_witness :
  PackageManagerRegistry.get_manager
    (PackageManagerRegistry.register (PackageManagerRegistry.init (R := Sample.runtime))
                                     (Sample.claiming "mirror"))
    "https://gitlab.com/owner/repo"
  = inr (Some (Sample.claiming "mirror"))
  /\ PackageManagerRegistry.get_latest_release
       (PackageManagerRegistry.register (PackageManagerRegistry.init (R := Sample.runtime))
                                        (Sample.claiming "mirror"))
       "https://gitlab.com/owner/repo" false ""
     = PackageManager.get_latest_release (Sample.claiming "mirror")
                                         "https://gitlab.com/owner/repo" false "".
Proof.
  destruct (register_extends_the_registry
              (PackageManagerRegistry.init (R := Sample.runtime))
              (Sample.claiming "mirror") "https://gitlab.com/owner/repo" false "")
    as (_ & _ & Hnew).
  destruct Hnew as (_ & _ & Hclaims); [vm_compute; reflexivity|].
  apply Hclaims. reflexivity.
Defined.

(** ** The two queries beside release resolution *)

(** X8. [get_repository_info] never raises.  For a URL that names no
    repository it sends nothing and returns [None] after printing the
    error; otherwise it sends one GET of [/repos/owner/repo], without
    parameters, and returns the decoded body when the status is 200.
    Every other status, 404 and 403 included, gives [None] with the status
    printed, and a fault of the network or of the decoding gives [None]
    with the exception printed. *)
Theorem get_repository_info_by_status :
  forall (R : Runtime) (self : GitHubPackageManager.t) (url : string),
    (exists v, result (GitHubQueries.get_repository_info self url) = inr v)
    /\ (forall e, extract_repo_info url = inl e ->
                  GitHubQueries.get_repository_info self url
                  = ([Say (MsgRepositoryError (Raised e))], inr JNull))
    /\ (forall owner repo,
           extract_repo_info url = inr (owner, repo) ->
           let req := repository_request self owner repo in
           sent (GitHubQueries.get_repository_info self url) = [req]
           /\ (forall e, session_get req = inl e ->
                         GitHubQueries.get_repository_info self url
                         = ([Core (EvGet req); Say (MsgRepositoryError (Raised e))], inr JNull))
           /\ (forall resp,
                  session_get req = inr resp ->
                  (status resp <> 200%Z ->
                   GitHubQueries.get_repository_info self url
                   = ([Core (EvGet req); Say (MsgRepositoryHttpFailed (status resp))],
                      inr JNull))
                  /\ (status resp = 200%Z ->
                      GitHubQueries.get_repository_info self url
                      = match json_body resp with
                        | inr data => ([Core (EvGet req)], inr data)
                        | inl e => ([Core (EvGet req); Say (MsgRepositoryError (Raised e))],
                                    inr JNull)
                        end))).
Proof.
  intros R self url. unfold GitHubQueries.get_repository_info.
  destruct (extract_repo_info url) as [e|[owner repo]] eqn:Hx.
  - split; [now exists JNull|]. split; [intros e' [= <-]; reflexivity | discriminate].
  - unfold get, json_of, lift, of_M, of_E. cbn [fst snd map bind Monad_IO].
    fold (repository_request self owner repo).
    split; [|split; [discriminate|]].
    + destruct (session_get (repository_request self owner repo)) as [e|resp];
        [now exists JNull|].
      cbn [bind Monad_IO]. destruct (status resp =? 200)%Z.
      * destruct (json_body resp) as [e|data]; [now exists JNull | now exists data].
      * now exists JNull.
    + intros o r [= <- <-]. cbv zeta.
      destruct (session_get (repository_request self owner repo)) as [e|resp] eqn:Hget.
      * split; [reflexivity|]. split; [intros e' [= <-]; reflexivity | discriminate].
      * split; [|split; [discriminate|]].
        -- cbn [bind Monad_IO]. destruct (status resp =? 200)%Z;
             [destruct (json_body resp)|]; reflexivity.
        -- intros resp' [= <-]. split; intros Hs.
           ++ apply Z.eqb_neq in Hs. cbn [bind Monad_IO]. now rewrite Hs.
           ++ apply Z.eqb_eq in Hs. cbn [bind Monad_IO]. rewrite Hs.
              destruct (json_body resp); reflexivity.
Qed.

Lemma get_repository_info_by_status_witness :
  GitHubQueries.get_repository_info (R := Fixture.runtime) Fixture.github
                                    "https://github.com/owner/repo"
  = ([Core (EvGet (repository_request Fixture.github "owner" "repo"))],
     inr (JDict [("full_name", JStr "owner/repo")]))
  /\ GitHubQueries.get_repository_info (R := Fixture.runtime) Fixture.github
                                       "https://github.com/owner/limited"
     = ([Core (EvGet (repository_request Fixture.github "owner" "limited"));
         Say (MsgRepositoryHttpFailed 404)], inr JNull)
  /\ GitHubQueries.get_repository_info (R := Fixture.runtime) Fixture.github
                                       "https://github.com/owner"
     = ([Say (MsgRepositoryError (Raised (ValueError "https://github.com/owner")))], inr JNull).
Proof.
  split; [|split].
  - destruct (get_repository_info_by_status
                Fixture.runtime Fixture.github "https://github.com/owner/repo")
      as (_ & _ & Hrepo).
    destruct (Hrepo "owner" "repo") as (_ & _ & Hresp); [vm_compute; reflexivity|].
    apply (Hresp (mkResponse 200 (inr (JDict [("full_name", JStr "owner/repo")])))); reflexivity.
  - destruct (get_repository_info_by_status
                Fixture.runtime Fixture.github "https://github.com/owner/limited")
      as (_ & _ & Hrepo).
    destruct (Hrepo "owner" "limited") as (_ & _ & Hresp); [vm_compute; reflexivity|].
    apply (Hresp (mkResponse 404 (inr JNull))); [reflexivity | discriminate].
  - destruct (get_repository_info_by_status
                Fixture.runtime Fixture.github "https://github.com/owner")
      as (_ & Hnone & _).
    apply Hnone. vm_compute. reflexivity.
Defined.

(** X9. [check_rate_limit] never raises and prints nothing.  It sends one
    GET of [/rate_limit] and returns the decoded body when the status is
    200; for any other status it returns a dict whose only key, [error],
    holds [HTTP] and the status in decimal ([HTTP 403] for a 403), and for
    an exception a dict whose only key [error] holds the text of the
    exception. *)
Theorem check_rate_limit_reports_errors_as_values :
  forall (R : Runtime) (str : exn -> string) (self : GitHubPackageManager.t),
    let req := rate_limit_request self in
    trace_of (GitHubQueries.check_rate_limit str self) = [EvGet req]
    /\ (forall e, session_get req = inl e ->
                  outcome (GitHubQueries.check_rate_limit str self)
                  = inr (JDict [("error", JStr (str e))]))
    /\ (forall resp,
           session_get req = inr resp ->
           (status resp <> 200%Z ->
            outcome (GitHubQueries.check_rate_limit str self)
            = inr (JDict [("error", JStr ("HTTP " ++ decimal (status resp)))]))
           /\ (status resp = 200%Z ->
               outcome (GitHubQueries.check_rate_limit str self)
               = inr match json_body resp with
                     | inr data => data
                     | inl e => JDict [("error", JStr (str e))]
                     end))
    /\ (forall resp,
           session_get req = inr resp ->
           status resp = 403%Z ->
           outcome (GitHubQueries.check_rate_limit str self)
           = inr (JDict [("error", JStr "HTTP 403")])).
Proof.
  intros R str self req. unfold GitHubQueries.check_rate_limit, get, json_of, lift.
  fold (rate_limit_request self). fold req.
  destruct (session_get req) as [e|resp] eqn:Hget.
  - split; [reflexivity|]. split; [intros e' [= <-]; reflexivity|].
    split; discriminate.
  - cbn [bind Monad_M].
    split; [|split; [discriminate|split]].
    + destruct (status resp =? 200)%Z; [destruct (json_body resp)|]; reflexivity.
    + intros resp' [= <-]. split; intros Hs.
      * apply Z.eqb_neq in Hs. now rewrite Hs.
      * apply Z.eqb_eq in Hs. rewrite Hs. destruct (json_body resp); reflexivity.
    + intros resp' [= <-] Hs. now rewrite Hs.
Qed.

Lemma check_rate_limit_reports_errors_as_values_witness :
  outcome (GitHubQueries.check_rate_limit (R := Fixture.runtime) (fun _ => "") Fixture.github)
  = inr (JDict [("rate", JDict [("remaining", JInt 60)])])
  /\ outcome (GitHubQueries.check_rate_limit (R := Sample.runtime) (fun _ => "") Sample.github)
     = inr (JDict [("error", JStr "HTTP 404")]).
Proof.
  split.
  - destruct (check_rate_limit_reports_errors_as_values
                Fixture.runtime (fun _ => "") Fixture.github) as (_ & _ & Hresp & _).
    apply (Hresp (mkResponse 200 (inr (JDict [("rate", JDict [("remaining", JInt 60)])]))));
      reflexivity.
  - destruct (check_rate_limit_reports_errors_as_values
                Sample.runtime (fun _ => "") Sample.github) as (_ & _ & Hresp & _).
    apply (Hresp (mkResponse 404 (inr JNull))); [reflexivity | discriminate].
Defined.

(** ** The manifest parser *)

Section Manifest.
Context {F : ManifestParser.Files}.

Lemma package_of_entry entry :
  is_entry entry = true ->
  ManifestParser.package_of entry
  = match described entry with
    | Some p => ([], inr (Some p))
    | None => ([Say (MsgIncompletePackage entry)], inr None)
    end.
Proof.
  destruct entry as [| | | |l|d]; try discriminate; intros _.
  - destruct l as [|a [|b [|c l]]]; try reflexivity.
    unfold ManifestParser.package_of. cbn [ManifestParser.is_dict Py.len of_E bind Monad_IO].
    replace (3 <=? Z.of_nat (List.length (a :: b :: c :: l)))%Z with true
      by (symmetry; apply Z.leb_le; cbn [List.length]; lia).
    reflexivity.
  - unfold ManifestParser.package_of, described, package_of_dict, field_or.
    cbn [ManifestParser.is_dict Py.get].
    destruct (dict_get d "name"), (dict_get d "id"), (dict_get d "url"),
      (dict_get d "include_prerelease"), (dict_get d "pattern"); reflexivity.
Qed.

Lemma package_of_scalar v :
  is_scalar v = true -> ManifestParser.package_of v = ([], inl (Raised TypeError)).
Proof. destruct v; try discriminate; reflexivity. Qed.

Lemma said_app {A} (t t' : list output) (x y : failure + A) :
  said (t ++ t', x) = said (t, y) ++ said (t', y).
Proof. unfold said. cbn [fst]. apply flat_map_app. Qed.

Lemma parse_loop_entries entries : forall packages,
  Forall (fun e => is_entry e = true) entries ->
  ManifestParser.parse_loop entries packages
  = (map Say (warnings entries), inr (packages ++ kept entries)).
Proof.
  induction entries as [|e entries IH]; intros packages Hall.
  - cbn. now rewrite app_nil_r.
  - inversion Hall as [|? ? He Hrest]; subst.
    cbn [ManifestParser.parse_loop]. rewrite (package_of_entry e He).
    unfold kept, warnings in *. cbn [flat_map].
    destruct (described e) as [p|]; cbn [bind Monad_IO app].
    + fold (has_url p). destruct (has_url p) eqn:Hp.
      * rewrite (IH _ Hrest). cbn [filter app]. rewrite Hp. cbn [app map].
        now rewrite <- app_assoc.
      * cbn [say bind Monad_IO]. rewrite (IH _ Hrest). cbn [filter app map]. now rewrite Hp.
    + rewrite (IH _ Hrest). reflexivity.
Qed.

Lemma parse_loop_scalar before bad after : forall packages,
  Forall (fun e => is_entry e = true) before -> is_scalar bad = true ->
  ManifestParser.parse_loop (before ++ bad :: after) packages
  = (map Say (warnings before), inl (Raised TypeError)).
Proof.
  induction before as [|e before IH]; intros packages Hall Hbad.
  - cbn [app ManifestParser.parse_loop]. now rewrite (package_of_scalar bad Hbad).
  - inversion Hall as [|? ? He Hrest]; subst.
    cbn [app ManifestParser.parse_loop]. rewrite (package_of_entry e He).
    unfold warnings in *. cbn [flat_map].
    destruct (described e) as [p|]; cbn [bind Monad_IO app].
    + fold (has_url p). destruct (has_url p) eqn:Hp.
      * now rewrite (IH _ Hrest Hbad).
      * cbn [say bind Monad_IO]. now rewrite (IH _ Hrest Hbad).
    + now rewrite (IH _ Hrest Hbad).
Qed.

Lemma parse_loop_keeps_urls items : forall packages found,
  Forall (fun p => has_url p = true) packages ->
  result (ManifestParser.parse_loop items packages) = inr found ->
  Forall (fun p => has_url p = true) found.
Proof.
  induction items as [|e items IH]; intros packages found Hall Hrun.
  - cbn in Hrun. now injection Hrun as <-.
  - cbn [ManifestParser.parse_loop] in Hrun.
    destruct (ManifestParser.package_of e) as [t [x|[p|]]]; cbn [bind Monad_IO] in Hrun.
    + discriminate.
    + fold (has_url p) in Hrun. destruct (has_url p) eqn:Hp.
      * apply (IH (packages ++ [p]) found).
        -- apply Forall_app. split; [exact Hall | now constructor].
        -- unfold result in *.
           destruct (ManifestParser.parse_loop items (packages ++ [p])) as [t' r].
           exact Hrun.
      * apply (IH packages found Hall). unfold result in *. cbn [say bind Monad_IO] in Hrun.
        destruct (ManifestParser.parse_loop items packages) as [t' r]. exact Hrun.
    + apply (IH packages found Hall). unfold result in *.
      destruct (ManifestParser.parse_loop items packages) as [t' r]. exact Hrun.
Qed.

(** [parse] on a document that is a mapping with [packages]. *)
Lemma parse_packages self d entries :
  ManifestParser.load (ManifestParser.manifest_path self) = inr (JDict d) ->
  dict_get d "packages" = Some entries ->
  ManifestParser.parse self
  = try_io (items <- of_E (Py.iter entries) ;; ManifestParser.parse_loop items [])
           (fun e =>
              match e with
              | FileNotFoundError =>
                  say (MsgManifestNotFound (ManifestParser.manifest_path self)) ;;; ret []
              | YAMLError _ => say (MsgYamlFailed e) ;;; ret []
              | _ => say (MsgManifestFailed e) ;;; ret []
              end).
Proof.
  intros Hload Hd. unfold ManifestParser.parse. rewrite Hload.
  cbn [bind Monad_IO ManifestParser.contains of_E Py.getitem]. rewrite Hd.
  cbn [bind Monad_IO of_E app].
  destruct (Py.iter entries) as [e|items]; [reflexivity|].
  cbn [bind Monad_IO of_E app].
  destruct (ManifestParser.parse_loop items []) as [t [e|x]]; reflexivity.
Qed.

End Manifest.

(** X10. [parse] never raises.  A manifest that cannot be opened or read, or
    that is not valid YAML, gives the empty list after one line that names
    the failure; so does a document that is not a mapping, and a mapping
    without the key [packages] gives the empty list with nothing printed. *)
Theorem parse_never_raises :
  forall (F : ManifestParser.Files) (self : ManifestParser.t),
    let path := ManifestParser.manifest_path self in
    (exists packages, result (ManifestParser.parse self) = inr packages)
    /\ (ManifestParser.load path = inl FileNotFoundError ->
        ManifestParser.parse self = ([Say (MsgManifestNotFound path)], inr []))
    /\ (forall msg, ManifestParser.load path = inl (YAMLError msg) ->
                    ManifestParser.parse self = ([Say (MsgYamlFailed (YAMLError msg))], inr []))
    /\ (forall msg, ManifestParser.load path = inl (OSError msg) ->
                    ManifestParser.parse self = ([Say (MsgManifestFailed (OSError msg))], inr []))
    /\ (forall data, ManifestParser.load path = inr data ->
                     ManifestParser.is_dict data = false ->
                     result (ManifestParser.parse self) = inr [])
    /\ (forall d, ManifestParser.load path = inr (JDict d) ->
                  dict_get d "packages" = None ->
                  ManifestParser.parse self = ([], inr [])).
Proof.
  intros F self path. subst path. split; [|split; [|split; [|split; [|split]]]].
  - unfold ManifestParser.parse.
    match goal with |- context [try_io ?b _] => destruct b as [t [e|x]] end.
    + exists []. destruct e; reflexivity.
    + now exists x.
  - intros H. unfold ManifestParser.parse. now rewrite H.
  - intros msg H. unfold ManifestParser.parse. now rewrite H.
  - intros msg H. unfold ManifestParser.parse. now rewrite H.
  - intros data H Hd. unfold ManifestParser.parse. rewrite H.
    destruct data as [| | |s|l|d]; try discriminate; try reflexivity.
    + cbn [bind Monad_IO ManifestParser.contains of_E].
      destruct (occurs _ _); reflexivity.
    + cbn [bind Monad_IO ManifestParser.contains of_E].
      destruct (existsb _ l); reflexivity.
  - intros d H Hd. unfold ManifestParser.parse. rewrite H.
    cbn [bind Monad_IO ManifestParser.contains of_E]. now rewrite Hd.
Qed.

Lemma parse_never_raises_witness :
  ManifestParser.parse (F := Fixture.files) (ManifestParser.init (Some "nowhere.yml"))
  = ([Say (MsgManifestNotFound "nowhere.yml")], inr [])
  /\ ManifestParser.parse (F := Fixture.files) (ManifestParser.init (Some "broken.yml"))
     = ([Say (MsgYamlFailed (YAMLError "mapping values are not allowed here"))], inr [])
  /\ ManifestParser.parse (F := Fixture.files) (ManifestParser.init (Some "locked.yml"))
     = ([Say (MsgManifestFailed (OSError "Permission denied"))], inr [])
  /\ result (ManifestParser.parse (F := Fixture.files) (ManifestParser.init (Some "list.yml")))
     = inr []
  /\ ManifestParser.parse (F := Fixture.files) (ManifestParser.init (Some "other.yml"))
     = ([], inr []).
Proof.
  split; [|split; [|split; [|split]]].
  - destruct (parse_never_raises Fixture.files (ManifestParser.init (Some "nowhere.yml")))
      as (_ & H & _).
    apply H. reflexivity.
  - destruct (parse_never_raises Fixture.files (ManifestParser.init (Some "broken.yml")))
      as (_ & _ & H & _).
    apply H. reflexivity.
  - destruct (parse_never_raises Fixture.files (ManifestParser.init (Some "locked.yml")))
      as (_ & _ & _ & H & _).
    apply H. reflexivity.
  - destruct (parse_never_raises Fixture.files (ManifestParser.init (Some "list.yml")))
      as (_ & _ & _ & _ & H & _).
    apply (H (JList [Fixture.app_entry])); reflexivity.
  - destruct (parse_never_raises Fixture.files (ManifestParser.init (Some "other.yml")))
      as (_ & _ & _ & _ & _ & H).
    apply (H [("version", JInt 1)]); reflexivity.
Defined.

(** X11. Every package that [parse] returns has a truthy [url]. *)
Theorem parse_returns_packages_with_url :
  forall (F : ManifestParser.Files) (self : ManifestParser.t) (packages : list PackageInfo.t),
    result (ManifestParser.parse self) = inr packages ->
    Forall (fun p => Py.truthy (PackageInfo.url p) = true) packages.
Proof.
  intros F self packages. unfold ManifestParser.parse.
  destruct (ManifestParser.load (ManifestParser.manifest_path self)) as [e|data].
  { destruct e; intros [= <-]; constructor. }
  cbn [bind Monad_IO].
  destruct (ManifestParser.contains data "packages") as [e|[|]]; cbn [of_E bind Monad_IO].
  - destruct e; intros [= <-]; constructor.
  - destruct (Py.getitem data "packages") as [e|entries]; cbn [of_E bind Monad_IO].
    { destruct e; intros [= <-]; constructor. }
    destruct (Py.iter entries) as [e|items]; cbn [of_E bind Monad_IO].
    { destruct e; intros [= <-]; constructor. }
    pose proof (parse_loop_keeps_urls items [] packages (Forall_nil _)) as Hloop.
    unfold result in *.
    destruct (ManifestParser.parse_loop items []) as [t [e|x]]; cbn [app try_io snd] in *.
    + destruct e; intros [= <-]; constructor.
    + exact Hloop.
  - intros [= <-]; constructor.
Qed.

Lemma parse_returns_packages_with_url_witness :
  Forall (fun p => Py.truthy (PackageInfo.url p) = true) (kept [Fixture.app_entry;
                                                                Fixture.short_entry;
                                                                Fixture.tool_entry;
                                                                Fixture.nameless_entry]).
Proof.
  apply (parse_returns_packages_with_url Fixture.files (ManifestParser.init None)).
  reflexivity.
Defined.

(** X12. For a manifest whose [packages] is a list of entries in the two
    formats, [parse] returns, in the order of the manifest, the packages of
    the entries that describe one with a truthy [url]: a mapping gives its
    [name], [id], [url] and [pattern] (the empty string when absent) and its
    [include_prerelease] ([False] when absent); a sequence of three items or
    more gives its first three as [name], [id] and [url], with
    [include_prerelease] [False] and an empty [pattern].  A shorter sequence
    and a package without [url] are skipped with a warning each. *)
Theorem parse_reads_entries_in_order :
  forall (F : ManifestParser.Files) (self : ManifestParser.t) (d : list (string * json))
         (entries : list json),
    ManifestParser.load (ManifestParser.manifest_path self) = inr (JDict d) ->
    dict_get d "packages" = Some (JList entries) ->
    Forall (fun e => is_entry e = true) entries ->
    ManifestParser.parse self = (map Say (warnings entries), inr (kept entries)).
Proof.
  intros F self d entries Hload Hd Hall.
  rewrite (parse_packages self d _ Hload Hd). cbn [Py.iter of_E bind Monad_IO].
  now rewrite (parse_loop_entries entries [] Hall).
Qed.

Lemma parse_reads_entries_in_order_witness :
  ManifestParser.parse (F := Fixture.files) (ManifestParser.init None)
  = ([Say (MsgIncompletePackage Fixture.short_entry); Say (MsgPackageWithoutUrl (JStr ""))],
     inr [PackageInfo.mk (JStr "App") (JStr "Vendor.App") (JStr "https://github.com/owner/repo")
                         (JBool false) (JStr "win");
          PackageInfo.mk (JStr "Tool") (JStr "Vendor.Tool")
                         (JStr "https://github.com/owner/tool") (JBool false) (JStr "")]).
Proof.
  apply (parse_reads_entries_in_order
           Fixture.files (ManifestParser.init None) Fixture.manifest
           [Fixture.app_entry; Fixture.short_entry; Fixture.tool_entry; Fixture.nameless_entry]).
  - reflexivity.
  - reflexivity.
  - repeat constructor.
Defined.

(** X13. One entry that is [None], a truth value or an integer makes [parse]
    return the empty list: the packages read before it are lost, the
    entries after it are not looked at, and the error is printed after the
    warnings of the entries before.  The same holds when [packages] itself
    is such a value. *)
Theorem parse_scalar_entry_discards_everything :
  forall (F : ManifestParser.Files) (self : ManifestParser.t) (d : list (string * json)),
    ManifestParser.load (ManifestParser.manifest_path self) = inr (JDict d) ->
    (forall before bad after,
        dict_get d "packages" = Some (JList (before ++ bad :: after)) ->
        Forall (fun e => is_entry e = true) before ->
        is_scalar bad = true ->
        ManifestParser.parse self
        = (map Say (warnings before ++ [MsgManifestFailed (Raised TypeError)]), inr []))
    /\ (forall v,
           dict_get d "packages" = Some v ->
           is_scalar v = true ->
           ManifestParser.parse self = ([Say (MsgManifestFailed (Raised TypeError))], inr [])).
Proof.
  intros F self d Hload. split.
  - intros before bad after Hd Hall Hbad.
    rewrite (parse_packages self d _ Hload Hd). cbn [Py.iter of_E bind Monad_IO].
    rewrite (parse_loop_scalar before bad after [] Hall Hbad).
    unfold try_io. cbn [say bind Monad_IO ret app]. now rewrite map_app.
  - intros v Hd Hv. rewrite (parse_packages self d _ Hload Hd).
    destruct v; try discriminate; reflexivity.
Qed.

Lemma parse_scalar_entry_discards_everything_witness :
  ManifestParser.parse (F := Fixture.files) (ManifestParser.init (Some "poisoned.yml"))
  = ([Say (MsgPackageWithoutUrl (JStr "")); Say (MsgManifestFailed (Raised TypeError))], inr []).
Proof.
  destruct (parse_scalar_entry_discards_everything
              Fixture.files (ManifestParser.init (Some "poisoned.yml")) Fixture.poisoned
              eq_refl) as (Hentry & _).
  apply (Hentry [Fixture.app_entry; Fixture.nameless_entry] (JInt 5) [Fixture.tool_entry]).
  - reflexivity.
  - repeat constructor.
  - reflexivity.
Defined.

(** ** Processing one package *)

Lemma substring_whole s : forall n, String.length s <= n -> substring 0 n s = s.
Proof.
  induction s as [|c s IH]; intros n Hn; destruct n as [|n]; cbn in *; try reflexivity; try lia.
  f_equal. apply IH. lia.
Qed.

Lemma substring_length s : forall n, String.length (substring 0 n s) <= n.
Proof.
  induction s as [|c s IH]; intros n; destruct n as [|n]; cbn; try lia.
  specialize (IH n). lia.
Qed.

Lemma length_append s : forall t, String.length (s ++ t) = String.length s + String.length t.
Proof. induction s as [|c s IH]; intros t; cbn; [reflexivity | now rewrite IH]. Qed.

Section Processing.

Lemma process_package_runs name id url include_prerelease pattern registry :
  process_package name id url include_prerelease pattern registry
  = let resolution :=
      PackageManagerRegistry.get_latest_release registry url include_prerelease pattern in
    let head := map Say (announcement name id url pattern) ++ map Core (trace_of resolution) in
    match outcome resolution with
    | inl e => (head, inl (Raised e))
    | inr None => (head ++ [Say MsgNoReleaseInfo], inr tt)
    | inr (Some info) =>
        if Py.truthy (release_notes info) then
          match notes_preview (release_notes info) with
          | inl e => (head ++ map Say (report info), inl (Raised e))
          | inr preview =>
              (head ++ map Say (report info ++ [MsgReleaseNotes preview]), inr tt)
          end
        else (head ++ map Say (report info), inr tt)
    end.
Proof.
  cbv zeta. unfold process_package, announcement, report, of_M, of_E.
  destruct (PackageManagerRegistry.get_latest_release registry url include_prerelease pattern)
    as [t [e|[info|]]]; cbn [fst snd outcome trace_of].
  - destruct (String.eqb pattern ""); reflexivity.
  - destruct (String.eqb pattern ""); cbn [negb say ret bind Monad_IO app map];
      destruct (Py.truthy (published_at info)), (Py.truthy (release_notes info));
      try destruct (notes_preview (release_notes info)) as [e|preview];
      cbn [negb say ret bind Monad_IO app map]; rewrite ?app_nil_r, ?map_app;
      cbn [map app]; rewrite <- ?app_assoc; reflexivity.
  - destruct (String.eqb pattern ""); reflexivity.
Qed.

Lemma said_trace {A} (head : list notice) (t : list event) (tail : list notice)
      (x : failure + A) :
  said (map Say head ++ map Core t ++ map Say tail, x) = head ++ tail.
Proof.
  unfold said. cbn [fst]. rewrite !flat_map_app. f_equal; [|].
  - induction head as [|n head IH]; [reflexivity | cbn; now rewrite IH].
  - replace (flat_map _ (map Core t)) with (@nil notice)
      by (induction t as [|ev t IH]; [reflexivity | exact IH]).
    induction tail as [|n tail IH]; [reflexivity | cbn in *; now rewrite IH].
Qed.

Lemma sent_trace {A B} (head : list notice) (t : list event) (tail : list notice)
      (x : failure + A) (y : exn + B) :
  sent (map Say head ++ map Core t ++ map Say tail, x) = requested (t, y).
Proof.
  unfold sent, requested, trace_of. cbn [fst]. rewrite !flat_map_app.
  replace (flat_map _ (map Say head)) with (@nil request)
    by (induction head as [|n head IH]; [reflexivity | exact IH]).
  replace (flat_map _ (map Say tail)) with (@nil request)
    by (induction tail as [|n tail IH]; [reflexivity | exact IH]).
  rewrite app_nil_r. cbn [app].
  induction t as [|[d|r] t IH]; cbn; [reflexivity | exact IH | now rewrite IH].
Qed.

End Processing.

(** X14. [process_package] sends the requests of the registry's resolution
    and no other.  It has no handler: an exception that leaves the
    registry leaves [process_package], after the lines that announce the
    package.  When the registry returns [None] the last line printed says
    that no release information could be obtained. *)
Theorem process_package_propagates_registry_errors :
  forall (name id : json) (url : string) (include_prerelease : bool)
         (pattern : string) (registry : PackageManagerRegistry.t),
    let resolution :=
      PackageManagerRegistry.get_latest_release registry url include_prerelease pattern in
    let run := process_package name id url include_prerelease pattern registry in
    sent run = requested resolution
    /\ (forall e, outcome resolution = inl e ->
                  result run = inl (Raised e)
                  /\ said run = announcement name id url pattern)
    /\ (outcome resolution = inr None ->
        result run = inr tt
        /\ said run = announcement name id url pattern ++ [MsgNoReleaseInfo]).
Proof.
  intros name id url pre pattern registry resolution run. subst run.
  rewrite process_package_runs. fold resolution. cbv zeta.
  destruct resolution as [t [e|[info|]]]; cbn [outcome trace_of fst snd].
  - split; [|split; [|discriminate]].
    + rewrite <- (app_nil_r (map Core t)). apply (sent_trace _ t []).
    + intros e' [= <-]. split; [reflexivity|].
      rewrite <- (app_nil_r (map Core t)).
      rewrite (said_trace _ t []). apply app_nil_r.
  - split; [|split; discriminate].
    destruct (Py.truthy (release_notes info));
      [destruct (notes_preview (release_notes info))|];
      rewrite <- app_assoc; apply sent_trace.
  - split; [|split; [discriminate|]].
    + rewrite <- app_assoc. apply (sent_trace _ t [MsgNoReleaseInfo]).
    + intros _. split; [reflexivity|]. rewrite <- app_assoc.
      apply (said_trace _ t [MsgNoReleaseInfo]).
Qed.

Lemma process_package_propagates_registry_errors_witness :
  (result (process_package (JStr "App") (JStr "Vendor.App") "https://[github.com/owner/repo"
                           false "win" Fixture.registry)
   = inl (Raised (ValueError "Invalid IPv6 URL"))
   /\ said (process_package (JStr "App") (JStr "Vendor.App") "https://[github.com/owner/repo"
                            false "win" Fixture.registry)
      = [MsgProcessing (JStr "App") (JStr "Vendor.App");
         MsgPackageUrl "https://[github.com/owner/repo"; MsgPackagePattern "win"])
  /\ (result (process_package (JStr "App") (JStr "Vendor.App") "https://gitlab.com/owner/repo"
                              false "" Fixture.registry)
      = inr tt
      /\ said (process_package (JStr "App") (JStr "Vendor.App") "https://gitlab.com/owner/repo"
                               false "" Fixture.registry)
         = [MsgProcessing (JStr "App") (JStr "Vendor.App");
            MsgPackageUrl "https://gitlab.com/owner/repo"; MsgNoReleaseInfo]).
Proof.
  split.
  - destruct (process_package_propagates_registry_errors
                (JStr "App") (JStr "Vendor.App") "https://[github.com/owner/repo"
                false "win" Fixture.registry) as (_ & Hraises & _).
    apply (Hraises (ValueError "Invalid IPv6 URL")). vm_compute. reflexivity.
  - destruct (process_package_propagates_registry_errors
                (JStr "App") (JStr "Vendor.App") "https://gitlab.com/owner/repo"
                false "" Fixture.registry) as (_ & _ & Hnone).
    apply Hnone. vm_compute. reflexivity.
Defined.

(** X15. When the registry finds a release whose notes are a non-empty
    text, [process_package] ends normally and the last line it prints shows
    the notes whole when they have at most 100 characters, and else their
    first 100 characters followed by three dots: never more than 103
    characters. *)
Theorem process_package_previews_the_notes :
  forall (name id : json) (url : string) (include_prerelease : bool)
         (pattern : string) (registry : PackageManagerRegistry.t) (info : ReleaseInfo)
         (notes : string),
    outcome (PackageManagerRegistry.get_latest_release registry url include_prerelease pattern)
    = inr (Some info) ->
    release_notes info = JStr notes ->
    notes <> "" ->
    exists preview,
      result (process_package name id url include_prerelease pattern registry) = inr tt
      /\ said (process_package name id url include_prerelease pattern registry)
         = announcement name id url pattern ++ report info ++ [MsgReleaseNotes (JStr preview)]
      /\ String.length preview <= 103
      /\ (String.length notes <= 100 -> preview = notes)
      /\ (100 < String.length notes -> preview = (substring 0 100 notes ++ "...")%string).
Proof.
  intros name id url pre pattern registry info notes Hrun Hnotes Hne.
  rewrite process_package_runs. cbv zeta. rewrite Hrun, Hnotes.
  cbn [Py.truthy notes_preview]. apply String.eqb_neq in Hne. rewrite Hne. cbn [negb].
  exists (if Nat.ltb 100 (String.length notes)
          then (substring 0 100 notes ++ "...")%string else substring 0 100 notes).
  split; [reflexivity|]. split.
  - rewrite <- app_assoc.
    rewrite (said_trace (announcement name id url pattern) _ _). reflexivity.
  - destruct (Nat.ltb 100 (String.length notes)) eqn:Hlen.
    + apply Nat.ltb_lt in Hlen. split; [|split; [lia | reflexivity]].
      rewrite length_append. pose proof (substring_length notes 100). cbn. lia.
    + apply Nat.ltb_ge in Hlen. split; [|split; [|lia]].
      * pose proof (substring_length notes 100). lia.
      * intros _. now apply substring_whole.
Qed.

Lemma process_package_previews_the_notes_witness :
  exists preview,
    result (process_package (JStr "V") (JStr "Vendor.V") "https://github.com/owner/verbose"
                            false "" Fixture.registry)
    = inr tt
    /\ said (process_package (JStr "V") (JStr "Vendor.V") "https://github.com/owner/verbose"
                             false "" Fixture.registry)
       = announcement (JStr "V") (JStr "Vendor.V") "https://github.com/owner/verbose" ""
           ++ report (mkReleaseInfo (JStr "v3.0") (JStr "v3.0") (JStr "") (JStr "")
                                    (JStr Fixture.long_notes))
           ++ [MsgReleaseNotes (JStr preview)]
    /\ String.length preview <= 103
    /\ (String.length Fixture.long_notes <= 100 -> preview = Fixture.long_notes)
    /\ (100 < String.length Fixture.long_notes ->
        preview = (substring 0 100 Fixture.long_notes ++ "...")%string).
Proof.
  apply (process_package_previews_the_notes
           (JStr "V") (JStr "Vendor.V") "https://github.com/owner/verbose" false ""
           Fixture.registry
           (mkReleaseInfo (JStr "v3.0") (JStr "v3.0") (JStr "") (JStr "")
                          (JStr Fixture.long_notes))
           Fixture.long_notes).
  - vm_compute. reflexivity.
  - reflexivity.
  - discriminate.
Defined.
